(** * Eliza memory components: a shallow embedding and its properties

    The three flow components of [langflow/components/eliza]
    ([ElizaMemoryComponent], [ElizaMemorySearchComponent] and
    [ElizaMemoryStoreComponent]) are thin adapters around an external
    long-term-memory object.  This file embeds them as programs of a small
    state-and-exception monad over the component's fields and a log of the
    operations performed on the external object, and proves properties of
    their dispatch, parsing and error handling.

    Conventions of the embedding:
    - a Python [str] is a [string] whose characters are code points below
      256; [strip] removes the characters for which Python's [str.isspace]
      holds in that range;
    - an exception is represented by its text [str(e)]; only exceptions
      derived from [Exception] are modelled (the ones [except Exception]
      catches);
    - the external memory object is a handle with an identity, a truth
      value, a set of attribute names for which [hasattr] holds, and a
      response function that may depend on everything that happened
      before (the log), so that stateful engines are covered. *)

From Stdlib Require Import String Ascii List ZArith Bool Lia.
From Stdlib Require Import Numbers.DecimalString.
Import ListNotations.
Open Scope list_scope.
Open Scope string_scope.

(** ** Python strings *)

Module PyString.

(** [str.isspace] on one character, for code points below 256:
    TAB, LF, VT, FF, CR, the separators FS, GS, RS, US, SPACE, NEL and
    NO-BREAK SPACE. *)
Definition is_space (c : ascii) : bool :=
  let n := nat_of_ascii c in
  (Nat.leb 9 n && Nat.leb n 13) || (Nat.leb 28 n && Nat.leb n 32)
  || Nat.eqb n 133 || Nat.eqb n 160.

(** Truth value of a string: [bool(s)]. *)
Definition nonempty (s : string) : bool :=
  match s with EmptyString => false | String _ _ => true end.

(** [s.split(sep)] for a one-character separator: always at least one
    piece, pieces may be empty. *)
Fixpoint split (sep : ascii) (s : string) : list string :=
  match s with
  | EmptyString => [EmptyString]
  | String c rest =>
      if Ascii.eqb c sep then EmptyString :: split sep rest
      else match split sep rest with
           | [] => [String c EmptyString]
           | p :: ps => String c p :: ps
           end
  end.

(** [s.lstrip()], [s.rstrip()] and [s.strip()]. *)
Fixpoint lstrip (s : string) : string :=
  match s with
  | EmptyString => EmptyString
  | String c rest => if is_space c then lstrip rest else s
  end.

Fixpoint rstrip (s : string) : string :=
  match s with
  | EmptyString => EmptyString
  | String c rest =>
      match rstrip rest with
      | EmptyString => if is_space c then EmptyString else String c EmptyString
      | r => String c r
      end
  end.

Definition strip (s : string) : string := rstrip (lstrip s).

(** [sep.join(pieces)]. *)
Fixpoint join (sep : ascii) (pieces : list string) : string :=
  match pieces with
  | [] => EmptyString
  | [p] => p
  | p :: ps => p ++ String sep (join sep ps)
  end.

Fixpoint all_space (s : string) : bool :=
  match s with
  | EmptyString => true
  | String c rest => is_space c && all_space rest
  end.

Fixpoint contains_char (x : ascii) (s : string) : bool :=
  match s with
  | EmptyString => false
  | String c rest => Ascii.eqb c x || contains_char x rest
  end.

Definition first_char (s : string) : option ascii :=
  match s with EmptyString => None | String c _ => Some c end.

Fixpoint last_char (s : string) : option ascii :=
  match s with
  | EmptyString => None
  | String c EmptyString => Some c
  | String _ rest => last_char rest
  end.

(** A string has surrounding whitespace when its first or its last
    character is a whitespace character. *)
Definition space_at (o : option ascii) : bool :=
  match o with Some c => is_space c | None => false end.

Definition has_surrounding_space (s : string) : bool :=
  space_at (first_char s) || space_at (last_char s).

(** [c.upper()] for one character below 256: the letters a-z and the
    Latin-1 letters U+00E0-U+00FE (without the division sign U+00F7) move
    down by 32, and the sharp s U+00DF becomes ["SS"].  The micro sign
    U+00B5 and U+00FF have their upper-case forms above U+00FF, outside
    the characters of this embedding; they are kept as they are. *)
Definition upper_char (c : ascii) : string :=
  let n := nat_of_ascii c in
  if (Nat.leb 97 n && Nat.leb n 122)
     || (Nat.leb 224 n && Nat.leb n 254 && negb (Nat.eqb n 247))
  then String (ascii_of_nat (n - 32)) EmptyString
  else if Nat.eqb n 223 then "SS"
  else String c EmptyString.

(** [s.upper()]. *)
Fixpoint upper (s : string) : string :=
  match s with
  | EmptyString => EmptyString
  | String c rest => upper_char c ++ upper rest
  end.

(** [str(n)] for a non-negative integer such as a length. *)
Definition of_nat (n : nat) : string :=
  NilEmpty.string_of_uint (Nat.to_uint n).

End PyString.

(** ** Comma-separated inputs *)

(** Truth value of a text input that may be absent ([None]) or empty. *)
Definition text_truthy (inp : option string) : bool :=
  match inp with
  | Some s => PyString.nonempty s
  | None => false
  end.

(** The comprehension [[t.strip() for t in s.split(",") if t.strip()]]. *)
Definition comma_pieces (s : string) : list string :=
  flat_map
    (fun t => if PyString.nonempty (PyString.strip t)
              then [PyString.strip t] else [])
    (PyString.split "," s).

(** The parsing block shared by the adapters,
    [xs = []; if self.xs: xs = [...]], used for [memory_types] and [tags]
    in the search component and for [tags] in the store component. *)
Definition parse_comma_list (inp : option string) : list string :=
  match inp with
  | Some s => if PyString.nonempty s then comma_pieces s else []
  | None => []
  end.

(** The code points below 256 that Python counts as whitespace. *)
Definition whitespace_code_points : list nat :=
  [9; 10; 11; 12; 13; 28; 29; 30; 31; 32; 133; 160].

(** [t] is the piece [p] without its leading and trailing whitespace:
    what was removed on either side is whitespace only, and [t] neither
    starts nor ends with a whitespace character. *)
Definition trimmed_from (p t : string) : Prop :=
  exists l r,
    p = l ++ t ++ r
    /\ PyString.all_space l = true
    /\ PyString.all_space r = true
    /\ PyString.has_surrounding_space t = false.

(** The parsing as the specification words it: split on commas, strip each
    piece, drop the pieces that are empty after stripping. *)
Definition split_strip_drop (inp : option string) : list string :=
  match inp with
  | Some s =>
      filter PyString.nonempty (map PyString.strip (PyString.split "," s))
  | None => []
  end.

(** ** Python values *)

(** The values that cross the boundary with the external engine.  A float
    is carried as its IEEE-754 binary64 bit pattern and never computed on.
    A dictionary is an association list in insertion order, with string
    keys.  An object is its attribute table; a method without arguments
    (such as [to_dict]) is the attribute holding what the call returns. *)
#[local] Set Warnings "-register-all".
Inductive PyVal : Type :=
| PyNone
| PyBool (b : bool)
| PyInt (n : Z)
| PyFloat (bits : Z)
| PyStr (s : string)
| PyList (xs : list PyVal)
| PyTuple (xs : list PyVal)
| PyDict (kvs : list (string * PyVal))
| PyObj (attrs : list (string * PyVal)).

(** The result of an operation that may raise: the value, or the text of
    the exception. *)
Inductive Outcome (A : Type) : Type :=
| Return (a : A)
| Raise (text : string).
Arguments Return {A} a.
Arguments Raise {A} text.

Module Py.

Definition dict := list (string * PyVal).

Fixpoint dict_get (k : string) (d : dict) : option PyVal :=
  match d with
  | [] => None
  | (k', v) :: rest => if String.eqb k k' then Some v else dict_get k rest
  end.

(** [d[k] = v]: replaces the value of an existing key in place, appends a
    new key at the end. *)
Fixpoint dict_set (k : string) (v : PyVal) (d : dict) : dict :=
  match d with
  | [] => [(k, v)]
  | (k', v') :: rest =>
      if String.eqb k k' then (k, v) :: rest else (k', v') :: dict_set k v rest
  end.

(** [d.update(other)]. *)
Definition dict_update (d other : dict) : dict :=
  fold_left (fun acc kv => dict_set (fst kv) (snd kv) acc) other d.

Definition type_name (v : PyVal) : string :=
  match v with
  | PyNone => "NoneType"
  | PyBool _ => "bool"
  | PyInt _ => "int"
  | PyFloat _ => "float"
  | PyStr _ => "str"
  | PyList _ => "list"
  | PyTuple _ => "tuple"
  | PyDict _ => "dict"
  | PyObj _ => "object"
  end.

(** [bool(v)]; an object without [__bool__] and [__len__] is true. *)
Definition truthy (v : PyVal) : bool :=
  match v with
  | PyNone => false
  | PyBool b => b
  | PyInt n => negb (Z.eqb n 0)
  | PyFloat bits => negb (Z.eqb bits 0 || Z.eqb bits (2 ^ 63))
  | PyStr s => PyString.nonempty s
  | PyList xs | PyTuple xs => match xs with [] => false | _ => true end
  | PyDict kvs => match kvs with [] => false | _ => true end
  | PyObj _ => true
  end.

Definition no_attribute (v : PyVal) (name : string) : string :=
  "'" ++ type_name v ++ "' object has no attribute '" ++ name ++ "'".

(** [v.name] for an attribute that no built-in type has. *)
Definition getattr (v : PyVal) (name : string) : Outcome PyVal :=
  match v with
  | PyObj attrs =>
      match dict_get name attrs with
      | Some x => Return x
      | None => Raise (no_attribute v name)
      end
  | _ => Raise (no_attribute v name)
  end.

(** [hasattr(v, name)], same restriction. *)
Definition hasattr (v : PyVal) (name : string) : bool :=
  match getattr v name with Return _ => true | Raise _ => false end.

(** [v.get(k, default)]: the dictionary method; any other value has no
    [get]. *)
Definition get (v : PyVal) (k : string) (default : PyVal) : Outcome PyVal :=
  match v with
  | PyDict d =>
      Return (match dict_get k d with Some x => x | None => default end)
  | _ => Raise (no_attribute v "get")
  end.

(** The bound method [v.get]: only a dictionary has one. *)
Definition bound_get (v : PyVal) : Outcome dict :=
  match v with
  | PyDict d => Return d
  | _ => Raise (no_attribute v "get")
  end.

(** The type that makes [hash(v)] fail, if there is one: a list or a
    dictionary, also inside a tuple. *)
Fixpoint unhashable (v : PyVal) : option string :=
  match v with
  | PyList _ => Some "list"
  | PyDict _ => Some "dict"
  | PyTuple xs =>
      (fix first (l : list PyVal) : option string :=
         match l with
         | [] => None
         | x :: rest =>
             match unhashable x with
             | Some t => Some t
             | None => first rest
             end
         end) xs
  | _ => None
  end.

(** [d.get(key, default)] where the key is itself a value: an unhashable
    key raises, and a hashable key that is not a string is never found
    among the string keys. *)
Definition get_by (d : dict) (key default : PyVal) : Outcome PyVal :=
  match unhashable key with
  | Some t => Raise ("unhashable type: '" ++ t ++ "'")
  | None =>
      match key with
      | PyStr k =>
          Return (match dict_get k d with Some x => x | None => default end)
      | _ => Return default
      end
  end.

(** [v[k] = x] for a string key. *)
Definition setitem (v : PyVal) (k : string) (x : PyVal) : Outcome PyVal :=
  match v with
  | PyDict d => Return (PyDict (dict_set k x d))
  | PyList _ => Raise "list indices must be integers or slices, not str"
  | _ => Raise ("'" ++ type_name v ++ "' object does not support item assignment")
  end.

Definition chars (s : string) : list PyVal :=
  map (fun c => PyStr (String c EmptyString)) (list_ascii_of_string s).

(** The elements a [for] loop over [v] visits. *)
Definition iter (v : PyVal) : Outcome (list PyVal) :=
  match v with
  | PyList xs | PyTuple xs => Return xs
  | PyDict kvs => Return (map (fun kv => PyStr (fst kv)) kvs)
  | PyStr s => Return (chars s)
  | _ => Raise ("'" ++ type_name v ++ "' object is not iterable")
  end.

(** The target list [a, b = v]. *)
Definition unpack2 (v : PyVal) : Outcome (PyVal * PyVal) :=
  match iter v with
  | Raise _ =>
      Raise ("cannot unpack non-iterable " ++ type_name v ++ " object")
  | Return [a; b] => Return (a, b)
  | Return (_ :: _ :: _ :: _) => Raise "too many values to unpack (expected 2)"
  | Return few =>
      Raise ("not enough values to unpack (expected 2, got "
               ++ PyString.of_nat (List.length few) ++ ")")
  end.

(** [v.upper()]: only a string has it. *)
Definition upper (v : PyVal) : Outcome string :=
  match v with
  | PyStr s => Return (PyString.upper s)
  | _ => Raise (no_attribute v "upper")
  end.

Definition of_strings (l : list string) : PyVal := PyList (map PyStr l).

Definition of_dict (o : option dict) : PyVal :=
  match o with Some d => PyDict d | None => PyNone end.

End Py.

(** ** Framework envelopes *)

(** Modelled from the spec: the host framework's [Data] and [Message]
    classes are not part of the sources; they are pass-through envelopes
    wrapping a payload, respectively a text. *)
Record Data : Type := mkData { data : PyVal }.
Record Message : Type := mkMessage { text : PyVal }.

Definition empty_data : Data := mkData (PyDict []).

(** ** The external memory object *)

(** An operation on the external object.  [Hasattr] is a presence probe,
    [GetAttr] a plain attribute read, the others are method calls with
    the arguments of the call site. *)
Inductive Call : Type :=
| Hasattr (name : string)
| GetAttr (name : string)
| SaveContext (inputs outputs : PyVal)
| LoadMemoryVariables (inputs : PyVal)
| SearchMemories (query : string) (memory_types : option (list string))
    (limit : Z)
| SearchMemoriesSemantic (query : string) (limit : Z)
    (memory_types : list string)
| AddMemory (content memory_type : string) (metadata : PyVal)
    (tags : list string)
| StoreMemory (user_id content memory_type session_id : string)
    (metadata : PyVal) (tags : list string) (relevance_score : PyVal)
| GetMemoryAnalytics
| GetTimestamp.

(** The member of the external object an operation touches. *)
Definition member (c : Call) : string :=
  match c with
  | Hasattr name => name
  | GetAttr name => name
  | SaveContext _ _ => "save_context"
  | LoadMemoryVariables _ => "load_memory_variables"
  | SearchMemories _ _ _ => "search_memories"
  | SearchMemoriesSemantic _ _ _ => "search_memories_semantic"
  | AddMemory _ _ _ _ => "add_memory"
  | StoreMemory _ _ _ _ _ _ _ => "store_memory"
  | GetMemoryAnalytics => "get_memory_analytics"
  | GetTimestamp => "_get_timestamp"
  end.

Definition is_probe (c : Call) : bool :=
  match c with Hasattr _ => true | _ => false end.

Definition is_method_call (c : Call) : bool :=
  match c with
  | Hasattr _ | GetAttr _ => false
  | _ => true
  end.

(** What happened outside the component: a call of the factory
    [create_eliza_memory], or an operation on the object with the given
    identity. *)
Inductive Event : Type :=
| Created (session_id user_id : string) (memory_extraction : bool)
| On (id : nat) (c : Call).

Definition Log := list Event.

(** A memory-instance handle.  [inst_has] tells for which names [hasattr]
    holds, and [inst_respond log c] is what operation [c] returns or
    raises when everything in [log] has happened before.  Nothing ties
    the two together: the properties below hold for every object, also
    one that answers a call on a name it does not advertise. *)
Record Instance : Type := mkInstance {
  inst_id : nat;
  inst_truthy : bool;
  inst_has : string -> bool;
  inst_respond : Log -> Call -> Outcome PyVal
}.

(** A handle input: [None] when nothing is connected.  [usable h] is the
    object when [h] is true in a condition ([if h]), and nothing when
    [not h].  The truth test is taken to answer: an object whose
    [__bool__] or [__len__] raises is outside this embedding. *)
Definition usable (h : option Instance) : option Instance :=
  match h with
  | Some inst => if inst_truthy inst then Some inst else None
  | None => None
  end.

Definition usable_text (inp : option string) : option string :=
  match inp with
  | Some s => if PyString.nonempty s then Some s else None
  | None => None
  end.

(** The factory of the memory library: from what happened so far, the
    session, the user and the extraction flag to a new instance, or an
    exception. *)
Definition Factory : Type :=
  Log -> string -> string -> bool -> Outcome Instance.

(** What the components take from their environment: the memory library
    (not among the sources), and the built-ins that are left abstract.
    [eliza_memory_module] is what the statement
    [from langchain.memory.eliza_memory import create_eliza_memory]
    gives: the factory, or the text of the import error.  The built-ins
    are [str()] of floats, containers and objects, [==] and the [:.2f]
    format, which raises on a value that is not a number. *)
Class Host : Type := mkHost {
  eliza_memory_module : Outcome Factory;
  str_other : PyVal -> string;
  py_eq : PyVal -> PyVal -> bool;
  format_2f : PyVal -> Outcome string
}.

(** The import statement itself: nothing, or the import error. *)
Definition import_create_eliza_memory {host : Host} : Outcome unit :=
  match eliza_memory_module with
  | Return _ => Return tt
  | Raise e => Raise e
  end.

(** The factory as the component reaches it, by the name the import binds:
    what the imported function answers, and the import error when there
    is no such function. *)
Definition create_eliza_memory {host : Host} : Factory :=
  fun lg session_id user_id memory_extraction =>
    match eliza_memory_module with
    | Return factory => factory lg session_id user_id memory_extraction
    | Raise e => Raise e
    end.

(** [str(v)]. *)
Definition py_str {host : Host} (v : PyVal) : string :=
  match v with
  | PyStr s => s
  | PyNone => "None"
  | PyBool true => "True"
  | PyBool false => "False"
  | PyInt n => NilEmpty.string_of_int (Z.to_int n)
  | _ => str_other v
  end.

(** ** Programs over a component and the log *)

(** The state a method runs in: the component object ([self]) and the log
    of what happened outside. *)
Record Run (C : Type) : Type := mkRun { self : C; log : Log }.
Arguments mkRun {C} self log.
Arguments self {C} r.
Arguments log {C} r.

(** A method body: from a state to an outcome and the state it leaves.
    An assignment made before an exception is raised stays made. *)
Definition M (C A : Type) : Type := Run C -> Outcome A * Run C.

Module Prog.

Definition ret {C A} (a : A) : M C A := fun st => (Return a, st).

Definition bind {C A B} (m : M C A) (k : A -> M C B) : M C B :=
  fun st =>
    match m st with
    | (Return a, st') => k a st'
    | (Raise e, st') => (Raise e, st')
    end.

(** [try: body except Exception as e: handler(str(e))]. *)
Definition try {C A} (body : M C A) (handler : string -> M C A) : M C A :=
  fun st =>
    match body st with
    | (Return a, st') => (Return a, st')
    | (Raise e, st') => handler e st'
    end.

Definition get_self {C} : M C C := fun st => (Return (self st), st).

Definition update {C} (f : C -> C) : M C unit :=
  fun st => (Return tt, mkRun (f (self st)) (log st)).

(** An outcome computed without touching the state. *)
Definition lift {C A} (o : Outcome A) : M C A := fun st => (o, st).

(** [hasattr(inst, name)]. *)
Definition probe {C} (inst : Instance) (name : string) : M C bool :=
  fun st =>
    (Return (inst_has inst name),
     mkRun (self st) (log st ++ [On (inst_id inst) (Hasattr name)])%list).

(** A method call or attribute read on the external object: the object
    answers from what happened so far, and the operation is logged. *)
Definition call {C} (inst : Instance) (c : Call) : M C PyVal :=
  fun st =>
    (inst_respond inst (log st) c,
     mkRun (self st) (log st ++ [On (inst_id inst) c])%list).

(** A call of the factory [create_eliza_memory]. *)
Definition create {host : Host} {C} (session_id user_id : string)
    (memory_extraction : bool) : M C Instance :=
  fun st =>
    (create_eliza_memory (log st) session_id user_id memory_extraction,
     mkRun (self st)
       (log st ++ [Created session_id user_id memory_extraction])%list).

(** [for x in xs: body(x)]. *)
Fixpoint for_each {C A} (xs : list A) (body : A -> M C unit) : M C unit :=
  match xs with
  | [] => ret tt
  | x :: rest => bind (body x) (fun _ => for_each rest body)
  end.

End Prog.

Declare Scope prog_scope.
Delimit Scope prog_scope with prog.
Notation "x <- m ;; k" := (Prog.bind m (fun x => k))
  (at level 61, m at next level, right associativity) : prog_scope.
Notation "m ;; k" := (Prog.bind m (fun _ => k))
  (at level 61, right associativity) : prog_scope.
Notation "' ( a , b ) <- m ;; k" :=
  (Prog.bind m (fun ab => let '(a, b) := ab in k))
  (at level 61, m at next level, right associativity) : prog_scope.
Open Scope prog_scope.

Definition nl : string := String (ascii_of_nat 10) EmptyString.

(** [memory.copy() if isinstance(memory, dict) else memory], followed by
    [if hasattr(memory_data, 'to_dict'): memory_data = memory_data.to_dict()].
    Values are immutable here, so the copy is the value itself. *)
Definition as_memory_data (memory : PyVal) : Outcome PyVal :=
  let memory_data := memory in
  if Py.hasattr memory_data "to_dict" then Py.getattr memory_data "to_dict"
  else Return memory_data.

(** ** ElizaMemorySearchComponent *)

Module Search.

(** The input fields, the [status] sink of the framework, and the two
    attributes cached on the component. *)
Record Component : Type := mkComponent {
  search_query : option string;
  user_id : string;
  memory_types : option string;
  tags : option string;
  limit : Z;
  semantic_search : bool;
  include_analytics : bool;
  memory_instance : option Instance;
  status : string;
  _search_results : list Data;
  _analytics : PyVal
}.

Definition set_status (s : string) (c : Component) : Component :=
  mkComponent (search_query c) (user_id c) (memory_types c) (tags c)
    (limit c) (semantic_search c) (include_analytics c) (memory_instance c)
    s (_search_results c) (_analytics c).

Definition set_search_results (l : list Data) (c : Component) : Component :=
  mkComponent (search_query c) (user_id c) (memory_types c) (tags c)
    (limit c) (semantic_search c) (include_analytics c) (memory_instance c)
    (status c) l (_analytics c).

Definition set_analytics (a : PyVal) (c : Component) : Component :=
  mkComponent (search_query c) (user_id c) (memory_types c) (tags c)
    (limit c) (semantic_search c) (include_analytics c) (memory_instance c)
    (status c) (_search_results c) a.

(** [self._search_results.append(d)]. *)
Definition append_result (d : Data) : M Component unit :=
  Prog.update (fun c => set_search_results (_search_results c ++ [d])%list c).

(** One turn of the loop of the semantic branch. *)
Definition keep_scored (item : PyVal) : M Component unit :=
  '(memory, similarity) <- Prog.lift (Py.unpack2 item) ;;
  memory_data <- Prog.lift (as_memory_data memory) ;;
  memory_data <- Prog.lift (Py.setitem memory_data "similarity_score" similarity) ;;
  append_result (mkData memory_data).

(** One turn of the loop of the keyword branch. *)
Definition keep_plain (memory : PyVal) : M Component unit :=
  memory_data <- Prog.lift (as_memory_data memory) ;;
  append_result (mkData memory_data).

(** The semantic branch: the call, then the conversion loop. *)
Definition semantic_branch (inst : Instance) (query : string)
    (types : list string) : M Component unit :=
  c <- Prog.get_self ;;
  results <- Prog.call inst (SearchMemoriesSemantic query (limit c) types) ;;
  Prog.update (set_search_results []) ;;
  items <- Prog.lift (Py.iter results) ;;
  Prog.for_each items keep_scored.

(** The keyword branch. *)
Definition keyword_branch (inst : Instance) (query : string)
    (types : list string) : M Component unit :=
  c <- Prog.get_self ;;
  results <- Prog.call inst (SearchMemories query (Some types) (limit c)) ;;
  Prog.update (set_search_results []) ;;
  items <- Prog.lift (Py.iter results) ;;
  Prog.for_each items keep_plain.

(** [flag and hasattr(inst, name)]: the probe is made only when the flag
    is set. *)
Definition flag_and_has (flag : bool) (inst : Instance) (name : string)
    : M Component bool :=
  if flag then Prog.probe inst name else Prog.ret false.

(** The last two statements of the [try] block. *)
Definition report_found : M Component (list Data) :=
  c <- Prog.get_self ;;
  Prog.update
    (set_status
       ("Found " ++ PyString.of_nat (List.length (_search_results c))
          ++ " memories")) ;;
  Prog.ret (_search_results c).

(** The body of the [try] block of [search_memories], entered with the
    memory instance and the query that passed the two guards. *)
Definition search_attempt (inst : Instance) (query : string)
    : M Component (list Data) :=
  c <- Prog.get_self ;;
  let types := parse_comma_list (memory_types c) in
  let tags := parse_comma_list (tags c) in
  semantic <- flag_and_has (semantic_search c) inst "search_memories_semantic" ;;
  (if semantic then semantic_branch inst query types
   else keyword_branch inst query types) ;;
  analytics <- flag_and_has (include_analytics c) inst "get_memory_analytics" ;;
  (if analytics
   then a <- Prog.call inst GetMemoryAnalytics ;; Prog.update (set_analytics a)
   else Prog.ret tt) ;;
  report_found.

Definition search_failed (e : string) : M Component (list Data) :=
  Prog.update (set_status ("Error searching memories: " ++ e)) ;;
  Prog.ret [].

Definition search_memories : M Component (list Data) :=
  c <- Prog.get_self ;;
  match usable (memory_instance c) with
  | None =>
      Prog.update (set_status "No memory instance provided") ;; Prog.ret []
  | Some inst =>
      match usable_text (search_query c) with
      | None =>
          Prog.update (set_status "No search query provided") ;; Prog.ret []
      | Some query => Prog.try (search_attempt inst query) search_failed
      end
  end.

(** One numbered entry of the formatted text. *)
Definition format_entry {host : Host} (i : nat) (result : Data)
    : Outcome string :=
  let d := data result in
  match Py.get d "content" (PyStr "No content") with
  | Raise e => Raise e
  | Return content =>
  match Py.get d "memory_type" (PyStr "unknown") with
  | Raise e => Raise e
  | Return memory_type =>
  match Py.get d "similarity_score" PyNone with
  | Raise e => Raise e
  | Return similarity =>
  match Py.upper memory_type with
  | Raise e => Raise e
  | Return shout =>
      let line :=
        PyString.of_nat i ++ ". [" ++ shout ++ "] " ++ py_str content in
      match similarity with
      | PyNone => Return (line ++ nl ++ nl)
      | _ =>
          match format_2f similarity with
          | Raise e => Raise e
          | Return score =>
              Return (line ++ " (similarity: " ++ score ++ ")" ++ nl ++ nl)
          end
      end
  end end end end.

(** The loop [for i, result in enumerate(results, 1)] appending to the
    text built so far. *)
Fixpoint format_entries {host : Host} (i : nat) (results : list Data)
    (formatted_text : string) : Outcome string :=
  match results with
  | [] => Return formatted_text
  | result :: rest =>
      match format_entry i result with
      | Raise e => Raise e
      | Return entry => format_entries (S i) rest (formatted_text ++ entry)
      end
  end.

Definition get_formatted_results {host : Host} : M Component Message :=
  search_memories ;;
  c <- Prog.get_self ;;
  match _search_results c with
  | [] => Prog.ret (mkMessage (PyStr "No memories found for the given query."))
  | _ =>
      let header :=
        "Found " ++ PyString.of_nat (List.length (_search_results c))
          ++ " memories:" ++ nl ++ nl in
      formatted_text <-
        Prog.lift (format_entries 1 (_search_results c) header) ;;
      Prog.ret (mkMessage (PyStr formatted_text))
  end.

Definition get_memory_analytics : M Component Data :=
  search_memories ;;
  c <- Prog.get_self ;;
  Prog.ret (mkData (_analytics c)).

Definition get_result_count : M Component Message :=
  search_memories ;;
  c <- Prog.get_self ;;
  Prog.ret (mkMessage (PyStr (PyString.of_nat (List.length (_search_results c))))).

End Search.

(** ** ElizaMemoryStoreComponent *)

Module Store.

Record Component : Type := mkComponent {
  content : option string;
  user_id : string;
  session_id : string;
  memory_type : string;
  tags : option string;
  metadata : option Py.dict;
  relevance_score : PyVal;
  generate_embedding : bool;
  memory_instance : option Instance;
  _stored_memory : option Data;
  _memory_id : PyVal;
  _storage_status : string
}.

Definition set_stored_memory (d : option Data) (c : Component) : Component :=
  mkComponent (content c) (user_id c) (session_id c) (memory_type c) (tags c)
    (metadata c) (relevance_score c) (generate_embedding c)
    (memory_instance c) d (_memory_id c) (_storage_status c).

Definition set_memory_id (v : PyVal) (c : Component) : Component :=
  mkComponent (content c) (user_id c) (session_id c) (memory_type c) (tags c)
    (metadata c) (relevance_score c) (generate_embedding c)
    (memory_instance c) (_stored_memory c) v (_storage_status c).

Definition set_storage_status (s : string) (c : Component) : Component :=
  mkComponent (content c) (user_id c) (session_id c) (memory_type c) (tags c)
    (metadata c) (relevance_score c) (generate_embedding c)
    (memory_instance c) (_stored_memory c) (_memory_id c) s.

(** The comprehension [[m for m in memories if m.get('id') == memory_id]]. *)
Fixpoint with_id {host : Host} (memories : list PyVal) (memory_id : PyVal)
    : Outcome (list PyVal) :=
  match memories with
  | [] => Return []
  | m :: rest =>
      match Py.get m "id" PyNone with
      | Raise e => Raise e
      | Return found =>
          match with_id rest memory_id with
          | Raise e => Raise e
          | Return kept =>
              Return (if py_eq found memory_id then m :: kept else kept)
          end
      end
  end.

(** The branch taken when the instance has [add_memory]. *)
Definition add_branch {host : Host} (inst : Instance) (text : string)
    (tag_list : list string) : M Component unit :=
  c <- Prog.get_self ;;
  new_id <- Prog.call inst
    (AddMemory text (memory_type c) (Py.of_dict (metadata c)) tag_list) ;;
  Prog.update (set_memory_id new_id) ;;
  has_store <- Prog.probe inst "memory_store" ;;
  if has_store then
    memory_store <- Prog.call inst (GetAttr "memory_store") ;;
    memories <- Prog.lift (Py.getattr memory_store "memories") ;;
    items <- Prog.lift (Py.iter memories) ;;
    stored_memories <- Prog.lift (with_id items new_id) ;;
    match stored_memories with
    | [] => Prog.ret tt
    | first :: _ => Prog.update (set_stored_memory (Some (mkData first)))
    end
  else Prog.ret tt.

(** The branch taken when the instance has [store_memory] and no
    [add_memory]. *)
Definition store_branch {host : Host} (inst : Instance) (text : string)
    (tag_list : list string) : M Component unit :=
  c <- Prog.get_self ;;
  stored_memory_obj <- Prog.call inst
    (StoreMemory (user_id c) text (memory_type c) (session_id c)
       (Py.of_dict (metadata c)) tag_list (relevance_score c)) ;;
  if Py.truthy stored_memory_obj then
    if Py.hasattr stored_memory_obj "to_dict" then
      as_dict <- Prog.lift (Py.getattr stored_memory_obj "to_dict") ;;
      Prog.update (set_stored_memory (Some (mkData as_dict))) ;;
      obj_id <- Prog.lift (Py.getattr stored_memory_obj "id") ;;
      Prog.update (set_memory_id (PyStr (py_str obj_id)))
    else
      Prog.update
        (set_stored_memory
           (Some (mkData (PyDict [("id", PyStr (py_str stored_memory_obj))])))) ;;
      Prog.update (set_memory_id (PyStr (py_str stored_memory_obj)))
  else Prog.ret tt.

(** The statements after the dispatch: the status, and the stored memory
    or, without one, an envelope of the inputs. *)
Definition report_stored {host : Host} (text : string)
    (tag_list : list string) : M Component Data :=
  c <- Prog.get_self ;;
  Prog.update
    (set_storage_status
       (if Py.truthy (_memory_id c)
        then "Successfully stored memory with ID: " ++ py_str (_memory_id c)
        else "Memory stored but ID not available")) ;;
  Prog.ret
    (match _stored_memory c with
     | Some stored => stored
     | None =>
         mkData (PyDict
           [("content", PyStr text);
            ("memory_type", PyStr (memory_type c));
            ("user_id", PyStr (user_id c));
            ("session_id", PyStr (session_id c));
            ("tags", Py.of_strings tag_list);
            ("metadata", Py.of_dict (metadata c));
            ("relevance_score", relevance_score c)])
     end).

Definition unsupported : string :=
  "Error: Memory instance does not support memory storage".

(** The body of the [try] block of [store_memory].  The [else] branch of
    the dispatch returns at once; the two other branches fall through to
    the statements after it. *)
Definition store_attempt {host : Host} (inst : Instance) (text : string)
    : M Component Data :=
  c <- Prog.get_self ;;
  let tag_list := parse_comma_list (tags c) in
  can_add <- Prog.probe inst "add_memory" ;;
  if can_add then
    add_branch inst text tag_list ;; report_stored text tag_list
  else
    can_store <- Prog.probe inst "store_memory" ;;
    if can_store then
      store_branch inst text tag_list ;; report_stored text tag_list
    else
      Prog.update (set_storage_status unsupported) ;; Prog.ret empty_data.

Definition store_failed (e : string) : M Component Data :=
  Prog.update (set_storage_status ("Error storing memory: " ++ e)) ;;
  Prog.ret empty_data.

Definition store_memory {host : Host} : M Component Data :=
  c <- Prog.get_self ;;
  match usable (memory_instance c) with
  | None =>
      Prog.update (set_storage_status "Error: No memory instance provided") ;;
      Prog.ret empty_data
  | Some inst =>
      match usable_text (content c) with
      | None =>
          Prog.update (set_storage_status "Error: No content provided") ;;
          Prog.ret empty_data
      | Some text => Prog.try (store_attempt inst text) store_failed
      end
  end.

Definition get_memory_id {host : Host} : M Component Message :=
  store_memory ;;
  c <- Prog.get_self ;;
  Prog.ret
    (mkMessage
       (if Py.truthy (_memory_id c) then _memory_id c
        else PyStr "No memory ID available")).

Definition get_storage_status {host : Host} : M Component Message :=
  store_memory ;;
  c <- Prog.get_self ;;
  Prog.ret (mkMessage (PyStr (_storage_status c))).

Definition get_updated_memory_instance {host : Host}
    : M Component (option Instance) :=
  store_memory ;;
  c <- Prog.get_self ;;
  Prog.ret (memory_instance c).

End Store.

(** ** ElizaMemoryComponent *)

Module Memory.

Record Component : Type := mkComponent {
  session_id : string;
  user_id : string;
  message : option string;
  extract_memories : bool;
  include_context : bool;
  max_memories : Z;
  metadata : option Py.dict;
  existing_memory : option Instance;
  status : string;
  _memory_instance : option Instance;
  _memory_context : PyVal;
  _stored_message : option Data;
  _relevant_memories : PyVal
}.

Definition set_status (s : string) (c : Component) : Component :=
  mkComponent (session_id c) (user_id c) (message c) (extract_memories c)
    (include_context c) (max_memories c) (metadata c) (existing_memory c)
    s (_memory_instance c) (_memory_context c) (_stored_message c)
    (_relevant_memories c).

Definition set_memory_instance (h : option Instance) (c : Component)
    : Component :=
  mkComponent (session_id c) (user_id c) (message c) (extract_memories c)
    (include_context c) (max_memories c) (metadata c) (existing_memory c)
    (status c) h (_memory_context c) (_stored_message c)
    (_relevant_memories c).

Definition set_memory_context (v : PyVal) (c : Component) : Component :=
  mkComponent (session_id c) (user_id c) (message c) (extract_memories c)
    (include_context c) (max_memories c) (metadata c) (existing_memory c)
    (status c) (_memory_instance c) v (_stored_message c)
    (_relevant_memories c).

Definition set_stored_message (d : option Data) (c : Component) : Component :=
  mkComponent (session_id c) (user_id c) (message c) (extract_memories c)
    (include_context c) (max_memories c) (metadata c) (existing_memory c)
    (status c) (_memory_instance c) (_memory_context c) d
    (_relevant_memories c).

Definition set_relevant_memories (v : PyVal) (c : Component) : Component :=
  mkComponent (session_id c) (user_id c) (message c) (extract_memories c)
    (include_context c) (max_memories c) (metadata c) (existing_memory c)
    (status c) (_memory_instance c) (_memory_context c) (_stored_message c)
    v.

(** The [inputs] dictionary handed to [save_context] and
    [load_memory_variables]: the message, updated with the metadata when
    there is some. *)
Definition context_inputs (msg : string) (meta : option Py.dict) : Py.dict :=
  let inputs := [("input", PyStr msg)] in
  if Py.truthy (Py.of_dict meta)
  then Py.dict_update inputs (match meta with Some d => d | None => [] end)
  else inputs.

(** The context lookup [memory_vars.get(inst.memory_key, "")]: the method
    is looked up on [memory_vars] before the key is read from the
    instance. *)
Definition load_context (inst : Instance) (inputs : PyVal)
    : M Component unit :=
  memory_vars <- Prog.call inst (LoadMemoryVariables inputs) ;;
  vars <- Prog.lift (Py.bound_get memory_vars) ;;
  memory_key <- Prog.call inst (GetAttr "memory_key") ;;
  found <- Prog.lift (Py.get_by vars memory_key (PyStr "")) ;;
  Prog.update (set_memory_context found).

(** The body of the [try] block of [_process_message]. *)
Definition process_attempt (inst : Instance) (msg : string)
    : M Component unit :=
  c <- Prog.get_self ;;
  let inputs := PyDict (context_inputs msg (metadata c)) in
  let outputs := PyDict [("output", PyStr "")] in
  Prog.call inst (SaveContext inputs outputs) ;;
  (if include_context c then
     found <- Prog.call inst (SearchMemories msg None (max_memories c)) ;;
     Prog.update (set_relevant_memories found) ;;
     load_context inst inputs
   else Prog.ret tt) ;;
  timestamp <- Prog.call inst GetTimestamp ;;
  Prog.update
    (set_stored_message
       (Some (mkData (PyDict
          [("content", PyStr msg);
           ("session_id", PyStr (session_id c));
           ("user_id", PyStr (user_id c));
           ("timestamp", timestamp);
           ("metadata",
            if Py.truthy (Py.of_dict (metadata c))
            then Py.of_dict (metadata c) else PyDict [])])))).

Definition process_failed (e : string) : M Component unit :=
  Prog.update (set_status ("Error processing message: " ++ e)).

Definition _process_message : M Component unit :=
  c <- Prog.get_self ;;
  match usable (_memory_instance c), usable_text (message c) with
  | Some inst, Some msg => Prog.try (process_attempt inst msg) process_failed
  | _, _ => Prog.ret tt
  end.

(** The body of the [try] block of [build_memory]: the import comes
    first, before [existing_memory] is looked at. *)
Definition build_attempt {host : Host} : M Component (option Instance) :=
  Prog.lift import_create_eliza_memory ;;
  c <- Prog.get_self ;;
  match usable (existing_memory c) with
  | Some _ => Prog.update (set_memory_instance (existing_memory c))
  | None =>
      created <- Prog.create (session_id c) (user_id c) (extract_memories c) ;;
      Prog.update (set_memory_instance (Some created))
  end ;;
  (if text_truthy (message c) then _process_message else Prog.ret tt) ;;
  c' <- Prog.get_self ;;
  Prog.ret (_memory_instance c').

Definition build_failed (e : string) : M Component (option Instance) :=
  Prog.update (set_status ("Error building memory: " ++ e)) ;;
  Prog.ret None.

Definition build_memory {host : Host} : M Component (option Instance) :=
  Prog.try build_attempt build_failed.

Definition get_memory_context {host : Host} : M Component Message :=
  build_memory ;;
  c <- Prog.get_self ;;
  Prog.ret
    (mkMessage
       (if Py.truthy (_memory_context c) then _memory_context c
        else PyStr "No memory context available.")).

Definition get_memory_instance {host : Host} : M Component (option Instance) :=
  build_memory.

Definition get_stored_message {host : Host} : M Component Data :=
  build_memory ;;
  c <- Prog.get_self ;;
  Prog.ret
    (match _stored_message c with Some d => d | None => empty_data end).

Definition get_relevant_memories {host : Host} : M Component (list Data) :=
  build_memory ;;
  c <- Prog.get_self ;;
  items <- Prog.lift (Py.iter (_relevant_memories c)) ;;
  Prog.ret (map mkData items).

End Memory.

(** ** Observing a run *)

(** The events a run added to the log. *)
Definition events_after (before after : Log) : Log :=
  skipn (List.length before) after.

Definition new_events {C A} (m : M C A) (st : Run C) : Log :=
  events_after (log st) (log (snd (m st))).

(** The method calls among some events, in order. *)
Definition method_calls (l : Log) : list Call :=
  flat_map
    (fun ev =>
       match ev with
       | On _ c => if is_method_call c then [c] else []
       | Created _ _ _ => []
       end) l.

(** The members of the external object that some events touch: probed,
    read or called. *)
Definition members_touched (l : Log) : list string :=
  flat_map
    (fun ev =>
       match ev with
       | On _ c => [member c]
       | Created _ _ _ => []
       end) l.

(** The factory calls among some events. *)
Definition factory_calls (l : Log) : list Event :=
  filter (fun ev => match ev with Created _ _ _ => true | On _ _ => false end) l.

(** The text of the first exception the object [inst] raised among the
    events [new] that followed [before], if it raised one.  A probe never
    raises; a read or a call raises when the object's response at that
    point is an exception. *)
Fixpoint first_raise (inst : Instance) (before new : Log) : option string :=
  match new with
  | [] => None
  | ev :: rest =>
      let continue := first_raise inst (before ++ [ev])%list rest in
      match ev with
      | On id c =>
          if Nat.eqb id (inst_id inst) && negb (is_probe c) then
            match inst_respond inst before c with
            | Raise e => Some e
            | Return _ => continue
            end
          else continue
      | Created _ _ _ => continue
      end
  end.

(** The members of the external object that the specification lists. *)
Definition listed_members : list string :=
  ["save_context"; "load_memory_variables"; "search_memories";
   "search_memories_semantic"; "add_memory"; "store_memory";
   "get_memory_analytics"].

(** The members the components do touch: the listed ones and three more,
    [memory_key] and [_get_timestamp] in [_process_message] and
    [memory_store] in [store_memory]. *)
Definition touched_members : list string :=
  (listed_members ++ ["memory_key"; "_get_timestamp"; "memory_store"])%list.

Definition is_member_of (names : list string) (name : string) : bool :=
  existsb (String.eqb name) names.

(** A run of [m] touches only members among [names]. *)
Definition touches_only {C A} (names : list string) (m : M C A) : Prop :=
  forall st, forallb (is_member_of names) (members_touched (new_events m st)) = true.

(** ** The search dispatch *)

(** The condition of the dispatch in [search_memories]. *)
Definition wants_semantic (c : Search.Component) (inst : Instance) : bool :=
  Search.semantic_search c && inst_has inst "search_memories_semantic".

(** The call the dispatch makes for a query. *)
Definition dispatch_call (c : Search.Component) (inst : Instance)
    (query : string) : Call :=
  let types := parse_comma_list (Search.memory_types c) in
  if wants_semantic c inst
  then SearchMemoriesSemantic query (Search.limit c) types
  else SearchMemories query (Some types) (Search.limit c).

Definition is_semantic_call (c : Call) : bool :=
  match c with SearchMemoriesSemantic _ _ _ => true | _ => false end.

Definition is_keyword_call (c : Call) : bool :=
  match c with SearchMemories _ _ _ => true | _ => false end.

(** ** The store dispatch *)

(** The method calls the dispatch of [store_memory] makes on an instance,
    by the methods the instance has. *)
Definition store_dispatch_calls (c : Store.Component) (inst : Instance)
    (text : string) : list Call :=
  let tag_list := parse_comma_list (Store.tags c) in
  if inst_has inst "add_memory" then
    [AddMemory text (Store.memory_type c) (Py.of_dict (Store.metadata c))
       tag_list]
  else if inst_has inst "store_memory" then
    [StoreMemory (Store.user_id c) text (Store.memory_type c)
       (Store.session_id c) (Py.of_dict (Store.metadata c)) tag_list
       (Store.relevance_score c)]
  else [].

(** A record of the result list that [get_formatted_results] can print: a
    dictionary whose [memory_type], when present, is a string and whose
    [similarity_score], when present and not [None], can be formatted. *)
Definition printable {host : Host} (d : Data) : bool :=
  match data d with
  | PyDict kvs =>
      match Py.dict_get "memory_type" kvs with
      | Some (PyStr _) | None => true
      | Some _ => false
      end
      && match Py.dict_get "similarity_score" kvs with
         | Some PyNone | None => true
         | Some v => match format_2f v with Return _ => true | Raise _ => false end
         end
  | _ => false
  end.

(** ** Sample objects *)

Module Demo.

(** An object with the given attributes that answers each operation by
    [answers], whatever happened before. *)
Definition scripted (id : nat) (attrs : list string)
    (answers : Call -> Outcome PyVal) : Instance :=
  mkInstance id true (is_member_of attrs) (fun _ c => answers c).

Definition int_2f (n : Z) : string :=
  NilEmpty.string_of_int (Z.to_int n) ++ ".00".

(** An in-memory engine that knows one memory. *)
Definition tea : PyVal :=
  PyDict [("id", PyStr "m1"); ("content", PyStr "likes tea");
          ("memory_type", PyStr "preference")].

Definition engine_answers (c : Call) : Outcome PyVal :=
  match c with
  | Hasattr _ => Return PyNone
  | GetAttr "memory_key" => Return (PyStr "history")
  | GetAttr "memory_store" => Return (PyObj [("memories", PyList [tea])])
  | GetAttr name => Raise ("no attribute " ++ name)
  | SaveContext _ _ => Return PyNone
  | LoadMemoryVariables _ => Return (PyDict [("history", PyStr "likes tea")])
  | SearchMemories _ _ _ => Return (PyList [tea])
  | SearchMemoriesSemantic _ _ _ => Return (PyList [PyTuple [tea; PyInt 1]])
  | AddMemory _ _ _ _ => Return (PyStr "m1")
  | StoreMemory _ _ _ _ _ _ _ => Return (PyStr "m2")
  | GetMemoryAnalytics => Return (PyDict [("total", PyInt 1)])
  | GetTimestamp => Return (PyStr "2024-01-01T00:00:00")
  end.

Definition engine : Instance :=
  scripted 1
    ["save_context"; "load_memory_variables"; "search_memories";
     "search_memories_semantic"; "add_memory"; "get_memory_analytics";
     "memory_key"; "_get_timestamp"; "memory_store"]
    engine_answers.

(** A database-backed engine: [store_memory], no [add_memory]. *)
Definition database : Instance :=
  scripted 2 ["search_memories"; "store_memory"] engine_answers.

(** An object with none of the expected methods. *)
Definition bare : Instance :=
  scripted 3 [] (fun c => Raise ("no attribute " ++ member c)).

(** An engine whose keyword search works and whose analytics fail. *)
Definition flaky_answers (c : Call) : Outcome PyVal :=
  match c with
  | SearchMemories _ _ _ => Return (PyList [PyDict [("content", PyStr "likes tea")]])
  | GetMemoryAnalytics => Raise "analytics unavailable"
  | _ => Raise "unexpected"
  end.

Definition flaky : Instance :=
  scripted 4 ["search_memories"; "get_memory_analytics"] flaky_answers.

(** An engine whose [save_context] fails. *)
Definition read_only : Instance :=
  scripted 5 ["save_context"; "search_memories"]
    (fun c => match c with
              | SaveContext _ _ => Raise "read-only store"
              | _ => Return PyNone
              end).

(** An engine whose [add_memory] fails. *)
Definition full : Instance :=
  scripted 7 ["add_memory"]
    (fun c => match c with
              | AddMemory _ _ _ _ => Raise "disk full"
              | _ => Return PyNone
              end).

(** An engine that learns between two searches: one record for the
    first keyword search, two for every later one. *)
Definition searched_before (lg : Log) : bool :=
  existsb
    (fun ev =>
       match ev with
       | On _ (SearchMemories _ _ _) => true
       | _ => false
       end) lg.

Definition growing : Instance :=
  mkInstance 11 true (is_member_of ["search_memories"])
    (fun lg c =>
       match c with
       | SearchMemories _ _ _ =>
           if searched_before lg then Return (PyList [tea; tea])
           else Return (PyList [tea])
       | _ => Raise "unexpected"
       end).

(** An engine that returns a record without a usable type. *)
Definition untyped : Instance :=
  scripted 6 ["search_memories"]
    (fun c => match c with
              | SearchMemories _ _ _ =>
                  Return (PyList [PyDict [("content", PyStr "likes tea");
                                          ("memory_type", PyNone)]])
              | _ => Raise "unexpected"
              end).

(** A host whose factory builds [engine], whose [==] compares strings and
    integers, and whose [:.2f] prints integers. *)
Definition host : Host :=
  mkHost
    (Return (fun _ _ _ _ => Return engine))
    (fun v => "<" ++ Py.type_name v ++ ">")
    (fun a b =>
       match a, b with
       | PyStr s, PyStr t => String.eqb s t
       | PyInt n, PyInt m => Z.eqb n m
       | PyNone, PyNone => true
       | _, _ => false
       end)
    (fun v =>
       match v with
       | PyInt n => Return (int_2f n)
       | _ => Raise "Unknown format code 'f'"
       end).

(** A host whose factory builds [read_only]. *)
Definition read_only_host : Host :=
  mkHost (Return (fun _ _ _ _ => Return read_only))
    (@str_other host) (@py_eq host) (@format_2f host).

(** A host on which the memory library is not installed: the import
    fails. *)
Definition missing_host : Host :=
  mkHost (Raise "No module named 'langchain.memory.eliza_memory'")
    (@str_other host) (@py_eq host) (@format_2f host).

(** A host whose factory fails. *)
Definition broken_host : Host :=
  mkHost (Return (fun _ _ _ _ => Raise "no backend"))
    (@str_other host) (@py_eq host) (@format_2f host).

Definition search (query : option string) (semantic analytics : bool)
    (inst : option Instance) : Run Search.Component :=
  mkRun
    (Search.mkComponent query "anonymous" (Some "preference, factual")
       (Some "") 10%Z semantic analytics inst "" [] (PyDict []))
    [].

Definition store (text : option string) (inst : option Instance)
    : Run Store.Component :=
  mkRun
    (Store.mkComponent text "anonymous" "default_session" "general"
       (Some "drinks, habits") None (PyInt 1) true inst None PyNone
       "Not attempted")
    [].

Definition memory (msg : option string) (existing : option Instance)
    : Run Memory.Component :=
  mkRun
    (Memory.mkComponent "default_session" "anonymous" msg true true 5%Z None
       existing "" None (PyStr "") None (PyList []))
    [].

End Demo.

(** ** Statements in the wording of the specification *)

(** The search dispatch for every invocation: the semantic call is made
    exactly when the flag is set and the instance has the method, and the
    keyword call is made in every other case. *)
Definition dispatch_on_every_invocation (st : Run Search.Component)
    (inst : Instance) : Prop :=
  let calls := method_calls (new_events Search.search_memories st) in
  existsb is_semantic_call calls = wants_semantic (self st) inst
  /\ existsb is_keyword_call calls = negb (wants_semantic (self st) inst).

(** Error handling of [build_memory] as for the two other adapters: when
    a call on the memory object raises, the default value [None] is
    returned. *)
Definition build_defaults_on_error {host : Host}
    (st : Run Memory.Component) (inst : Instance) : Prop :=
  forall e,
    first_raise inst (log st) (new_events Memory.build_memory st) = Some e ->
    fst (Memory.build_memory st) = Return None.

(** The agreement of the result-describing outputs whenever
    [search_memories] returns: the status, the count and, for a
    non-empty result, the head of the formatted text. *)
Definition outputs_agree_on_return {host : Host}
    (st : Run Search.Component) : Prop :=
  forall results,
    fst (Search.search_memories st) = Return results ->
    let n := PyString.of_nat (List.length results) in
    Search.status (self (snd (Search.search_memories st)))
    = "Found " ++ n ++ " memories"
    /\ fst (Search.get_result_count st) = Return (mkMessage (PyStr n))
    /\ (results <> [] ->
        exists body,
          fst (Search.get_formatted_results st)
          = Return (mkMessage (PyStr ("Found " ++ n ++ " memories:" ++ body)))).

(** The members touched in four sample runs: a semantic search with
    analytics and a store on the in-memory engine, a store on the
    database-backed engine, and a build with a message. *)
Definition sample_touched : list string :=
  (members_touched
     (new_events Search.search_memories
        (Demo.search (Some "tea") true true (Some Demo.engine)))
   ++ members_touched
        (new_events (@Store.store_memory Demo.host)
           (Demo.store (Some "likes tea") (Some Demo.engine)))
   ++ members_touched
        (new_events (@Store.store_memory Demo.host)
           (Demo.store (Some "likes tea") (Some Demo.database)))
   ++ members_touched
        (new_events (@Memory.build_memory Demo.host)
           (Demo.memory (Some "hi") (Some Demo.engine))))%list.

(** No adapter touches a member outside the listed ones. *)
Definition only_listed_members_touched {host : Host} : Prop :=
  touches_only listed_members Search.search_memories
  /\ touches_only listed_members Store.store_memory
  /\ touches_only listed_members Memory.build_memory.

(** ** Construction and repeated evaluation *)

(** [ElizaMemorySearchComponent.__init__]: the cached attributes as the
    constructor leaves them, on a component whose inputs are set. *)
Definition init_search (c : Search.Component) : Search.Component :=
  Search.set_analytics (PyDict []) (Search.set_search_results [] c).

(** [ElizaMemoryStoreComponent.__init__]. *)
Definition init_store (c : Store.Component) : Store.Component :=
  Store.set_storage_status "Not attempted"
    (Store.set_memory_id PyNone (Store.set_stored_memory None c)).

(** [ElizaMemoryComponent.__init__]. *)
Definition init_memory (c : Memory.Component) : Memory.Component :=
  Memory.set_relevant_memories (PyList [])
    (Memory.set_stored_message None
       (Memory.set_memory_context (PyStr "")
          (Memory.set_memory_instance None c))).

(** The host evaluates one output method after another on the same
    component. *)
Definition then_output {C A B} (first : M C A) (second : M C B) : M C B :=
  Prog.bind first (fun _ => second).

(** ** The conversion loops as functions of the records *)

(** What [as_memory_data] returns: it never raises. *)
Definition memory_data_of (memory : PyVal) : PyVal :=
  match as_memory_data memory with
  | Return d => d
  | Raise _ => memory
  end.

(** The [Data] one turn of the semantic loop appends, or the exception
    that turn raises. *)
Definition scored_data (item : PyVal) : Outcome Data :=
  match Py.unpack2 item with
  | Raise e => Raise e
  | Return (memory, similarity) =>
      match as_memory_data memory with
      | Raise e => Raise e
      | Return memory_data =>
          match Py.setitem memory_data "similarity_score" similarity with
          | Raise e => Raise e
          | Return scored => Return (mkData scored)
          end
      end
  end.

(** The records converted before the first turn that raises, and the
    text of that exception if there is one. *)
Fixpoint scored_prefix (items : list PyVal) : list Data * option string :=
  match items with
  | [] => ([], None)
  | item :: rest =>
      match scored_data item with
      | Raise e => ([], Some e)
      | Return d =>
          let (ds, stop) := scored_prefix rest in (d :: ds, stop)
      end
  end.

(** ** Inputs that are never read *)

(** The search component with other [tags] and [user_id] inputs. *)
Definition with_tags_and_user (tags : option string) (user_id : string)
    (c : Search.Component) : Search.Component :=
  Search.mkComponent (Search.search_query c) user_id (Search.memory_types c)
    tags (Search.limit c) (Search.semantic_search c)
    (Search.include_analytics c) (Search.memory_instance c) (Search.status c)
    (Search._search_results c) (Search._analytics c).

(** The store component with another [generate_embedding] input. *)
Definition with_generate_embedding (flag : bool) (c : Store.Component)
    : Store.Component :=
  Store.mkComponent (Store.content c) (Store.user_id c) (Store.session_id c)
    (Store.memory_type c) (Store.tags c) (Store.metadata c)
    (Store.relevance_score c) flag (Store.memory_instance c)
    (Store._stored_memory c) (Store._memory_id c) (Store._storage_status c).

(** What a caller can observe of a run of the search component: the
    outcome, the log, the status and the two cached attributes. *)
Definition search_view {A} (r : Outcome A * Run Search.Component)
    : Outcome A * Log * string * list Data * PyVal :=
  (fst r, log (snd r), Search.status (self (snd r)),
   Search._search_results (self (snd r)), Search._analytics (self (snd r))).

(** Likewise for the store component. *)
Definition store_view {A} (r : Outcome A * Run Store.Component)
    : Outcome A * Log * option Data * PyVal * string :=
  (fst r, log (snd r), Store._stored_memory (self (snd r)),
   Store._memory_id (self (snd r)), Store._storage_status (self (snd r))).

(** ** Tags that parse to themselves *)

(** A tag that is not empty, has no whitespace at either end and contains
    no comma. *)
Definition clean_tag (t : string) : bool :=
  PyString.nonempty t
  && negb (PyString.has_surrounding_space t)
  && negb (PyString.contains_char "," t).

(** ** The envelope of the inputs *)

(** The [Data] that [store_memory] builds from its inputs when it has no
    stored memory to return. *)
Definition input_envelope (c : Store.Component) (text : string) : Data :=
  mkData (PyDict
    [("content", PyStr text);
     ("memory_type", PyStr (Store.memory_type c));
     ("user_id", PyStr (Store.user_id c));
     ("session_id", PyStr (Store.session_id c));
     ("tags", Py.of_strings (parse_comma_list (Store.tags c)));
     ("metadata", Py.of_dict (Store.metadata c));
     ("relevance_score", Store.relevance_score c)]).

(** ** The calls of [_process_message] *)

(** The method calls of a run of [_process_message] in which nothing
    raises, in order. *)
Definition process_calls (c : Memory.Component) (msg : string) : list Call :=
  let inputs := PyDict (Memory.context_inputs msg (Memory.metadata c)) in
  (SaveContext inputs (PyDict [("output", PyStr "")])
   :: (if Memory.include_context c
       then [SearchMemories msg None (Memory.max_memories c);
             LoadMemoryVariables inputs]
       else [])
   ++ [GetTimestamp])%list.

(** The state in which [_process_message] starts when [build_memory] has
    taken [inst] as its instance: the instance is assigned, and the
    factory call, if there was one, is logged. *)
Definition process_entry (st : Run Memory.Component) (inst : Instance)
    : Run Memory.Component :=
  let c := self st in
  mkRun (Memory.set_memory_instance (Some inst) c)
    (match usable (Memory.existing_memory c) with
     | Some _ => log st
     | None =>
         (log st ++ [Created (Memory.session_id c) (Memory.user_id c)
                       (Memory.extract_memories c)])%list
     end).

(** ** More sample objects *)

Module Sample.

Definition coffee : PyVal :=
  PyDict [("id", PyStr "m2"); ("content", PyStr "drinks coffee")].

(** An engine that answers two records to every search, whatever the
    limit. *)
Definition generous : Instance :=
  Demo.scripted 8 ["search_memories"; "search_memories_semantic"]
    (fun c =>
       match c with
       | SearchMemories _ _ _ => Return (PyList [Demo.tea; coffee])
       | SearchMemoriesSemantic _ _ _ =>
           Return (PyList [PyTuple [Demo.tea; PyInt 1];
                           PyTuple [coffee; PyInt 0]])
       | _ => Raise "unexpected"
       end).

(** A search for at most one memory. *)
Definition search_one (semantic : bool) (inst : option Instance)
    : Run Search.Component :=
  mkRun
    (init_search
       (Search.mkComponent (Some "tea") "anonymous" None None 1%Z semantic
          false inst "" [] PyNone))
    [].

(** An engine that has [add_memory] and nothing to look memories up. *)
Definition adder : Instance :=
  Demo.scripted 10 ["add_memory"]
    (fun c => match c with
              | AddMemory _ _ _ _ => Return (PyStr "m7")
              | _ => Raise "unexpected"
              end).

(** An engine whose keyword search answers [None]. *)
Definition silent : Instance :=
  Demo.scripted 9 ["save_context"; "search_memories"]
    (fun _ => Return PyNone).

End Sample.

(** ** What the engine answered *)

(** The log at the moment of the dispatch call of [search_memories]: the
    probe for the semantic method is made, and logged, only when the
    [semantic_search] flag is set. *)
Definition log_at_dispatch (st : Run Search.Component) (inst : Instance)
    : Log :=
  if Search.semantic_search (self st)
  then (log st ++ [On (inst_id inst) (Hasattr "search_memories_semantic")])%list
  else log st.

(** A result of the semantic branch for an item of the engine's answer:
    the item is a pair of a record and a score, and the result is the
    record, as a dictionary, with the score under [similarity_score]. *)
Definition scored_from (item : PyVal) (d : Data) : Prop :=
  exists memory similarity kvs,
    Py.unpack2 item = Return (memory, similarity)
    /\ as_memory_data memory = Return (PyDict kvs)
    /\ data d = PyDict (Py.dict_set "similarity_score" similarity kvs).

(** ** Looking the new memory up *)

(** The condition [m.get('id') == memory_id] on a dictionary. *)
Definition has_id {host : Host} (memory_id : PyVal) (m : PyVal) : bool :=
  match m with
  | PyDict d =>
      py_eq (match Py.dict_get "id" d with Some x => x | None => PyNone end)
        memory_id
  | _ => false
  end.

Definition is_dict (v : PyVal) : bool :=
  match v with PyDict _ => true | _ => false end.

(** What [store_memory] returns when its dispatch set no stored memory:
    the one cached before, or the envelope of the inputs. *)
Definition cached_or_inputs (c : Store.Component) (text : string) : Data :=
  match Store._stored_memory c with
  | Some stored => stored
  | None => input_envelope c text
  end.

(** The status after the dispatch, by the memory id. *)
Definition stored_status {host : Host} (memory_id : PyVal) : string :=
  if Py.truthy memory_id
  then "Successfully stored memory with ID: " ++ py_str memory_id
  else "Memory stored but ID not available".

(** ** Logs of calls on one instance *)

(** The log [lg] followed by the given operations on [inst]. *)
Definition after_calls (lg : Log) (inst : Instance) (calls : list Call)
    : Log :=
  (lg ++ map (On (inst_id inst)) calls)%list.

(** The envelope [_process_message] stores for a message. *)
Definition message_envelope (c : Memory.Component) (msg : string)
    (timestamp : PyVal) : Data :=
  mkData (PyDict
    [("content", PyStr msg);
     ("session_id", PyStr (Memory.session_id c));
     ("user_id", PyStr (Memory.user_id c));
     ("timestamp", timestamp);
     ("metadata",
      match Memory.metadata c with
      | Some (kv :: rest) => PyDict (kv :: rest)
      | _ => PyDict []
      end)]).

(** ** The inputs of the memory component *)

(** Two states of the memory component with the same input fields. *)
Definition same_inputs (c c' : Memory.Component) : Prop :=
  Memory.session_id c' = Memory.session_id c
  /\ Memory.user_id c' = Memory.user_id c
  /\ Memory.message c' = Memory.message c
  /\ Memory.extract_memories c' = Memory.extract_memories c
  /\ Memory.include_context c' = Memory.include_context c
  /\ Memory.max_memories c' = Memory.max_memories c
  /\ Memory.metadata c' = Memory.metadata c
  /\ Memory.existing_memory c' = Memory.existing_memory c.

(** ** Further statements in the wording of the specification *)

(** An existing memory that is provided becomes the memory instance used
    by [build_memory]. *)
Definition existing_memory_is_used {host : Host}
    (st : Run Memory.Component) : Prop :=
  forall inst,
    usable (Memory.existing_memory (self st)) = Some inst ->
    fst (Memory.build_memory st) = Return (Some inst)
    /\ Memory._memory_instance (self (snd (Memory.build_memory st)))
       = Some inst.

(** After [search_memories] has returned N results, the result count that
    the host evaluates next is the decimal rendering of the same N. *)
Definition count_agrees_in_sequence (st : Run Search.Component) : Prop :=
  forall results,
    fst (Search.search_memories st) = Return results ->
    fst (then_output Search.search_memories Search.get_result_count st)
    = Return (mkMessage (PyStr (PyString.of_nat (List.length results)))).

(** * Properties *)

(** ** Strings *)

Module PyStringFacts.
Import PyString.

Lemma split_not_nil sep s : split sep s <> [].
Proof.
  destruct s as [|c rest]; simpl; [discriminate|].
  destruct (Ascii.eqb c sep); [discriminate|].
  destruct (split sep rest); discriminate.
Qed.

(** Joining the pieces with the separator gives the string back. *)
Lemma join_split sep s : join sep (split sep s) = s.
Proof.
  induction s as [|c rest IH]; simpl; [reflexivity|].
  destruct (Ascii.eqb c sep) eqn:E.
  - apply Ascii.eqb_eq in E; subst c.
    pose proof (split_not_nil sep rest) as N.
    destruct (split sep rest) as [|p ps]; [contradiction|].
    change (join sep ("" :: p :: ps)) with (String sep (join sep (p :: ps))).
    now rewrite IH.
  - pose proof (split_not_nil sep rest) as N.
    destruct (split sep rest) as [|p ps]; [contradiction|].
    destruct ps as [|q qs]; simpl in *; now rewrite <- IH.
Qed.

(** No piece contains the separator. *)
Lemma split_pieces_free sep s :
  Forall (fun p => contains_char sep p = false) (split sep s).
Proof.
  induction s as [|c rest IH]; simpl.
  - constructor; [reflexivity|constructor].
  - destruct (Ascii.eqb c sep) eqn:E.
    + constructor; [reflexivity|assumption].
    + destruct (split sep rest) as [|p ps]; simpl.
      * constructor; [simpl; now rewrite E|constructor].
      * inversion IH; subst. constructor; [simpl; now rewrite E|assumption].
Qed.

Lemma lstrip_first s : space_at (first_char (lstrip s)) = false.
Proof.
  induction s as [|c rest IH]; simpl; [reflexivity|].
  destruct (is_space c) eqn:E; [assumption|]. simpl. exact E.
Qed.

Lemma rstrip_last s : space_at (last_char (rstrip s)) = false.
Proof.
  induction s as [|c rest IH]; simpl; [reflexivity|].
  destruct (rstrip rest) as [|d r] eqn:R.
  - destruct (is_space c) eqn:E; simpl; [reflexivity|exact E].
  - exact IH.
Qed.

(** Stripping on the right keeps a first character that is not white. *)
Lemma rstrip_first s :
  space_at (first_char s) = false -> first_char (rstrip s) = first_char s.
Proof.
  destruct s as [|c rest]; simpl; [reflexivity|]. intros E.
  destruct (rstrip rest); [now rewrite E|reflexivity].
Qed.

Lemma strip_clean s : has_surrounding_space (strip s) = false.
Proof.
  unfold has_surrounding_space, strip.
  rewrite rstrip_first by apply lstrip_first.
  now rewrite lstrip_first, rstrip_last.
Qed.

Lemma lstrip_decompose s :
  exists l, s = l ++ lstrip s /\ all_space l = true.
Proof.
  induction s as [|c rest [l [E A]]]; simpl.
  - now exists "".
  - destruct (is_space c) eqn:S.
    + exists (String c l). simpl. now rewrite S, A, <- E.
    + now exists "".
Qed.

Lemma rstrip_decompose s :
  exists r, s = rstrip s ++ r /\ all_space r = true.
Proof.
  induction s as [|c rest [r [E A]]]; simpl.
  - now exists "".
  - destruct (rstrip rest) as [|d t] eqn:R.
    + simpl in E. subst rest. destruct (is_space c) eqn:S.
      * exists (String c r). simpl. now rewrite S, A.
      * exists r. simpl. now split.
    + exists r. split; [rewrite E at 1; reflexivity|assumption].
Qed.

(** What [strip] removes is whitespace on the left and on the right, and
    nothing else. *)
Lemma strip_decompose s :
  exists l r, s = l ++ strip s ++ r /\ all_space l = true /\ all_space r = true.
Proof.
  destruct (lstrip_decompose s) as [l [El Al]].
  destruct (rstrip_decompose (lstrip s)) as [r [Er Ar]].
  exists l, r. unfold strip. now rewrite <- Er, <- El.
Qed.

Lemma strip_idempotent_on_clean s :
  has_surrounding_space s = false -> strip s = s.
Proof.
  unfold has_surrounding_space, strip. intros H.
  apply orb_false_iff in H. destruct H as [F L].
  assert (lstrip s = s) as ->.
  { destruct s as [|c rest]; simpl in *; [reflexivity|now rewrite F]. }
  clear F. induction s as [|c rest IH]; simpl; [reflexivity|].
  destruct rest as [|d rest'].
  - simpl in *. now rewrite L.
  - rewrite IH by exact L. reflexivity.
Qed.

End PyStringFacts.

(** ** Comma-separated inputs *)

Lemma comma_pieces_filter_map s :
  comma_pieces s =
  filter PyString.nonempty (map PyString.strip (PyString.split "," s)).
Proof.
  unfold comma_pieces. induction (PyString.split "," s) as [|t ts IH]; simpl.
  - reflexivity.
  - destruct (PyString.nonempty (PyString.strip t)); simpl; now rewrite IH.
Qed.

Lemma split_strip_drop_clean inp :
  Forall (fun t => PyString.nonempty t = true
                   /\ PyString.has_surrounding_space t = false)
    (split_strip_drop inp).
Proof.
  destruct inp as [s|]; simpl; [|constructor].
  apply Forall_forall. intros t H.
  apply filter_In in H. destruct H as [H N]. split; [exact N|].
  apply in_map_iff in H. destruct H as [p [<- _]].
  apply PyStringFacts.strip_clean.
Qed.

Lemma is_space_table c :
  PyString.is_space c
  = existsb (Nat.eqb (nat_of_ascii c)) whitespace_code_points.
Proof.
  destruct c as [[] [] [] [] [] [] [] []]; reflexivity.
Qed.

Lemma strip_trimmed p : trimmed_from p (PyString.strip p).
Proof.
  destruct (PyStringFacts.strip_decompose p) as [l [r [E [L R]]]].
  exists l, r. repeat split; try assumption.
  apply PyStringFacts.strip_clean.
Qed.

(** C4. The parsing block of the adapters ([memory_types] and [tags] in the
    search component, [tags] in the store component) computes exactly:
    split the input on commas, strip each piece, drop the pieces that are
    empty after stripping.  An absent input and an empty input give the
    empty list, and every element of the result is non-empty and has no
    whitespace at either end.  The splitting and the stripping are pinned
    by what they must satisfy: the pieces contain no comma and give the
    input back when joined with commas; each stripped piece is its piece
    without whitespace on either side, where whitespace is the twelve
    code points below 256 that Python counts as such. *)
Theorem parse_comma_list_spec (inp : option string) :
  parse_comma_list inp = split_strip_drop inp
  /\ parse_comma_list None = []
  /\ parse_comma_list (Some "") = []
  /\ Forall (fun t => PyString.nonempty t = true
                      /\ PyString.has_surrounding_space t = false)
       (parse_comma_list inp)
  /\ (forall s, exists pieces trimmed,
        PyString.join "," pieces = s
        /\ Forall (fun p => PyString.contains_char "," p = false) pieces
        /\ Forall2 trimmed_from pieces trimmed
        /\ parse_comma_list (Some s) = filter PyString.nonempty trimmed)
  /\ (forall c, PyString.is_space c
                = existsb (Nat.eqb (nat_of_ascii c)) whitespace_code_points).
Proof.
  assert (E : forall i, parse_comma_list i = split_strip_drop i).
  { intros [[|c s]|]; simpl; try reflexivity.
    apply comma_pieces_filter_map. }
  split; [apply E|]. split; [reflexivity|]. split; [reflexivity|].
  split; [rewrite E; apply split_strip_drop_clean|].
  split; [|exact is_space_table].
  intros s.
  exists (PyString.split "," s), (map PyString.strip (PyString.split "," s)).
  split; [apply PyStringFacts.join_split|].
  split; [apply PyStringFacts.split_pieces_free|].
  split; [|apply E].
  induction (PyString.split "," s) as [|p ps IH]; simpl; constructor;
    [apply strip_trimmed|exact IH].
Qed.

Example parse_comma_list_run :
  parse_comma_list (Some " preference, factual ,,contextual , ")
  = ["preference"; "factual"; "contextual"].
Proof. reflexivity. Qed.

(** ** Runs and logs *)

Lemma events_after_app l new : events_after l (l ++ new)%list = new.
Proof. unfold events_after. induction l; simpl; auto. Qed.

Lemma events_after_same l : events_after l l = [].
Proof. unfold events_after. induction l; simpl; auto. Qed.

Ltac prog_unfold :=
  unfold new_events, Prog.bind, Prog.ret, Prog.try, Prog.get_self,
    Prog.update, Prog.lift, Prog.probe, Prog.call, Prog.create in *;
  simpl in *.

(** Brings the new events of a run into the form of a list. *)
Ltac settle_log :=
  repeat rewrite <- app_assoc;
  repeat rewrite events_after_app;
  repeat rewrite events_after_same;
  simpl.

Ltac settle_log_in H :=
  repeat rewrite <- app_assoc in H;
  repeat rewrite events_after_app in H;
  repeat rewrite events_after_same in H;
  simpl in H.

(** Decides [first_raise] in [H] from the responses known so far. *)
Ltac settle_raise H :=
  settle_log_in H; rewrite ?Nat.eqb_refl in H; simpl in H;
  repeat match goal with
         | E : inst_respond _ _ _ = _ |- _ => rewrite E in H; simpl in H
         end.

(** A continuation that leaves the log alone adds no event. *)
Lemma new_events_then {C A B} (m : M C A) (k : A -> M C B) st :
  (forall a st', log (snd (k a st')) = log st') ->
  new_events (Prog.bind m k) st = new_events m st.
Proof.
  intros K. unfold new_events, Prog.bind.
  destruct (m st) as [[a|e] st']; simpl; [now rewrite K|reflexivity].
Qed.

Lemma touches_only_then {C A B} names (m : M C A) (k : A -> M C B) :
  (forall a st', log (snd (k a st')) = log st') ->
  touches_only names m -> touches_only names (Prog.bind m k).
Proof.
  intros K T st. rewrite new_events_then by exact K. apply T.
Qed.

(** ** The search component *)

Module SearchFacts.
Import Search.

(** The conversion loops change [_search_results] and nothing else. *)
Lemma loop_frame_scored items st :
  exists l, snd (Prog.for_each items keep_scored st)
            = mkRun (set_search_results l (self st)) (log st).
Proof.
  revert st. induction items as [|x xs IH]; intros [c lg]; simpl.
  - exists (_search_results c). now destruct c.
  - unfold Prog.bind at 1. unfold keep_scored at 1.
    unfold Prog.bind, Prog.lift, append_result, Prog.update. simpl.
    destruct (Py.unpack2 x) as [[m s]|e]; simpl;
      [|exists (_search_results c); now destruct c].
    destruct (as_memory_data m); simpl;
      [|exists (_search_results c); now destruct c].
    destruct (Py.setitem a "similarity_score" s); simpl;
      [|exists (_search_results c); now destruct c].
    match goal with
    | |- context [Prog.for_each xs keep_scored ?s] => destruct (IH s) as [l E]
    end.
    exists l. simpl in E. rewrite E. now destruct c.
Qed.

Lemma loop_frame_plain items st :
  exists l, snd (Prog.for_each items keep_plain st)
            = mkRun (set_search_results l (self st)) (log st).
Proof.
  revert st. induction items as [|x xs IH]; intros [c lg]; simpl.
  - exists (_search_results c). now destruct c.
  - unfold Prog.bind at 1. unfold keep_plain at 1.
    unfold Prog.bind, Prog.lift, append_result, Prog.update. simpl.
    destruct (as_memory_data x); simpl;
      [|exists (_search_results c); now destruct c].
    match goal with
    | |- context [Prog.for_each xs keep_plain ?s] => destruct (IH s) as [l E]
    end.
    exists l. simpl in E. rewrite E. now destruct c.
Qed.

Ltac loop_step :=
  match goal with
  | |- context [Prog.for_each ?xs keep_scored ?s] =>
      let l := fresh "l" in
      let E := fresh "E" in
      let o := fresh "o" in
      let s' := fresh "s" in
      destruct (loop_frame_scored xs s) as [l E];
      destruct (Prog.for_each xs keep_scored s) as [o s'] eqn:?;
      simpl in E; subst s'
  | |- context [Prog.for_each ?xs keep_plain ?s] =>
      let l := fresh "l" in
      let E := fresh "E" in
      let o := fresh "o" in
      let s' := fresh "s" in
      destruct (loop_frame_plain xs s) as [l E];
      destruct (Prog.for_each xs keep_plain s) as [o s'] eqn:?;
      simpl in E; subst s'
  end.

Ltac case_step :=
  match goal with
  | |- context [match inst_respond ?i ?l ?c with _ => _ end] =>
      destruct (inst_respond i l c) eqn:?
  | |- context [match Py.iter ?v with _ => _ end] => destruct (Py.iter v) eqn:?
  | |- context [match ?o with Return _ => _ | Raise _ => _ end] =>
      destruct o eqn:?
  | H : context [match inst_respond ?i ?l ?c with _ => _ end] |- _ =>
      destruct (inst_respond i l c) eqn:?
  end.

Ltac open_search :=
  unfold search_memories, search_attempt, dispatch_call, wants_semantic,
    flag_and_has, semantic_branch, keyword_branch, report_found,
    search_failed in *;
  prog_unfold.

(** Every path through the [try] block of [search_memories]. *)
Ltac search_paths c inst :=
  destruct (semantic_search c); simpl in *;
  [destruct (inst_has inst "search_memories_semantic"); simpl in *|];
  repeat (first [loop_step | case_step]; simpl in * );
  destruct (include_analytics c); simpl in *;
  try (destruct (inst_has inst "get_memory_analytics"); simpl in * );
  repeat (case_step; simpl in * ).

Lemma search_first_call st inst query :
  usable (memory_instance (self st)) = Some inst ->
  usable_text (search_query (self st)) = Some query ->
  exists rest,
    method_calls (new_events search_memories st)
    = dispatch_call (self st) inst query :: rest
    /\ forallb (fun c => negb (is_semantic_call c) && negb (is_keyword_call c))
         rest = true.
Proof.
  destruct st as [c lg]. simpl. intros Hi Hq.
  open_search. rewrite Hi, Hq. simpl.
  search_paths c inst.
  all: settle_log.
  all: eexists; split; reflexivity.
Qed.

Lemma search_caught st inst query e :
  usable (memory_instance (self st)) = Some inst ->
  usable_text (search_query (self st)) = Some query ->
  first_raise inst (log st) (new_events search_memories st) = Some e ->
  fst (search_memories st) = Return []
  /\ status (self (snd (search_memories st)))
     = "Error searching memories: " ++ e.
Proof.
  destruct st as [c lg]. simpl. intros Hi Hq.
  open_search. rewrite Hi, Hq. simpl.
  search_paths c inst.
  all: intros H; settle_raise H.
  all: try discriminate H.
  all: inversion H; subst; split; reflexivity.
Qed.

(** Past the two guards, [search_memories] is its [try] block under the
    handler. *)
Lemma search_passed st inst query :
  usable (memory_instance (self st)) = Some inst ->
  usable_text (search_query (self st)) = Some query ->
  search_memories st = Prog.try (search_attempt inst query) search_failed st.
Proof.
  destruct st as [c lg]. simpl. intros Hi Hq.
  unfold search_memories, Prog.bind, Prog.get_self. simpl.
  now rewrite Hi, Hq.
Qed.

(** A [try] block that completes has reported the cached results. *)
Lemma search_attempt_found st inst query results :
  fst (search_attempt inst query st) = Return results ->
  _search_results (self (snd (search_attempt inst query st))) = results
  /\ status (self (snd (search_attempt inst query st)))
     = "Found " ++ PyString.of_nat (List.length results) ++ " memories".
Proof.
  destruct st as [c lg]. open_search.
  search_paths c inst.
  all: intros H; try discriminate H.
  all: inversion H; subst; split; reflexivity.
Qed.

Lemma search_never_raises st : exists results, fst (search_memories st) = Return results.
Proof.
  destruct st as [c lg].
  destruct (usable (memory_instance c)) as [inst|] eqn:Hi.
  - destruct (usable_text (search_query c)) as [query|] eqn:Hq.
    + rewrite (search_passed (mkRun c lg) inst query Hi Hq). unfold Prog.try.
      destruct (search_attempt inst query _) as [[r|e] st']; simpl; eauto.
    + unfold search_memories, Prog.bind, Prog.get_self. simpl.
      rewrite Hi, Hq. simpl. eauto.
  - unfold search_memories, Prog.bind, Prog.get_self. simpl.
    rewrite Hi. simpl. eauto.
Qed.

(** The text that [get_formatted_results] builds starts with what it was
    given to start with. *)
Lemma format_entries_extends {host : Host} results : forall i acc t,
  format_entries i results acc = Return t -> exists body, t = acc ++ body.
Proof.
  induction results as [|r rs IH]; simpl; intros i acc t H.
  - inversion H; subst. exists "". clear. induction t; simpl; congruence.
  - destruct (format_entry i r) as [entry|e]; [|discriminate].
    destruct (IH _ _ _ H) as [body ->].
    exists (entry ++ body). clear. induction acc; simpl; congruence.
Qed.

Lemma format_entry_total {host : Host} i r :
  printable r = true -> exists entry, format_entry i r = Return entry.
Proof.
  unfold printable, format_entry. destruct r as [d]. simpl.
  destruct d; try discriminate. simpl. intros H.
  apply andb_true_iff in H. destruct H as [T S].
  destruct (Py.dict_get "memory_type" kvs) as [[]|]; try discriminate; simpl.
  all: destruct (Py.dict_get "similarity_score" kvs) as [v|]; simpl; eauto.
  all: destruct v; simpl; eauto.
  all: destruct (format_2f _); try discriminate; eauto.
Qed.

Lemma format_entries_total {host : Host} results : forall i acc,
  forallb printable results = true ->
  exists t, format_entries i results acc = Return t.
Proof.
  induction results as [|r rs IH]; simpl; intros i acc H; eauto.
  apply andb_true_iff in H. destruct H as [P Q].
  destruct (format_entry_total i r P) as [entry ->]. now apply IH.
Qed.

(** When the dispatch call itself raises, the cached results are the ones
    of before the invocation. *)
Lemma dispatch_failure_keeps_cache st inst query e :
  usable (memory_instance (self st)) = Some inst ->
  usable_text (search_query (self st)) = Some query ->
  inst_respond inst
    (if semantic_search (self st)
     then (log st ++ [On (inst_id inst) (Hasattr "search_memories_semantic")])%list
     else log st)
    (dispatch_call (self st) inst query) = Raise e ->
  _search_results (self (snd (search_memories st)))
  = _search_results (self st).
Proof.
  destruct st as [c lg]. simpl. intros Hi Hq.
  open_search. rewrite Hi, Hq. simpl.
  destruct (semantic_search c); simpl;
    [destruct (inst_has inst "search_memories_semantic"); simpl|].
  all: intros H; rewrite H; simpl; now destruct c.
Qed.

(** An invocation stopped by a guard. *)
Lemma search_guarded st :
  usable (memory_instance (self st)) = None
  \/ usable_text (search_query (self st)) = None ->
  search_memories st
  = (Return [],
     mkRun
       (set_status
          (match usable (memory_instance (self st)) with
           | None => "No memory instance provided"
           | Some _ => "No search query provided"
           end) (self st))
       (log st)).
Proof.
  destruct st as [c lg]. simpl. open_search.
  destruct (usable (memory_instance c)) as [inst|]; simpl; [|reflexivity].
  intros [H|H]; [discriminate H|]. now rewrite H.
Qed.

Lemma search_touches : touches_only touched_members search_memories.
Proof.
  intros [c lg]. open_search.
  destruct (usable (memory_instance c)) as [inst|]; simpl;
    [|settle_log; reflexivity].
  destruct (usable_text (search_query c)) as [query|]; simpl;
    [|settle_log; reflexivity].
  search_paths c inst.
  all: settle_log; reflexivity.
Qed.

End SearchFacts.

(** ** The loops and the frame of the search component *)

Module SearchMore.
Import Search SearchFacts.

Lemma as_memory_data_total memory :
  as_memory_data memory = Return (memory_data_of memory).
Proof.
  unfold memory_data_of, as_memory_data, Py.hasattr.
  destruct (Py.getattr memory "to_dict"); reflexivity.
Qed.

(** The keyword loop appends one envelope per record, in order. *)
Lemma loop_plain_eq items st :
  Prog.for_each items keep_plain st
  = (Return tt,
     mkRun
       (set_search_results
          (_search_results (self st)
             ++ map (fun m => mkData (memory_data_of m)) items)%list
          (self st))
       (log st)).
Proof.
  revert st. induction items as [|x xs IH]; intros [c lg]; simpl.
  - unfold Prog.ret. rewrite app_nil_r. now destruct c.
  - unfold Prog.bind at 1. unfold keep_plain at 1.
    unfold Prog.bind, Prog.lift, append_result, Prog.update.
    rewrite as_memory_data_total. simpl. rewrite IH. simpl.
    rewrite <- app_assoc. now destruct c.
Qed.

(** The semantic loop appends the records converted before the first
    turn that raises, and raises what that turn raises. *)
Lemma loop_scored_eq items st :
  Prog.for_each items keep_scored st
  = (match snd (scored_prefix items) with
     | None => Return tt
     | Some e => Raise e
     end,
     mkRun
       (set_search_results
          (_search_results (self st) ++ fst (scored_prefix items))%list
          (self st))
       (log st)).
Proof.
  revert st. induction items as [|x xs IH]; intros [c lg]; simpl.
  - unfold Prog.ret. rewrite app_nil_r. now destruct c.
  - unfold Prog.bind at 1. unfold keep_scored at 1.
    unfold Prog.bind, Prog.lift, append_result, Prog.update, scored_data.
    simpl.
    destruct (Py.unpack2 x) as [[m s]|e]; simpl;
      [|rewrite app_nil_r; now destruct c].
    destruct (as_memory_data m); simpl;
      [|rewrite app_nil_r; now destruct c].
    destruct (Py.setitem a "similarity_score" s); simpl;
      [|rewrite app_nil_r; now destruct c].
    rewrite IH. simpl. destruct (scored_prefix xs) as [ds stop]. simpl.
    rewrite <- app_assoc. now destruct c.
Qed.

Ltac case_step' :=
  match goal with
  | |- context [match inst_respond ?i ?l ?c with _ => _ end] =>
      destruct (inst_respond i l c) eqn:?
  | |- context [match Py.iter ?v with _ => _ end] => destruct (Py.iter v) eqn:?
  | |- context [scored_prefix ?l] =>
      let ds := fresh "ds" in
      let stop := fresh "stop" in
      destruct (scored_prefix l) as [ds [stop|]] eqn:?
  end.

(** Every path through the [try] block, with the loops replaced by what
    they compute. *)
Ltac search_paths' c inst :=
  destruct (semantic_search c) eqn:?; simpl in *;
  [destruct (inst_has inst "search_memories_semantic") eqn:?; simpl in *|];
  repeat (first [ rewrite !loop_plain_eq | rewrite !loop_scored_eq
                | case_step' ]; simpl in * );
  destruct (include_analytics c) eqn:?; simpl in *;
  try (destruct (inst_has inst "get_memory_analytics") eqn:?; simpl in * );
  repeat (case_step'; simpl in * ).

(** [search_memories] always returns; it assigns the status and the two
    cached attributes and nothing else, and only adds to the log. *)
Lemma search_frame st :
  exists results status cache analytics,
    search_memories st
    = (Return results,
       mkRun (set_status status
                (set_analytics analytics
                   (set_search_results cache (self st))))
             (log st ++ new_events search_memories st)%list).
Proof.
  destruct st as [c lg]. open_search.
  destruct (usable (memory_instance c)) as [inst|]; simpl.
  2: { settle_log. rewrite app_nil_r. destruct c. do 4 eexists.
       unfold set_status, set_analytics, set_search_results; simpl.
       reflexivity. }
  destruct (usable_text (search_query c)) as [query|]; simpl.
  2: { settle_log. rewrite app_nil_r. destruct c. do 4 eexists.
       unfold set_status, set_analytics, set_search_results; simpl.
       reflexivity. }
  search_paths' c inst.
  all: settle_log; destruct c; do 4 eexists;
    unfold set_status, set_analytics, set_search_results; simpl;
    reflexivity.
Qed.

End SearchMore.

(** ** The store component *)

Module StoreFacts.
Import Store.

Ltac case_step :=
  match goal with
  | |- context [match inst_respond ?i ?l ?c with _ => _ end] =>
      destruct (inst_respond i l c) eqn:?
  | |- context [match ?o with Return _ => _ | Raise _ => _ end] =>
      destruct o eqn:?
  | |- context [if Py.truthy ?v then _ else _] => destruct (Py.truthy v) eqn:?
  | |- context [if Py.hasattr ?v ?n then _ else _] =>
      destruct (Py.hasattr v n) eqn:?
  | |- context [match ?l with [] => _ | _ :: _ => _ end] => destruct l eqn:?
  end.

Ltac open_store :=
  unfold store_memory, store_attempt, add_branch, store_branch,
    report_stored, store_failed in *;
  prog_unfold.

(** Every path through the [try] block of [store_memory]. *)
Ltac store_paths inst :=
  destruct (inst_has inst "add_memory") eqn:?; simpl in *;
  [ repeat (case_step; simpl in * );
    destruct (inst_has inst "memory_store") eqn:?; simpl in *
  | destruct (inst_has inst "store_memory") eqn:?; simpl in * ];
  repeat (case_step; simpl in * ).

Ltac frame_done :=
  do 4 eexists;
  unfold set_storage_status, set_memory_id, set_stored_memory; simpl;
  reflexivity.

Lemma store_calls {host : Host} st inst text :
  usable (memory_instance (self st)) = Some inst ->
  usable_text (content (self st)) = Some text ->
  method_calls (new_events store_memory st) = store_dispatch_calls (self st) inst text.
Proof.
  destruct st as [c lg]. simpl. intros Hi Hq.
  unfold store_dispatch_calls. open_store. rewrite Hi, Hq. simpl.
  store_paths inst.
  all: settle_log; reflexivity.
Qed.

Lemma store_unsupported {host : Host} st inst text :
  usable (memory_instance (self st)) = Some inst ->
  usable_text (content (self st)) = Some text ->
  inst_has inst "add_memory" = false ->
  inst_has inst "store_memory" = false ->
  fst (store_memory st) = Return empty_data
  /\ _storage_status (self (snd (store_memory st))) = unsupported
  /\ new_events store_memory st
     = [On (inst_id inst) (Hasattr "add_memory");
        On (inst_id inst) (Hasattr "store_memory")].
Proof.
  destruct st as [c lg]. simpl. intros Hi Hq Ha Hs.
  open_store. rewrite Hi, Hq. simpl. rewrite Ha. simpl. rewrite Hs. simpl.
  settle_log. repeat split.
Qed.

Lemma store_caught {host : Host} st inst text e :
  usable (memory_instance (self st)) = Some inst ->
  usable_text (content (self st)) = Some text ->
  first_raise inst (log st) (new_events store_memory st) = Some e ->
  fst (store_memory st) = Return empty_data
  /\ _storage_status (self (snd (store_memory st)))
     = "Error storing memory: " ++ e.
Proof.
  destruct st as [c lg]. simpl. intros Hi Hq.
  open_store. rewrite Hi, Hq. simpl.
  store_paths inst.
  all: intros H; settle_raise H.
  all: try discriminate H.
  all: inversion H; subst; split; reflexivity.
Qed.

(** [store_memory] always returns, and leaves the input fields as they
    were: it assigns [_stored_memory], [_memory_id] and [_storage_status]
    only. *)
Lemma store_frame {host : Host} st :
  exists d stored id status,
    store_memory st
    = (Return d,
       mkRun (set_storage_status status
                (set_memory_id id (set_stored_memory stored (self st))))
             (log st ++ new_events store_memory st)%list).
Proof.
  destruct st as [c lg]. open_store.
  destruct (usable (memory_instance c)) as [inst|]; simpl.
  2: { settle_log. rewrite app_nil_r. destruct c. frame_done. }
  destruct (usable_text (content c)) as [text|]; simpl.
  2: { settle_log. rewrite app_nil_r. destruct c. frame_done. }
  store_paths inst.
  all: settle_log; destruct c; frame_done.
Qed.

(** An invocation stopped by a guard. *)
Lemma store_guarded {host : Host} st :
  usable (memory_instance (self st)) = None
  \/ usable_text (content (self st)) = None ->
  store_memory st
  = (Return empty_data,
     mkRun
       (set_storage_status
          (match usable (memory_instance (self st)) with
           | None => "Error: No memory instance provided"
           | Some _ => "Error: No content provided"
           end) (self st))
       (log st)).
Proof.
  destruct st as [c lg]. simpl. open_store.
  destruct (usable (memory_instance c)) as [inst|]; simpl; [|reflexivity].
  intros [H|H]; [discriminate H|]. now rewrite H.
Qed.

Lemma store_touches {host : Host} : touches_only touched_members store_memory.
Proof.
  intros [c lg]. open_store.
  destruct (usable (memory_instance c)) as [inst|]; simpl;
    [|settle_log; reflexivity].
  destruct (usable_text (content c)) as [text|]; simpl;
    [|settle_log; reflexivity].
  store_paths inst.
  all: settle_log; reflexivity.
Qed.

End StoreFacts.

(** ** The memory component *)

Module MemoryFacts.
Import Memory.

Ltac case_step :=
  match goal with
  | |- context [match inst_respond ?i ?l ?c with _ => _ end] =>
      destruct (inst_respond i l c) eqn:?
  | |- context [match ?o with Return _ => _ | Raise _ => _ end] =>
      destruct o eqn:?
  | |- context [if inst_truthy ?i then _ else _] =>
      destruct (inst_truthy i) eqn:?
  end.

Ltac open_memory :=
  unfold get_memory_context, get_memory_instance, get_stored_message,
    get_relevant_memories, build_memory, build_attempt, build_failed,
    _process_message, process_attempt, process_failed, load_context in *;
  prog_unfold;
  unfold import_create_eliza_memory, create_eliza_memory in *;
  simpl in *.

(** The two outcomes of the import. *)
Ltac import_cases :=
  destruct eliza_memory_module as [factory|import_error] eqn:?;
  simpl in *.

Ltac open_state st :=
  destruct st as [[sid uid msg ext inc mx md ex stat mi mc sm rel] lg];
  simpl in *.

(** Every path through [_process_message], for a state opened by
    [open_state]. *)
Ltac process_paths msg inc :=
  destruct msg as [[|? ?]|]; simpl in *;
  try match goal with
      | H : usable _ = Some _ |- _ => rewrite H; simpl in *
      end;
  repeat (case_step; simpl in * );
  destruct inc; simpl in *;
  repeat (case_step; simpl in * ).

(** With a usable existing instance, the factory is not called and the
    existing handle is the one kept and returned. *)
Lemma existing_used {host : Host} st inst factory :
  eliza_memory_module = Return factory ->
  usable (existing_memory (self st)) = Some inst ->
  fst (build_memory st) = Return (existing_memory (self st))
  /\ _memory_instance (self (snd (build_memory st)))
     = existing_memory (self st)
  /\ factory_calls (new_events build_memory st) = [].
Proof.
  open_state st. intros Hm Hi.
  open_memory. rewrite Hm. simpl. rewrite Hi. simpl.
  process_paths msg inc.
  all: settle_log; repeat split.
Qed.

(** When the import fails, nothing else happens: [build_memory] names the
    import error in the status and returns [None], whatever the inputs. *)
Lemma import_failed {host : Host} st e :
  eliza_memory_module = Raise e ->
  fst (build_memory st) = Return None
  /\ status (self (snd (build_memory st))) = "Error building memory: " ++ e
  /\ new_events build_memory st = []
  /\ _memory_instance (self (snd (build_memory st)))
     = _memory_instance (self st).
Proof.
  open_state st. intros Hm. open_memory. rewrite Hm. simpl.
  settle_log. repeat split.
Qed.

(** Without one, the factory is called first, once, with the session,
    the user and the extraction flag; what it returns is kept and
    returned, and when it raises nothing else happens. *)
Lemma factory_used {host : Host} st factory :
  eliza_memory_module = Return factory ->
  usable (existing_memory (self st)) = None ->
  let c := self st in
  exists rest,
    new_events build_memory st
    = Created (session_id c) (user_id c) (extract_memories c) :: rest
    /\ factory_calls rest = []
    /\ match create_eliza_memory (log st) (session_id c) (user_id c)
               (extract_memories c) with
       | Return created =>
           fst (build_memory st) = Return (Some created)
           /\ _memory_instance (self (snd (build_memory st))) = Some created
       | Raise e =>
           fst (build_memory st) = Return None
           /\ status (self (snd (build_memory st)))
              = "Error building memory: " ++ e
           /\ rest = []
       end.
Proof.
  open_state st. intros Hm Hi.
  open_memory. rewrite Hm. simpl. rewrite Hi. simpl.
  destruct (factory lg sid uid ext) as [created|e]; simpl.
  2: { settle_log. eexists. repeat split. }
  process_paths msg inc.
  all: settle_log; eexists; repeat split.
Qed.

(** An exception raised by the instance in use is caught inside
    [_process_message]: the status names it, and [build_memory] still
    returns the instance. *)
Lemma process_caught_existing {host : Host} st inst e :
  usable (existing_memory (self st)) = Some inst ->
  first_raise inst (log st) (new_events build_memory st) = Some e ->
  fst (build_memory st) = Return (existing_memory (self st))
  /\ status (self (snd (build_memory st)))
     = "Error processing message: " ++ e.
Proof.
  open_state st. intros Hi.
  open_memory. import_cases.
  2: { settle_log. intros H. discriminate H. }
  rewrite Hi. simpl.
  process_paths msg inc.
  all: intros H; settle_raise H.
  all: try discriminate H.
  all: inversion H; subst; split; reflexivity.
Qed.

Lemma process_caught_created {host : Host} st created e :
  usable (existing_memory (self st)) = None ->
  create_eliza_memory (log st) (session_id (self st)) (user_id (self st))
    (extract_memories (self st)) = Return created ->
  first_raise created (log st) (new_events build_memory st) = Some e ->
  fst (build_memory st) = Return (Some created)
  /\ status (self (snd (build_memory st)))
     = "Error processing message: " ++ e.
Proof.
  open_state st. intros Hi Hc.
  open_memory. import_cases; [|discriminate Hc].
  rewrite Hi. simpl. rewrite Hc. simpl.
  process_paths msg inc.
  all: intros H; settle_raise H.
  all: try discriminate H.
  all: inversion H; subst; split; reflexivity.
Qed.

(** Whatever [_relevant_memories] holds after a run is what it held
    before, or what the instance in use answered to the call
    [search_memories(message, limit=max_memories)] that the run made: the
    component does not search by itself. *)
Lemma relevant_memories_delegated {host : Host} st :
  _relevant_memories (self (snd (build_memory st)))
  = _relevant_memories (self st)
  \/ exists inst text before rest,
       _memory_instance (self (snd (build_memory st))) = Some inst
       /\ usable_text (message (self st)) = Some text
       /\ new_events build_memory st
          = (before
             ++ On (inst_id inst)
                  (SearchMemories text None (max_memories (self st)))
             :: rest)%list
       /\ inst_respond inst (log st ++ before)%list
            (SearchMemories text None (max_memories (self st)))
          = Return (_relevant_memories (self (snd (build_memory st)))).
Proof.
  open_state st. open_memory. import_cases; [|left; reflexivity].
  destruct (usable ex) as [inst|] eqn:Hi; simpl.
  - assert (Hx : ex = Some inst).
    { destruct ex as [i|]; simpl in Hi; [|discriminate Hi].
      destruct (inst_truthy i); inversion Hi; reflexivity. }
    subst ex.
    process_paths msg inc. all: try (left; reflexivity).
    all: right; eexists inst, _, (_ :: nil), _; settle_log.
    all: repeat split; eassumption.
  - destruct (factory lg sid uid ext) as [created|e]; simpl.
    2: left; reflexivity.
    process_paths msg inc. all: try (left; reflexivity).
    all: right; eexists created, _, (_ :: _ :: nil), _; settle_log.
    all: repeat rewrite <- app_assoc in *; simpl in *.
    all: repeat split; eassumption.
Qed.

Lemma build_touches {host : Host} : touches_only touched_members build_memory.
Proof.
  intros st. open_state st. open_memory.
  import_cases; [|settle_log; reflexivity].
  destruct (usable ex) as [inst|] eqn:Hi; simpl.
  - process_paths msg inc. all: settle_log; reflexivity.
  - destruct (factory lg sid uid ext) as [created|e]; simpl.
    2: { settle_log. reflexivity. }
    process_paths msg inc. all: settle_log; reflexivity.
Qed.

End MemoryFacts.

(** ** The claims *)

Lemma existsb_false_of_forallb (p q : Call -> bool) l :
  forallb (fun c => negb (p c) && negb (q c)) l = true ->
  existsb p l = false /\ existsb q l = false.
Proof.
  induction l as [|c l IH]; simpl; [auto|]. intros H.
  apply andb_true_iff in H. destruct H as [H1 H2].
  apply andb_true_iff in H1. destruct H1 as [P Q].
  destruct (IH H2) as [-> ->].
  apply negb_true_iff in P, Q. now rewrite P, Q.
Qed.

(** C1, as amended.  For every invocation of [search_memories] that passes
    its two guards (a memory instance that is true, a query that is not
    empty), the first method call on the instance is the dispatch call:
    [search_memories_semantic(query, limit, memory_types)] when the
    [semantic_search] input is true and the instance has that attribute,
    and [search_memories(query, memory_types, limit)] in every other case,
    with [memory_types] the parsed list.  The semantic call occurs exactly
    under that condition and the keyword call exactly otherwise. *)
Theorem search_dispatch_guarded (st : Run Search.Component) inst query :
  usable (Search.memory_instance (self st)) = Some inst ->
  usable_text (Search.search_query (self st)) = Some query ->
  let calls := method_calls (new_events Search.search_memories st) in
  hd_error calls = Some (dispatch_call (self st) inst query)
  /\ existsb is_semantic_call calls = wants_semantic (self st) inst
  /\ existsb is_keyword_call calls = negb (wants_semantic (self st) inst).
Proof.
  intros Hi Hq.
  destruct (SearchFacts.search_first_call st inst query Hi Hq) as [rest [E F]].
  simpl. rewrite E. simpl.
  destruct (existsb_false_of_forallb _ _ _ F) as [-> ->].
  unfold dispatch_call. destruct (wants_semantic (self st) inst); auto.
Qed.

Lemma search_dispatch_guarded_witness :
  let st := Demo.search (Some "tea") true false (Some Demo.engine) in
  let calls := method_calls (new_events Search.search_memories st) in
  hd_error calls
  = Some (SearchMemoriesSemantic "tea" 10 ["preference"; "factual"])
  /\ existsb is_semantic_call calls = true
  /\ existsb is_keyword_call calls = false.
Proof.
  exact (search_dispatch_guarded
           (Demo.search (Some "tea") true false (Some Demo.engine))
           Demo.engine "tea" eq_refl eq_refl).
Defined.

(** C1, as stated, fails on an invocation stopped by a guard: with an
    empty query, the flag set and an instance that has
    [search_memories_semantic], no call is made at all. *)
Lemma search_dispatch_unguarded_counterexample :
  ~ dispatch_on_every_invocation
      (Demo.search (Some "") true false (Some Demo.engine)) Demo.engine.
Proof.
  unfold dispatch_on_every_invocation. vm_compute. intros [H _]. discriminate H.
Qed.

Example keyword_dispatch_run :
  method_calls
    (new_events Search.search_memories
       (Demo.search (Some "tea") true false (Some Demo.database)))
  = [SearchMemories "tea" (Some ["preference"; "factual"]) 10].
Proof. reflexivity. Qed.

(** C2.  For every invocation of [store_memory] with a memory instance
    and non-empty content: an instance that has [add_memory] gets exactly
    the call [add_memory(content, memory_type, metadata, tags)]; otherwise
    an instance that has [store_memory] gets exactly the call
    [store_memory(user_id, content, memory_type, session_id, metadata, tags,
    relevance_score)], with [tags] the parsed list; an instance with
    neither gets no call and no attribute read, only the two probes, the
    storage status is the unsupported-instance error and the result is the
    empty envelope. *)
Theorem store_dispatch {host : Host} (st : Run Store.Component) inst text :
  usable (Store.memory_instance (self st)) = Some inst ->
  usable_text (Store.content (self st)) = Some text ->
  method_calls (new_events Store.store_memory st)
  = store_dispatch_calls (self st) inst text
  /\ (inst_has inst "add_memory" = false ->
      inst_has inst "store_memory" = false ->
      fst (Store.store_memory st) = Return empty_data
      /\ Store._storage_status (self (snd (Store.store_memory st)))
         = "Error: Memory instance does not support memory storage"
      /\ new_events Store.store_memory st
         = [On (inst_id inst) (Hasattr "add_memory");
            On (inst_id inst) (Hasattr "store_memory")]).
Proof.
  intros Hi Hq. split.
  - now apply StoreFacts.store_calls.
  - intros Ha Hs. now apply StoreFacts.store_unsupported with (text := text).
Qed.

Lemma store_dispatch_witness :
  let st := Demo.store (Some "likes tea") (Some Demo.bare) in
  method_calls (new_events (@Store.store_memory Demo.host) st) = []
  /\ fst (@Store.store_memory Demo.host st) = Return empty_data
  /\ Store._storage_status (self (snd (@Store.store_memory Demo.host st)))
     = "Error: Memory instance does not support memory storage"
  /\ new_events (@Store.store_memory Demo.host) st
     = [On 3 (Hasattr "add_memory"); On 3 (Hasattr "store_memory")].
Proof.
  destruct (@store_dispatch Demo.host
              (Demo.store (Some "likes tea") (Some Demo.bare))
              Demo.bare "likes tea" eq_refl eq_refl) as [calls neither].
  split; [exact calls|exact (neither eq_refl eq_refl)].
Defined.

Example add_memory_run :
  method_calls
    (new_events (@Store.store_memory Demo.host)
       (Demo.store (Some "likes tea") (Some Demo.engine)))
  = [AddMemory "likes tea" "general" PyNone ["drinks"; "habits"]].
Proof. reflexivity. Qed.

Example store_memory_run :
  method_calls
    (new_events (@Store.store_memory Demo.host)
       (Demo.store (Some "likes tea") (Some Demo.database)))
  = [StoreMemory "anonymous" "likes tea" "general" "default_session" PyNone
       ["drinks"; "habits"] (PyInt 1)].
Proof. reflexivity. Qed.

(** C3, as amended.  An exception raised by a call on the external memory
    object is caught: [search_memories] sets the status to
    ['Error searching memories: '] followed by the exception text and
    returns the empty list; [store_memory] sets the storage status to
    ['Error storing memory: '] followed by the text and returns the empty
    envelope; in [build_memory] the exception is caught inside
    [_process_message], the status is ['Error processing message: ']
    followed by the text, and [build_memory] returns the memory instance,
    the existing one or the one just created.  [build_memory] returns its
    default [None], with the status ['Error building memory: '] followed
    by the text, when the factory raises. *)
Theorem external_exceptions_caught {host : Host} :
  (forall (st : Run Search.Component) inst query e,
      usable (Search.memory_instance (self st)) = Some inst ->
      usable_text (Search.search_query (self st)) = Some query ->
      first_raise inst (log st) (new_events Search.search_memories st) = Some e ->
      fst (Search.search_memories st) = Return []
      /\ Search.status (self (snd (Search.search_memories st)))
         = "Error searching memories: " ++ e)
  /\ (forall (st : Run Store.Component) inst text e,
      usable (Store.memory_instance (self st)) = Some inst ->
      usable_text (Store.content (self st)) = Some text ->
      first_raise inst (log st) (new_events Store.store_memory st) = Some e ->
      fst (Store.store_memory st) = Return empty_data
      /\ Store._storage_status (self (snd (Store.store_memory st)))
         = "Error storing memory: " ++ e)
  /\ (forall (st : Run Memory.Component) inst e,
      usable (Memory.existing_memory (self st)) = Some inst ->
      first_raise inst (log st) (new_events Memory.build_memory st) = Some e ->
      fst (Memory.build_memory st) = Return (Memory.existing_memory (self st))
      /\ Memory.status (self (snd (Memory.build_memory st)))
         = "Error processing message: " ++ e)
  /\ (forall (st : Run Memory.Component) created e,
      usable (Memory.existing_memory (self st)) = None ->
      create_eliza_memory (log st) (Memory.session_id (self st))
        (Memory.user_id (self st)) (Memory.extract_memories (self st))
      = Return created ->
      first_raise created (log st) (new_events Memory.build_memory st) = Some e ->
      fst (Memory.build_memory st) = Return (Some created)
      /\ Memory.status (self (snd (Memory.build_memory st)))
         = "Error processing message: " ++ e)
  /\ (forall (st : Run Memory.Component) e,
      usable (Memory.existing_memory (self st)) = None ->
      create_eliza_memory (log st) (Memory.session_id (self st))
        (Memory.user_id (self st)) (Memory.extract_memories (self st))
      = Raise e ->
      fst (Memory.build_memory st) = Return None
      /\ Memory.status (self (snd (Memory.build_memory st)))
         = "Error building memory: " ++ e).
Proof.
  split; [exact SearchFacts.search_caught|].
  split; [exact StoreFacts.store_caught|].
  split; [exact MemoryFacts.process_caught_existing|].
  split; [exact MemoryFacts.process_caught_created|].
  intros st e Hi Hc.
  destruct eliza_memory_module as [factory|import_error] eqn:Hm.
  - destruct (MemoryFacts.factory_used st factory Hm Hi) as [rest [_ [_ H]]].
    simpl in H. rewrite Hc in H. destruct H as [R [S _]]. now split.
  - unfold create_eliza_memory in Hc. rewrite Hm in Hc.
    inversion Hc; subst import_error.
    destruct (MemoryFacts.import_failed st e Hm) as [R [S _]]. now split.
Qed.

Lemma external_exceptions_caught_witness :
  (fst (Search.search_memories
          (Demo.search (Some "tea") false true (Some Demo.flaky)))
   = Return []
   /\ Search.status
        (self (snd (Search.search_memories
                      (Demo.search (Some "tea") false true (Some Demo.flaky)))))
      = "Error searching memories: analytics unavailable")
  /\ (fst (@Store.store_memory Demo.host
             (Demo.store (Some "likes tea") (Some Demo.full)))
      = Return empty_data
      /\ Store._storage_status
           (self (snd (@Store.store_memory Demo.host
                         (Demo.store (Some "likes tea") (Some Demo.full)))))
         = "Error storing memory: disk full")
  /\ (fst (@Memory.build_memory Demo.host
             (Demo.memory (Some "hi") (Some Demo.read_only)))
      = Return (Some Demo.read_only)
      /\ Memory.status
           (self (snd (@Memory.build_memory Demo.host
                         (Demo.memory (Some "hi") (Some Demo.read_only)))))
         = "Error processing message: read-only store")
  /\ (fst (@Memory.build_memory Demo.read_only_host (Demo.memory (Some "hi") None))
      = Return (Some Demo.read_only)
      /\ Memory.status
           (self (snd (@Memory.build_memory Demo.read_only_host
                         (Demo.memory (Some "hi") None))))
         = "Error processing message: read-only store")
  /\ (fst (@Memory.build_memory Demo.broken_host (Demo.memory (Some "hi") None))
      = Return None
      /\ Memory.status
           (self (snd (@Memory.build_memory Demo.broken_host
                         (Demo.memory (Some "hi") None))))
         = "Error building memory: no backend").
Proof.
  split; [|split; [|split; [|split]]].
  - exact (proj1 (@external_exceptions_caught Demo.host)
             (Demo.search (Some "tea") false true (Some Demo.flaky))
             Demo.flaky "tea" "analytics unavailable"
             eq_refl eq_refl eq_refl).
  - exact (proj1 (proj2 (@external_exceptions_caught Demo.host))
             (Demo.store (Some "likes tea") (Some Demo.full))
             Demo.full "likes tea" "disk full"
             eq_refl eq_refl eq_refl).
  - exact (proj1 (proj2 (proj2 (@external_exceptions_caught Demo.host)))
             (Demo.memory (Some "hi") (Some Demo.read_only))
             Demo.read_only "read-only store" eq_refl eq_refl).
  - exact (proj1 (proj2 (proj2 (proj2
             (@external_exceptions_caught Demo.read_only_host))))
             (Demo.memory (Some "hi") None)
             Demo.read_only "read-only store" eq_refl eq_refl eq_refl).
  - exact (proj2 (proj2 (proj2 (proj2
             (@external_exceptions_caught Demo.broken_host))))
             (Demo.memory (Some "hi") None) "no backend" eq_refl eq_refl).
Defined.

(** C3, as stated, fails for [build_memory]: when [save_context] raises,
    [build_memory] returns the memory instance, not its default. *)
Lemma build_memory_default_counterexample :
  ~ @build_defaults_on_error Demo.host
      (Demo.memory (Some "hi") (Some Demo.read_only)) Demo.read_only.
Proof.
  intros H. specialize (H "read-only store" eq_refl). discriminate H.
Qed.

(** The output methods add, to what their main method does, steps that
    leave the log alone. *)
Lemma search_outputs_touch {host : Host} :
  touches_only touched_members Search.get_formatted_results
  /\ touches_only touched_members Search.get_memory_analytics
  /\ touches_only touched_members Search.get_result_count.
Proof.
  repeat split; apply touches_only_then; try apply SearchFacts.search_touches.
  all: intros a [c lg]; unfold Prog.bind, Prog.get_self, Prog.ret, Prog.lift;
    simpl; try reflexivity.
  destruct (Search._search_results c); simpl; [reflexivity|].
  destruct (Search.format_entry _ _); simpl; [|reflexivity].
  destruct (Search.format_entries _ _ _); reflexivity.
Qed.

Lemma store_outputs_touch {host : Host} :
  touches_only touched_members Store.get_memory_id
  /\ touches_only touched_members Store.get_storage_status
  /\ touches_only touched_members Store.get_updated_memory_instance.
Proof.
  repeat split; apply touches_only_then; try apply StoreFacts.store_touches.
  all: intros a [c lg]; reflexivity.
Qed.

Lemma memory_outputs_touch {host : Host} :
  touches_only touched_members Memory.get_memory_context
  /\ touches_only touched_members Memory.get_memory_instance
  /\ touches_only touched_members Memory.get_stored_message
  /\ touches_only touched_members Memory.get_relevant_memories.
Proof.
  repeat split; try apply MemoryFacts.build_touches.
  all: apply touches_only_then; try apply MemoryFacts.build_touches.
  all: intros a [c lg]; unfold Prog.bind, Prog.get_self, Prog.ret, Prog.lift;
    simpl; try reflexivity.
  destruct (Py.iter _); reflexivity.
Qed.

(** C5, as amended.  The members of the external memory object that the
    adapters probe, read or call are exactly ten: the seven methods
    [save_context], [load_memory_variables], [search_memories],
    [search_memories_semantic], [add_memory], [store_memory] and
    [get_memory_analytics], and besides them the attribute [memory_key]
    and the method [_get_timestamp] in [_process_message] and the
    attribute [memory_store] in [store_memory].  No method of any adapter
    touches another member, and each of the ten is touched in a sample
    run. *)
Theorem touched_members_exact :
  (forall host : Host,
      (touches_only touched_members Search.search_memories
       /\ touches_only touched_members Search.get_formatted_results
       /\ touches_only touched_members Search.get_memory_analytics
       /\ touches_only touched_members Search.get_result_count)
      /\ (touches_only touched_members Store.store_memory
          /\ touches_only touched_members Store.get_memory_id
          /\ touches_only touched_members Store.get_storage_status
          /\ touches_only touched_members Store.get_updated_memory_instance)
      /\ (touches_only touched_members Memory.build_memory
          /\ touches_only touched_members Memory.get_memory_context
          /\ touches_only touched_members Memory.get_memory_instance
          /\ touches_only touched_members Memory.get_stored_message
          /\ touches_only touched_members Memory.get_relevant_memories))
  /\ forallb (is_member_of sample_touched) touched_members = true.
Proof.
  split; [|vm_compute; reflexivity].
  intros host. split; [|split].
  - split; [apply SearchFacts.search_touches|apply search_outputs_touch].
  - split; [apply StoreFacts.store_touches|apply store_outputs_touch].
  - split; [apply MemoryFacts.build_touches|apply memory_outputs_touch].
Qed.

(** C5, as stated, fails: storing on an instance that has [add_memory]
    and [memory_store] reads [memory_store], which is not among the seven
    listed methods. *)
Lemma listed_members_counterexample :
  ~ @only_listed_members_touched Demo.host.
Proof.
  intros [_ [H _]].
  specialize (H (Demo.store (Some "likes tea") (Some Demo.engine))).
  vm_compute in H. discriminate H.
Qed.

Example store_touches_memory_store :
  members_touched
    (new_events (@Store.store_memory Demo.host)
       (Demo.store (Some "likes tea") (Some Demo.engine)))
  = ["add_memory"; "add_memory"; "memory_store"; "memory_store"].
Proof. reflexivity. Qed.

Example build_touches_key_and_timestamp :
  members_touched
    (new_events (@Memory.build_memory Demo.host)
       (Demo.memory (Some "hi") (Some Demo.engine)))
  = ["save_context"; "search_memories"; "load_memory_variables";
     "memory_key"; "_get_timestamp"].
Proof. reflexivity. Qed.

(** C6, as amended.  [build_memory] first imports [create_eliza_memory].
    When the import fails nothing else happens, also with an existing
    memory: the status names the import error, [None] is returned, and
    neither the factory nor the memory object is touched.  When the
    import succeeds, an existing memory that is provided (true in the
    condition [if self.existing_memory]) becomes the memory instance: it
    is stored, it is returned, and the factory is not called; otherwise
    the factory is called first, and only once, with [session_id],
    [user_id] and [memory_extraction] equal to the [extract_memories]
    input, and the instance it returns is the one stored and returned
    (when the factory raises, the status names the error and [None] is
    returned).  The component does not search by itself: the relevant memories it
    holds afterwards are those it held before, or the answer that the
    instance in use gave, at that point of the log, to the call
    [search_memories(message, limit=max_memories)] made in the run. *)
Theorem build_memory_source {host : Host} (st : Run Memory.Component) :
  let c := self st in
  let after := self (snd (Memory.build_memory st)) in
  match eliza_memory_module with
  | Raise e =>
      fst (Memory.build_memory st) = Return None
      /\ Memory.status after = "Error building memory: " ++ e
      /\ new_events Memory.build_memory st = []
      /\ Memory._memory_instance after = Memory._memory_instance c
  | Return factory =>
      match usable (Memory.existing_memory c) with
      | Some _ =>
          fst (Memory.build_memory st) = Return (Memory.existing_memory c)
          /\ Memory._memory_instance after = Memory.existing_memory c
          /\ factory_calls (new_events Memory.build_memory st) = []
      | None =>
          exists rest,
            new_events Memory.build_memory st
            = Created (Memory.session_id c) (Memory.user_id c)
                (Memory.extract_memories c) :: rest
            /\ factory_calls rest = []
            /\ (forall created,
                  factory (log st) (Memory.session_id c) (Memory.user_id c)
                    (Memory.extract_memories c)
                  = Return created ->
                  fst (Memory.build_memory st) = Return (Some created)
                  /\ Memory._memory_instance after = Some created)
            /\ (forall e,
                  factory (log st) (Memory.session_id c) (Memory.user_id c)
                    (Memory.extract_memories c)
                  = Raise e ->
                  fst (Memory.build_memory st) = Return None
                  /\ Memory.status after = "Error building memory: " ++ e
                  /\ rest = [])
      end
  end
  /\ (Memory._relevant_memories after = Memory._relevant_memories c
      \/ exists inst text before rest,
           Memory._memory_instance after = Some inst
           /\ usable_text (Memory.message c) = Some text
           /\ new_events Memory.build_memory st
              = (before
                 ++ On (inst_id inst)
                      (SearchMemories text None (Memory.max_memories c))
                 :: rest)%list
           /\ inst_respond inst (log st ++ before)%list
                (SearchMemories text None (Memory.max_memories c))
              = Return (Memory._relevant_memories after)).
Proof.
  simpl. split; [|apply MemoryFacts.relevant_memories_delegated].
  destruct eliza_memory_module as [factory|e] eqn:Hm.
  - destruct (usable (Memory.existing_memory (self st))) as [inst|] eqn:Hi.
    + exact (MemoryFacts.existing_used st inst factory Hm Hi).
    + destruct (MemoryFacts.factory_used st factory Hm Hi) as [rest [E [F H]]].
      exists rest. split; [exact E|split; [exact F|]].
      simpl in H. unfold create_eliza_memory in H. rewrite Hm in H.
      split; [intros created Hc|intros e Hc]; rewrite Hc in H; exact H.
  - exact (MemoryFacts.import_failed st e Hm).
Qed.

Lemma build_memory_source_witness :
  fst (@Memory.build_memory Demo.host
         (Demo.memory (Some "hi") (Some Demo.engine)))
  = Return (Some Demo.engine)
  /\ Memory._memory_instance
       (self (snd (@Memory.build_memory Demo.host
                     (Demo.memory (Some "hi") (Some Demo.engine)))))
     = Some Demo.engine
  /\ factory_calls
       (new_events (@Memory.build_memory Demo.host)
          (Demo.memory (Some "hi") (Some Demo.engine))) = [].
Proof.
  exact (proj1 (@build_memory_source Demo.host
                  (Demo.memory (Some "hi") (Some Demo.engine)))).
Defined.

(** C6, as stated, fails when the memory library cannot be imported: the
    import is the first statement of the [try] block, so an existing
    memory that is provided is not even looked at and [None] is
    returned. *)
Lemma existing_memory_unused_counterexample :
  ~ @existing_memory_is_used Demo.missing_host
      (Demo.memory (Some "hi") (Some Demo.engine)).
Proof.
  intros H. destruct (H Demo.engine eq_refl) as [R _]. discriminate R.
Qed.

Example build_without_library_run :
  fst (@Memory.build_memory Demo.missing_host
         (Demo.memory (Some "hi") (Some Demo.engine)))
  = Return None
  /\ Memory.status
       (self (snd (@Memory.build_memory Demo.missing_host
                     (Demo.memory (Some "hi") (Some Demo.engine)))))
     = "Error building memory: No module named 'langchain.memory.eliza_memory'"
  /\ new_events (@Memory.build_memory Demo.missing_host)
       (Demo.memory (Some "hi") (Some Demo.engine)) = [].
Proof. repeat split. Qed.

Example build_with_existing_run :
  fst (@Memory.build_memory Demo.host
         (Demo.memory (Some "hi") (Some Demo.database)))
  = Return (Some Demo.database)
  /\ factory_calls
       (new_events (@Memory.build_memory Demo.host)
          (Demo.memory (Some "hi") (Some Demo.database))) = [].
Proof. split; reflexivity. Qed.

Example build_with_factory_run :
  fst (@Memory.build_memory Demo.host (Demo.memory None None))
  = Return (Some Demo.engine)
  /\ new_events (@Memory.build_memory Demo.host) (Demo.memory None None)
     = [Created "default_session" "anonymous" true].
Proof. split; reflexivity. Qed.

(** C7, evaluated where it fails.  The keyword search answers one record
    and the analytics call then raises: [search_memories] reports the
    error and returns the empty list, but the record stays cached, so that
    [get_result_count] reports 1 and [get_formatted_results] lists it. *)
Theorem partial_failure_stays_visible :
  let st := Demo.search (Some "tea") false true (Some Demo.flaky) in
  first_raise Demo.flaky (log st) (new_events Search.search_memories st)
  = Some "analytics unavailable"
  /\ fst (Search.search_memories st) = Return []
  /\ Search.status (self (snd (Search.search_memories st)))
     = "Error searching memories: analytics unavailable"
  /\ fst (Search.get_result_count st) = Return (mkMessage (PyStr "1"))
  /\ fst (@Search.get_formatted_results Demo.host st)
     = Return (mkMessage (PyStr
         ("Found 1 memories:" ++ nl ++ nl ++ "1. [UNKNOWN] likes tea"
            ++ nl ++ nl))).
Proof. repeat split. Qed.

(** C8.  [get_updated_memory_instance] always returns, and what it returns
    is the handle held by the [memory_instance] input; the input still
    holds the same handle afterwards. *)
Theorem updated_instance_is_input {host : Host} (st : Run Store.Component) :
  fst (Store.get_updated_memory_instance st)
  = Return (Store.memory_instance (self st))
  /\ Store.memory_instance (self (snd (Store.get_updated_memory_instance st)))
     = Store.memory_instance (self st).
Proof.
  unfold Store.get_updated_memory_instance, Prog.bind, Prog.get_self, Prog.ret.
  destruct (StoreFacts.store_frame st) as [d [stored [id [status E]]]].
  rewrite E. simpl. destruct st as [c lg]. destruct c. split; reflexivity.
Qed.

Example updated_instance_run :
  fst (@Store.get_updated_memory_instance Demo.host
         (Demo.store (Some "likes tea") (Some Demo.engine)))
  = Return (Some Demo.engine).
Proof. reflexivity. Qed.

(** C9.  An invocation of [search_memories] whose memory instance or whose
    query is false in a condition returns the empty list, sets the status
    to the explanation of the guard that stopped it, and touches nothing
    on the external object: the log is unchanged.  Likewise for
    [store_memory] with the memory instance or the content: the empty
    [Data] envelope, the explanation in the storage status, an unchanged
    log. *)
Theorem guarded_invocations {host : Host} :
  (forall st : Run Search.Component,
      usable (Search.memory_instance (self st)) = None
      \/ usable_text (Search.search_query (self st)) = None ->
      fst (Search.search_memories st) = Return []
      /\ Search.status (self (snd (Search.search_memories st)))
         = match usable (Search.memory_instance (self st)) with
           | None => "No memory instance provided"
           | Some _ => "No search query provided"
           end
      /\ log (snd (Search.search_memories st)) = log st
      /\ new_events Search.search_memories st = [])
  /\ (forall st : Run Store.Component,
      usable (Store.memory_instance (self st)) = None
      \/ usable_text (Store.content (self st)) = None ->
      fst (Store.store_memory st) = Return (mkData (PyDict []))
      /\ Store._storage_status (self (snd (Store.store_memory st)))
         = match usable (Store.memory_instance (self st)) with
           | None => "Error: No memory instance provided"
           | Some _ => "Error: No content provided"
           end
      /\ log (snd (Store.store_memory st)) = log st
      /\ new_events Store.store_memory st = []).
Proof.
  split; intros st H.
  - unfold new_events. rewrite (SearchFacts.search_guarded st H). simpl.
    rewrite events_after_same. destruct st as [c lg]. destruct c.
    repeat split.
  - unfold new_events. rewrite (StoreFacts.store_guarded st H). simpl.
    rewrite events_after_same. destruct st as [c lg]. destruct c.
    repeat split.
Qed.

Lemma guarded_invocations_witness :
  (fst (Search.search_memories (Demo.search (Some "") true true (Some Demo.engine)))
   = Return []
   /\ Search.status
        (self (snd (Search.search_memories
                      (Demo.search (Some "") true true (Some Demo.engine)))))
      = "No search query provided"
   /\ log (snd (Search.search_memories
                  (Demo.search (Some "") true true (Some Demo.engine)))) = []
   /\ new_events Search.search_memories
        (Demo.search (Some "") true true (Some Demo.engine)) = [])
  /\ (fst (@Store.store_memory Demo.host (Demo.store (Some "likes tea") None))
      = Return (mkData (PyDict []))
      /\ Store._storage_status
           (self (snd (@Store.store_memory Demo.host
                         (Demo.store (Some "likes tea") None))))
         = "Error: No memory instance provided"
      /\ log (snd (@Store.store_memory Demo.host
                     (Demo.store (Some "likes tea") None))) = []
      /\ new_events (@Store.store_memory Demo.host)
           (Demo.store (Some "likes tea") None) = []).
Proof.
  split.
  - exact (proj1 (@guarded_invocations Demo.host)
             (Demo.search (Some "") true true (Some Demo.engine))
             (or_intror eq_refl)).
  - exact (proj2 (@guarded_invocations Demo.host)
             (Demo.store (Some "likes tea") None) (or_introl eq_refl)).
Defined.

Lemma append_assoc (a b c : string) : (a ++ b) ++ c = a ++ (b ++ c).
Proof. induction a; simpl; congruence. Qed.

(** The outputs of one run: what [get_result_count] and
    [get_formatted_results] return when the search they run themselves,
    from the state they are evaluated in, passes the guards and
    completes. *)
Lemma outputs_of_one_run {host : Host} (st : Run Search.Component)
    inst query results :
  usable (Search.memory_instance (self st)) = Some inst ->
  usable_text (Search.search_query (self st)) = Some query ->
  fst (Search.search_attempt inst query st) = Return results ->
  let n := PyString.of_nat (List.length results) in
  let found := "Found " ++ n ++ " memories" in
  (fst (Search.search_memories st) = Return results
   /\ Search.status (self (snd (Search.search_memories st))) = found)
  /\ (fst (Search.get_result_count st) = Return (mkMessage (PyStr n))
      /\ Search.status (self (snd (Search.get_result_count st))) = found)
  /\ (results <> [] ->
      (forall m, fst (Search.get_formatted_results st) = Return m ->
         exists body, m = mkMessage (PyStr (found ++ ":" ++ body)))
      /\ (forallb printable results = true ->
          exists body,
            fst (Search.get_formatted_results st)
            = Return (mkMessage (PyStr (found ++ ":" ++ body))))).
Proof.
  intros Hi Hq Hr. simpl.
  destruct (SearchFacts.search_attempt_found st inst query results Hr) as [Hc Hs].
  assert (Hm : Search.search_memories st
               = (Return results, snd (Search.search_attempt inst query st))).
  { rewrite (SearchFacts.search_passed st inst query Hi Hq). unfold Prog.try.
    destruct (Search.search_attempt inst query st) as [[r|e] st'];
      simpl in Hr |- *; [congruence|discriminate Hr]. }
  set (st' := snd (Search.search_attempt inst query st)) in *.
  unfold Search.get_result_count, Search.get_formatted_results,
    Prog.bind, Prog.get_self, Prog.ret, Prog.lift.
  rewrite Hm. cbv beta iota. rewrite Hc. cbn [fst snd self].
  split; [split; [reflexivity|exact Hs]|].
  split; [split; [reflexivity|exact Hs]|].
  intros Hne. destruct results as [|d ds]; [contradiction|]. cbv beta iota.
  set (n := PyString.of_nat (List.length (d :: ds))).
  set (header := "Found " ++ n ++ " memories:" ++ nl ++ nl).
  assert (Hx : forall t, Search.format_entries 1 (d :: ds) header = Return t ->
             exists body, t = ("Found " ++ n ++ " memories") ++ ":" ++ body).
  { intros t Ht.
    destruct (SearchFacts.format_entries_extends _ _ _ _ Ht) as [body ->].
    exists (nl ++ nl ++ body). unfold header. now rewrite !append_assoc. }
  destruct (Search.format_entries 1 (d :: ds) header) as [t|e] eqn:F;
    cbn [fst snd].
  - destruct (Hx t eq_refl) as [body ->]. split.
    + intros m Hm'. inversion Hm'; subst m. exists body. reflexivity.
    + intros _. exists body. reflexivity.
  - split.
    + intros m Hm'. discriminate Hm'.
    + intros Hp.
      destruct (SearchFacts.format_entries_total (d :: ds) 1 header Hp)
        as [t F'].
      rewrite F' in F. discriminate F.
Qed.

(** The state a run of [search_memories] leaves: the inputs are the same,
    so the guards that were passed are passed again. *)
Lemma guards_passed_again (st : Run Search.Component) inst query :
  usable (Search.memory_instance (self st)) = Some inst ->
  usable_text (Search.search_query (self st)) = Some query ->
  usable (Search.memory_instance (self (snd (Search.search_memories st))))
  = Some inst
  /\ usable_text (Search.search_query (self (snd (Search.search_memories st))))
     = Some query.
Proof.
  intros Hi Hq.
  destruct (SearchMore.search_frame st) as [r [s [cache [a E]]]].
  rewrite E. simpl. destruct st as [c lg]. destruct c. simpl in *.
  now split.
Qed.

(** An output evaluated after [search_memories] is that output run from
    the state the search left. *)
Lemma after_search {A} (output : M Search.Component A) st :
  then_output Search.search_memories output st
  = output (snd (Search.search_memories st)).
Proof.
  destruct (SearchMore.search_frame st) as [r [s [cache [a E]]]].
  unfold then_output, Prog.bind. rewrite E. reflexivity.
Qed.

(** C10, as amended.  Every result-describing output runs
    [search_memories] again, from the state the previous output left.
    Whenever the run inside an output passes the two guards and its [try]
    block completes, that output agrees with that run on the number N of
    results: the status is ['Found N memories'], [get_result_count]
    returns the decimal rendering of N, and [get_formatted_results],
    whenever it returns for N > 0, returns a text that begins with
    ['Found N memories:']; it does return when every result is a
    dictionary whose [memory_type], if present, is a string and whose
    [similarity_score], if present and not [None], can be formatted as a
    number.  An output evaluated after a completed [search_memories]
    reports the N of its own run, which is the N of the first search
    when the engine answers the second search with as many records. *)
Theorem found_outputs_agree {host : Host} (st : Run Search.Component)
    inst query results :
  usable (Search.memory_instance (self st)) = Some inst ->
  usable_text (Search.search_query (self st)) = Some query ->
  fst (Search.search_attempt inst query st) = Return results ->
  let n := PyString.of_nat (List.length results) in
  let found := "Found " ++ n ++ " memories" in
  (fst (Search.search_memories st) = Return results
   /\ Search.status (self (snd (Search.search_memories st))) = found)
  /\ (fst (Search.get_result_count st) = Return (mkMessage (PyStr n))
      /\ Search.status (self (snd (Search.get_result_count st))) = found)
  /\ (results <> [] ->
      (forall m, fst (Search.get_formatted_results st) = Return m ->
         exists body, m = mkMessage (PyStr (found ++ ":" ++ body)))
      /\ (forallb printable results = true ->
          exists body,
            fst (Search.get_formatted_results st)
            = Return (mkMessage (PyStr (found ++ ":" ++ body)))))
  /\ (forall again,
        fst (Search.search_attempt inst query
               (snd (Search.search_memories st))) = Return again ->
        let n' := PyString.of_nat (List.length again) in
        let found' := "Found " ++ n' ++ " memories" in
        let count :=
          then_output Search.search_memories Search.get_result_count st in
        let formatted :=
          then_output Search.search_memories Search.get_formatted_results st in
        (fst count = Return (mkMessage (PyStr n'))
         /\ Search.status (self (snd count)) = found')
        /\ (again <> [] ->
            (forall m, fst formatted = Return m ->
               exists body, m = mkMessage (PyStr (found' ++ ":" ++ body)))
            /\ (forallb printable again = true ->
                exists body,
                  fst formatted
                  = Return (mkMessage (PyStr (found' ++ ":" ++ body)))))
        /\ (List.length again = List.length results ->
            fst count = Return (mkMessage (PyStr n)))).
Proof.
  intros Hi Hq Hr.
  destruct (outputs_of_one_run st inst query results Hi Hq Hr) as [A [B C]].
  split; [exact A|]. split; [exact B|]. split; [exact C|].
  intros again Ha. simpl.
  destruct (guards_passed_again st inst query Hi Hq) as [Hi1 Hq1].
  destruct (outputs_of_one_run (snd (Search.search_memories st)) inst query
              again Hi1 Hq1 Ha) as [_ [B1 C1]].
  rewrite !after_search.
  split; [exact B1|]. split; [exact C1|].
  intros L. rewrite <- L. exact (proj1 B1).
Qed.

Lemma found_outputs_agree_witness :
  let st := Demo.search (Some "tea") true true (Some Demo.engine) in
  (fst (Search.search_memories st)
   = Return [mkData (PyDict [("id", PyStr "m1"); ("content", PyStr "likes tea");
                             ("memory_type", PyStr "preference");
                             ("similarity_score", PyInt 1)])]
   /\ Search.status (self (snd (Search.search_memories st)))
      = "Found 1 memories")
  /\ (fst (Search.get_result_count st) = Return (mkMessage (PyStr "1"))
      /\ Search.status (self (snd (Search.get_result_count st)))
         = "Found 1 memories")
  /\ (exists body,
        fst (@Search.get_formatted_results Demo.host st)
        = Return (mkMessage (PyStr ("Found 1 memories" ++ ":" ++ body))))
  /\ fst (then_output Search.search_memories Search.get_result_count st)
     = Return (mkMessage (PyStr "1")).
Proof.
  destruct (@found_outputs_agree Demo.host
              (Demo.search (Some "tea") true true (Some Demo.engine))
              Demo.engine "tea"
              [mkData (PyDict [("id", PyStr "m1");
                               ("content", PyStr "likes tea");
                               ("memory_type", PyStr "preference");
                               ("similarity_score", PyInt 1)])]
              eq_refl eq_refl eq_refl) as [A [B [C D]]].
  split; [exact A|]. split; [exact B|].
  split; [refine (proj2 (C _) eq_refl); discriminate|].
  exact (proj1 (proj1 (D _ eq_refl))).
Defined.

(** C10, as stated, fails in three ways.  An invocation stopped by a guard
    returns without raising, with a status that is not ['Found 0
    memories'].  A search that completes with one record whose
    [memory_type] is [None] has the status ['Found 1 memories'] while
    [get_formatted_results] raises instead of returning a text.  And on
    an engine that answers one record to the first search and two to the
    next, [search_memories] returns one result and the result count
    evaluated after it is ["2"]. *)
Lemma outputs_agree_counterexample :
  ~ @outputs_agree_on_return Demo.host
      (Demo.search (Some "") true false (Some Demo.engine))
  /\ ~ @outputs_agree_on_return Demo.host
         (Demo.search (Some "tea") false false (Some Demo.untyped))
  /\ ~ count_agrees_in_sequence
         (Demo.search (Some "tea") false false (Some Demo.growing)).
Proof.
  split; [|split]; intros H.
  - destruct (H [] eq_refl) as [S _]. vm_compute in S. discriminate S.
  - destruct (H [mkData (PyDict [("content", PyStr "likes tea");
                                 ("memory_type", PyNone)])] eq_refl)
      as [_ [_ F]].
    destruct F as [body F]; [discriminate|]. vm_compute in F. discriminate F.
  - specialize (H [mkData Demo.tea] eq_refl). vm_compute in H. discriminate H.
Qed.

Example growing_engine_run :
  fst (Search.search_memories
         (Demo.search (Some "tea") false false (Some Demo.growing)))
  = Return [mkData Demo.tea]
  /\ Search.status
       (self (snd (Search.search_memories
                     (Demo.search (Some "tea") false false (Some Demo.growing)))))
     = "Found 1 memories"
  /\ fst (then_output Search.search_memories Search.get_result_count
            (Demo.search (Some "tea") false false (Some Demo.growing)))
     = Return (mkMessage (PyStr "2")).
Proof. repeat split. Qed.

Example untyped_record_run :
  Search.status
    (self (snd (Search.search_memories
                  (Demo.search (Some "tea") false false (Some Demo.untyped)))))
  = "Found 1 memories"
  /\ fst (@Search.get_formatted_results Demo.host
            (Demo.search (Some "tea") false false (Some Demo.untyped)))
     = Raise "'NoneType' object has no attribute 'upper'".
Proof. split; reflexivity. Qed.

(** * Further properties of the components *)

(** ** Parsing what was joined *)

Lemma split_free sep p :
  PyString.contains_char sep p = false -> PyString.split sep p = [p].
Proof.
  induction p as [|c p IH]; simpl; [reflexivity|]. intros H.
  apply orb_false_iff in H. destruct H as [E F].
  rewrite E, (IH F). reflexivity.
Qed.

Lemma split_free_then sep p s :
  PyString.contains_char sep p = false ->
  PyString.split sep (p ++ String sep s) = p :: PyString.split sep s.
Proof.
  induction p as [|c p IH]; simpl; intros H.
  - now rewrite Ascii.eqb_refl.
  - apply orb_false_iff in H. destruct H as [E F].
    rewrite E, (IH F). reflexivity.
Qed.

Lemma split_join sep l :
  l <> [] ->
  forallb (fun p => negb (PyString.contains_char sep p)) l = true ->
  PyString.split sep (PyString.join sep l) = l.
Proof.
  induction l as [|p l IH]; [contradiction|]. intros _ H.
  simpl in H. apply andb_true_iff in H. destruct H as [P L].
  apply negb_true_iff in P.
  destruct l as [|q l'].
  - simpl. now apply split_free.
  - change (PyString.join sep (p :: q :: l'))
      with (p ++ String sep (PyString.join sep (q :: l'))).
    rewrite split_free_then by exact P.
    rewrite IH; [reflexivity|discriminate|exact L].
Qed.

Lemma clean_tag_parts t :
  clean_tag t = true ->
  PyString.nonempty t = true
  /\ PyString.strip t = t
  /\ PyString.contains_char "," t = false.
Proof.
  unfold clean_tag. intros H.
  apply andb_true_iff in H. destruct H as [H C].
  apply andb_true_iff in H. destruct H as [N S].
  apply negb_true_iff in C, S.
  repeat split; try assumption.
  now apply PyStringFacts.strip_idempotent_on_clean.
Qed.

Lemma clean_tags_kept l :
  forallb clean_tag l = true ->
  flat_map
    (fun t => if PyString.nonempty (PyString.strip t)
              then [PyString.strip t] else []) l = l.
Proof.
  induction l as [|x xs IH]; [reflexivity|]. intros H.
  simpl in H. apply andb_true_iff in H. destruct H as [X XS].
  destruct (clean_tag_parts x X) as [Nx [Sx _]].
  simpl. rewrite Sx, Nx. simpl. now rewrite (IH XS).
Qed.

Lemma clean_tags_free l :
  forallb clean_tag l = true ->
  forallb (fun p => negb (PyString.contains_char "," p)) l = true.
Proof.
  induction l as [|x xs IH]; [reflexivity|]. intros H.
  simpl in H. apply andb_true_iff in H. destruct H as [X XS].
  destruct (clean_tag_parts x X) as [_ [_ Cx]].
  simpl. rewrite Cx. simpl. now apply IH.
Qed.

(** X1.  Parsing is a left inverse of joining with commas: a list of tags
    that are not empty, have no whitespace at either end and contain no
    comma is what parsing their comma-joined text gives back, in the same
    order and with its repetitions. *)
Theorem parse_join_roundtrip (l : list string) :
  forallb clean_tag l = true ->
  parse_comma_list (Some (PyString.join "," l)) = l.
Proof.
  intros H. destruct l as [|t l]; [reflexivity|].
  assert (N : PyString.nonempty (PyString.join "," (t :: l)) = true).
  { pose proof H as H'. simpl in H'.
    apply andb_true_iff in H'. destruct H' as [T _].
    destruct (clean_tag_parts t T) as [Nt _].
    destruct t; [discriminate|]. destruct l; reflexivity. }
  unfold parse_comma_list. rewrite N. unfold comma_pieces.
  rewrite split_join;
    [now apply clean_tags_kept|discriminate|now apply clean_tags_free].
Qed.

Lemma parse_join_roundtrip_witness :
  parse_comma_list (Some (PyString.join "," ["drinks"; "green tea"; "drinks"]))
  = ["drinks"; "green tea"; "drinks"].
Proof.
  exact (parse_join_roundtrip ["drinks"; "green tea"; "drinks"] eq_refl).
Defined.

(** ** The search component, further *)

(** X3.  The [tags] and [user_id] inputs of the search component are
    never used: with any other tags and any other user, [search_memories]
    returns the same result, performs the same operations on the external
    object, and leaves the same status, cached results and analytics. *)
Theorem search_ignores_tags_and_user (c : Search.Component) (lg : Log)
    (tags : option string) (user_id : string) :
  search_view (Search.search_memories (mkRun (with_tags_and_user tags user_id c) lg))
  = search_view (Search.search_memories (mkRun c lg)).
Proof.
  unfold search_view, with_tags_and_user. destruct c. simpl.
  SearchFacts.open_search.
  destruct (usable memory_instance) as [inst|]; simpl; [|reflexivity].
  destruct (usable_text search_query) as [query|]; simpl; [|reflexivity].
  destruct semantic_search; simpl;
    [destruct (inst_has inst "search_memories_semantic"); simpl|].
  all: repeat (first [ rewrite !SearchMore.loop_plain_eq
                     | rewrite !SearchMore.loop_scored_eq
                     | SearchMore.case_step' ]; simpl).
  all: destruct include_analytics; simpl;
    try (destruct (inst_has inst "get_memory_analytics"); simpl).
  all: repeat (SearchMore.case_step'; simpl).
  all: reflexivity.
Qed.

Lemma dict_get_set_same k v d : Py.dict_get k (Py.dict_set k v d) = Some v.
Proof.
  induction d as [|[k' v'] d IH]; simpl.
  - now rewrite String.eqb_refl.
  - destruct (String.eqb k k') eqn:E; simpl; rewrite ?String.eqb_refl, ?E; auto.
Qed.

Lemma dict_get_set_other k k' v d :
  k' <> k -> Py.dict_get k' (Py.dict_set k v d) = Py.dict_get k' d.
Proof.
  intros N. induction d as [|[k0 v0] d IH]; simpl.
  - destruct (String.eqb k' k) eqn:E; [apply String.eqb_eq in E; contradiction|].
    reflexivity.
  - destruct (String.eqb k k0) eqn:E; simpl.
    + apply String.eqb_eq in E. subst k0.
      destruct (String.eqb k' k) eqn:E'; [apply String.eqb_eq in E'; contradiction|].
      reflexivity.
    + destruct (String.eqb k' k0); auto.
Qed.

Lemma scored_prefix_complete items :
  snd (scored_prefix items) = None ->
  Forall2 scored_from items (fst (scored_prefix items)).
Proof.
  induction items as [|x xs IH]; simpl; [constructor|].
  unfold scored_data.
  destruct (Py.unpack2 x) as [[m s]|e] eqn:U; simpl; [|discriminate].
  destruct (as_memory_data m) as [md|e] eqn:A; simpl; [|discriminate].
  destruct (Py.setitem md "similarity_score" s) as [sc|e] eqn:S; simpl;
    [|discriminate].
  destruct (scored_prefix xs) as [ds stop]. simpl in *. intros H.
  constructor; [|now apply IH].
  destruct md; simpl in S; try discriminate S.
  inversion S; subst sc. exists m, s, kvs. auto.
Qed.

(** X4.  In the keyword branch the component passes on what the engine
    answered: when the [try] block completes, the results are one
    envelope per record of the answer, in the engine's order, each
    holding the record itself or, for an object with [to_dict], what
    [to_dict] returns.  Nothing is filtered, and the [limit] input is not
    enforced by the component. *)
Theorem keyword_results_follow_engine (st : Run Search.Component)
    inst query answer items results :
  usable (Search.memory_instance (self st)) = Some inst ->
  usable_text (Search.search_query (self st)) = Some query ->
  wants_semantic (self st) inst = false ->
  inst_respond inst (log_at_dispatch st inst)
    (dispatch_call (self st) inst query) = Return answer ->
  Py.iter answer = Return items ->
  fst (Search.search_attempt inst query st) = Return results ->
  results = map (fun m => mkData (memory_data_of m)) items
  /\ fst (Search.search_memories st) = Return results
  /\ List.length results = List.length items.
Proof.
  intros Hi Hq Hw Ha Ht Hr.
  rewrite (SearchFacts.search_passed st inst query Hi Hq). unfold Prog.try.
  assert (E : results = map (fun m => mkData (memory_data_of m)) items).
  { destruct st as [c lg]. unfold log_at_dispatch, dispatch_call in Ha.
    simpl in *. rewrite Hw in Ha. unfold wants_semantic in Hw.
    SearchFacts.open_search.
    destruct (Search.semantic_search c); simpl in *;
      [rewrite Hw in *; simpl in *|].
    all: rewrite Ha in *; simpl in *; rewrite Ht in *; simpl in *.
    all: rewrite SearchMore.loop_plain_eq in *; simpl in *.
    all: destruct (Search.include_analytics c); simpl in *;
      try (destruct (inst_has inst "get_memory_analytics"); simpl in * ).
    all: repeat (SearchFacts.case_step; simpl in * ).
    all: try discriminate Hr.
    all: inversion Hr; reflexivity. }
  destruct (Search.search_attempt inst query st) as [[r|e] st'];
    simpl in Hr |- *; [|discriminate Hr].
  inversion Hr; subst r. split; [exact E|]. split; [reflexivity|].
  rewrite E. apply length_map.
Qed.

Lemma keyword_results_follow_engine_witness :
  let st := Sample.search_one false (Some Sample.generous) in
  [mkData Demo.tea; mkData Sample.coffee]
  = map (fun m => mkData (memory_data_of m)) [Demo.tea; Sample.coffee]
  /\ fst (Search.search_memories st) = Return [mkData Demo.tea; mkData Sample.coffee]
  /\ List.length [mkData Demo.tea; mkData Sample.coffee]
     = List.length [Demo.tea; Sample.coffee].
Proof.
  exact (keyword_results_follow_engine
           (Sample.search_one false (Some Sample.generous))
           Sample.generous "tea" (PyList [Demo.tea; Sample.coffee])
           [Demo.tea; Sample.coffee]
           [mkData Demo.tea; mkData Sample.coffee]
           eq_refl eq_refl eq_refl eq_refl eq_refl eq_refl).
Defined.

(** X5.  In the semantic branch, when the [try] block completes, there is
    one result per item of the engine's answer, in the engine's order:
    each item is a pair of a record and a score, and the result is that
    record as a dictionary with the score stored under
    [similarity_score], so that looking the key up gives the score. *)
Theorem semantic_results_carry_scores (st : Run Search.Component)
    inst query answer items results :
  usable (Search.memory_instance (self st)) = Some inst ->
  usable_text (Search.search_query (self st)) = Some query ->
  wants_semantic (self st) inst = true ->
  inst_respond inst (log_at_dispatch st inst)
    (dispatch_call (self st) inst query) = Return answer ->
  Py.iter answer = Return items ->
  fst (Search.search_attempt inst query st) = Return results ->
  Forall2 scored_from items results
  /\ Forall2
       (fun item d =>
          exists memory similarity,
            Py.unpack2 item = Return (memory, similarity)
            /\ Py.get (data d) "similarity_score" PyNone = Return similarity)
       items results.
Proof.
  intros Hi Hq Hw Ha Ht Hr.
  assert (E : Forall2 scored_from items results).
  { destruct st as [c lg]. unfold log_at_dispatch, dispatch_call in Ha.
    simpl in *. rewrite Hw in Ha. unfold wants_semantic in Hw.
    apply andb_true_iff in Hw. destruct Hw as [Hs Hh].
    SearchFacts.open_search. rewrite Hs in *. simpl in *.
    rewrite Hh in *. simpl in *.
    rewrite Ha in *; simpl in *; rewrite Ht in *; simpl in *.
    rewrite SearchMore.loop_scored_eq in *; simpl in *.
    pose proof (scored_prefix_complete items) as P.
    destruct (scored_prefix items) as [ds [stop|]]; simpl in *;
      [discriminate Hr|].
    destruct (Search.include_analytics c); simpl in *;
      try (destruct (inst_has inst "get_memory_analytics"); simpl in * ).
    all: repeat (SearchFacts.case_step; simpl in * ).
    all: try discriminate Hr.
    all: inversion Hr; subst; now apply P. }
  split; [exact E|].
  clear - E. induction E as [|item d items results H _ IH]; constructor; auto.
  destruct H as [m [s [kvs [U [_ D]]]]]. exists m, s. split; [exact U|].
  rewrite D. simpl. now rewrite dict_get_set_same.
Qed.

Lemma semantic_results_carry_scores_witness :
  exists results,
    fst (Search.search_memories (Sample.search_one true (Some Sample.generous)))
    = Return results
    /\ Forall2
         (fun item d =>
            exists memory similarity,
              Py.unpack2 item = Return (memory, similarity)
              /\ Py.get (data d) "similarity_score" PyNone = Return similarity)
         [PyTuple [Demo.tea; PyInt 1]; PyTuple [Sample.coffee; PyInt 0]]
         results.
Proof.
  eexists. split; [reflexivity|].
  exact (proj2 (semantic_results_carry_scores
           (Sample.search_one true (Some Sample.generous))
           Sample.generous "tea"
           (PyList [PyTuple [Demo.tea; PyInt 1]; PyTuple [Sample.coffee; PyInt 0]])
           [PyTuple [Demo.tea; PyInt 1]; PyTuple [Sample.coffee; PyInt 0]]
           _ eq_refl eq_refl eq_refl eq_refl eq_refl eq_refl)).
Defined.

(** X6.  An invocation stopped by a guard leaves the cached results and
    analytics as they were, so the other outputs report the cache:
    [get_result_count] returns the length of the cached list,
    [get_memory_analytics] the cached analytics, and
    [get_formatted_results] the no-memories message when the cache is
    empty.  On a component fresh from its constructor these are ["0"],
    the empty dictionary and the no-memories message. *)
Theorem guarded_outputs_report_cache {host : Host} (st : Run Search.Component) :
  usable (Search.memory_instance (self st)) = None
  \/ usable_text (Search.search_query (self st)) = None ->
  fst (Search.get_result_count st)
  = Return (mkMessage (PyStr (PyString.of_nat
                                (List.length (Search._search_results (self st))))))
  /\ fst (Search.get_memory_analytics st)
     = Return (mkData (Search._analytics (self st)))
  /\ (Search._search_results (self st) = [] ->
      fst (Search.get_formatted_results st)
      = Return (mkMessage (PyStr "No memories found for the given query."))).
Proof.
  intros H.
  unfold Search.get_result_count, Search.get_memory_analytics,
    Search.get_formatted_results, Prog.bind, Prog.get_self, Prog.ret.
  rewrite (SearchFacts.search_guarded st H).
  destruct st as [c lg]. destruct c. simpl.
  repeat split. intros ->. reflexivity.
Qed.

Lemma guarded_outputs_report_cache_witness :
  let st := Sample.search_one true None in
  fst (Search.get_result_count st) = Return (mkMessage (PyStr "0"))
  /\ fst (Search.get_memory_analytics st) = Return (mkData (PyDict []))
  /\ fst (@Search.get_formatted_results Demo.host st)
     = Return (mkMessage (PyStr "No memories found for the given query.")).
Proof.
  destruct (@guarded_outputs_report_cache Demo.host
              (Sample.search_one true None) (or_introl eq_refl))
    as [count [analytics formatted]].
  split; [exact count|]. split; [exact analytics|exact (formatted eq_refl)].
Defined.

(** X7.  Analytics are fetched only on request from an instance that
    offers them: when [include_analytics] is false, or the memory
    instance has no [get_memory_analytics], a run of [search_memories]
    never calls [get_memory_analytics] and leaves the cached analytics as
    they were. *)
Theorem analytics_only_on_request (st : Run Search.Component) :
  Search.include_analytics (self st) = false
  \/ (exists inst,
        Search.memory_instance (self st) = Some inst
        /\ inst_has inst "get_memory_analytics" = false) ->
  ~ In GetMemoryAnalytics (method_calls (new_events Search.search_memories st))
  /\ Search._analytics (self (snd (Search.search_memories st)))
     = Search._analytics (self st).
Proof.
  destruct st as [c lg]. simpl. intros H.
  assert (G : forall inst, usable (Search.memory_instance c) = Some inst ->
              Search.include_analytics c
              && inst_has inst "get_memory_analytics" = false).
  { intros inst U. destruct H as [->|[i [E F]]]; [reflexivity|].
    rewrite E in U. simpl in U. destruct (inst_truthy i); [|discriminate U].
    inversion U; subst. rewrite F. apply andb_false_r. }
  clear H. SearchFacts.open_search.
  destruct (usable (Search.memory_instance c)) as [inst|] eqn:U; simpl.
  2: { settle_log. split; [intros []|now destruct c]. }
  specialize (G inst eq_refl).
  destruct (usable_text (Search.search_query c)) as [query|]; simpl.
  2: { settle_log. split; [intros []|now destruct c]. }
  SearchMore.search_paths' c inst.
  all: try discriminate G.
  all: settle_log; split; [|now destruct c].
  all: simpl; intuition discriminate.
Qed.

Lemma analytics_only_on_request_witness :
  let st := Demo.search (Some "tea") true false (Some Demo.engine) in
  ~ In GetMemoryAnalytics (method_calls (new_events Search.search_memories st))
  /\ Search._analytics (self (snd (Search.search_memories st))) = PyDict [].
Proof.
  exact (analytics_only_on_request
           (Demo.search (Some "tea") true false (Some Demo.engine))
           (or_introl eq_refl)).
Defined.

(** ** Evaluating one output after another *)

Lemma method_calls_app l1 l2 :
  method_calls (l1 ++ l2)%list = (method_calls l1 ++ method_calls l2)%list.
Proof. unfold method_calls. apply flat_map_app. Qed.

Lemma factory_calls_app l1 l2 :
  factory_calls (l1 ++ l2)%list = (factory_calls l1 ++ factory_calls l2)%list.
Proof. unfold factory_calls. apply filter_app. Qed.

(** The events of two outputs evaluated in a row are those of the first,
    followed by those of the second run from the state the first left. *)
Lemma new_events_seq {C A B} (first : M C A) (second : M C B) st a st1 :
  first st = (Return a, st1) ->
  log st1 = (log st ++ new_events first st)%list ->
  log (snd (second st1)) = (log st1 ++ new_events second st1)%list ->
  new_events (then_output first second) st
  = (new_events first st ++ new_events second st1)%list.
Proof.
  intros F L1 L2. unfold then_output, new_events at 1, Prog.bind.
  rewrite F. rewrite L2, L1, <- app_assoc. apply events_after_app.
Qed.

(** ** The store component, further *)

Module StoreMore.
Import Store StoreFacts.

(** What an output method adds to [store_memory] leaves the state alone. *)
Lemma store_output_state {host : Host} {A} (k : Component -> A) st :
  exists a,
    Prog.bind store_memory (fun _ => Prog.bind Prog.get_self
                                       (fun c => Prog.ret (k c))) st
    = (Return a, snd (store_memory st)).
Proof.
  destruct (store_frame st) as [d [stored [id [status E]]]].
  unfold Prog.bind, Prog.get_self, Prog.ret. rewrite E. simpl. eauto.
Qed.

Lemma store_log_grows {host : Host} st :
  log (snd (store_memory st)) = (log st ++ new_events store_memory st)%list.
Proof.
  destruct (store_frame st) as [d [stored [id [status E]]]].
  rewrite E at 1. reflexivity.
Qed.

(** The inputs that decide the dispatch are the same after a run. *)
Lemma store_inputs_kept {host : Host} st :
  let c := self st in
  let c' := self (snd (store_memory st)) in
  memory_instance c' = memory_instance c
  /\ content c' = content c
  /\ forall inst text,
       store_dispatch_calls c' inst text = store_dispatch_calls c inst text.
Proof.
  destruct (store_frame st) as [d [stored [id [status E]]]].
  simpl. rewrite E. simpl. destruct st as [c lg]. destruct c. simpl.
  repeat split.
Qed.

End StoreMore.

(** X8.  Every output method of the store component runs [store_memory]
    again: evaluating the memory-id output and then the storage-status
    output on the same component makes the dispatch call twice, so an
    instance with [add_memory] is asked to add the same content two
    times. *)
Theorem store_outputs_store_again {host : Host} (st : Run Store.Component)
    inst text :
  usable (Store.memory_instance (self st)) = Some inst ->
  usable_text (Store.content (self st)) = Some text ->
  method_calls
    (new_events (then_output Store.get_memory_id Store.get_storage_status) st)
  = (store_dispatch_calls (self st) inst text
     ++ store_dispatch_calls (self st) inst text)%list.
Proof.
  intros Hi Hq.
  destruct (StoreMore.store_output_state
              (fun c => mkMessage
                          (if Py.truthy (Store._memory_id c)
                           then Store._memory_id c
                           else PyStr "No memory ID available")) st)
    as [m E].
  fold Store.get_memory_id in E.
  assert (K : forall (k : Store.Component -> Message) s,
             new_events
               (Prog.bind Store.store_memory
                  (fun _ => Prog.bind Prog.get_self (fun c => Prog.ret (k c)))) s
             = new_events Store.store_memory s).
  { intros k s. apply new_events_then. intros a [c lg]. reflexivity. }
  destruct (StoreMore.store_inputs_kept st) as [Ki [Kc Kd]]. simpl in *.
  rewrite (new_events_seq _ _ st m _ E).
  - unfold Store.get_memory_id, Store.get_storage_status. rewrite !K.
    rewrite method_calls_app.
    rewrite (StoreFacts.store_calls st inst text Hi Hq).
    rewrite (StoreFacts.store_calls (snd (Store.store_memory st)) inst text);
      [now rewrite Kd|now rewrite Ki|now rewrite Kc].
  - unfold Store.get_memory_id. rewrite K. apply StoreMore.store_log_grows.
  - unfold Store.get_storage_status. rewrite K.
    destruct (StoreMore.store_output_state
                (fun c => mkMessage (PyStr (Store._storage_status c)))
                (snd (Store.store_memory st))) as [m' E'].
    fold Store.get_storage_status in E'.
    unfold Store.get_storage_status in *. rewrite E'. simpl.
    apply StoreMore.store_log_grows.
Qed.

Lemma store_outputs_store_again_witness :
  method_calls
    (new_events
       (then_output (@Store.get_memory_id Demo.host)
          (@Store.get_storage_status Demo.host))
       (Demo.store (Some "likes tea") (Some Demo.engine)))
  = [AddMemory "likes tea" "general" PyNone ["drinks"; "habits"];
     AddMemory "likes tea" "general" PyNone ["drinks"; "habits"]].
Proof.
  exact (@store_outputs_store_again Demo.host
           (Demo.store (Some "likes tea") (Some Demo.engine))
           Demo.engine "likes tea" eq_refl eq_refl).
Defined.

(** X10.  The [generate_embedding] input of the store component is never
    used: with the flag set either way, [store_memory] returns the same
    envelope, performs the same operations on the external object and
    leaves the same stored memory, memory id and storage status. *)
Theorem store_ignores_generate_embedding {host : Host}
    (c : Store.Component) (lg : Log) (flag : bool) :
  store_view (Store.store_memory (mkRun (with_generate_embedding flag c) lg))
  = store_view (Store.store_memory (mkRun c lg)).
Proof.
  unfold store_view, with_generate_embedding. destruct c. simpl.
  StoreFacts.open_store.
  destruct (usable memory_instance) as [inst|]; simpl; [|reflexivity].
  destruct (usable_text content) as [text|]; simpl; [|reflexivity].
  StoreFacts.store_paths inst.
  all: reflexivity.
Qed.

(** X11.  Every run of [store_memory] assigns the storage status, so that
    the constructor's ["Not attempted"] is never what
    [get_storage_status] reports: the status is one of the three guard
    and dispatch errors, ['Memory stored but ID not available'],
    ['Error storing memory: '] followed by an exception text, or
    ['Successfully stored memory with ID: '] followed by an id. *)
Theorem storage_status_always_assigned {host : Host}
    (st : Run Store.Component) :
  let status := Store._storage_status (self (snd (Store.store_memory st))) in
  (In status
     ["Error: No memory instance provided"; "Error: No content provided";
      "Error: Memory instance does not support memory storage";
      "Memory stored but ID not available"]
   \/ (exists e, status = "Error storing memory: " ++ e)
   \/ (exists id, status = "Successfully stored memory with ID: " ++ id))
  /\ status <> "Not attempted"
  /\ fst (Store.get_storage_status st) = Return (mkMessage (PyStr status)).
Proof.
  simpl.
  assert (G : fst (Store.get_storage_status st)
              = Return (mkMessage (PyStr (Store._storage_status
                                            (self (snd (Store.store_memory st))))))).
  { destruct (StoreFacts.store_frame st) as [d [stored [id [status E]]]].
    unfold Store.get_storage_status, Prog.bind, Prog.get_self, Prog.ret.
    rewrite E. reflexivity. }
  assert (K : In (Store._storage_status (self (snd (Store.store_memory st))))
                ["Error: No memory instance provided";
                 "Error: No content provided";
                 "Error: Memory instance does not support memory storage";
                 "Memory stored but ID not available"]
              \/ (exists e, Store._storage_status
                              (self (snd (Store.store_memory st)))
                            = "Error storing memory: " ++ e)
              \/ (exists id, Store._storage_status
                               (self (snd (Store.store_memory st)))
                             = "Successfully stored memory with ID: " ++ id)).
  { clear G. destruct st as [c lg]. StoreFacts.open_store.
    destruct (usable (Store.memory_instance c)) as [inst|]; simpl;
      [|left; simpl; auto].
    destruct (usable_text (Store.content c)) as [text|]; simpl;
      [|left; simpl; auto].
    StoreFacts.store_paths inst.
    all: repeat match goal with
         | |- context [if ?b then _ else _] => destruct b
         | |- context [PyString.nonempty ?s] => destruct (PyString.nonempty s)
         end.
    all: try (right; left; eexists; reflexivity).
    all: try (left; simpl; tauto).
    all: right; right; eexists; reflexivity. }
  split; [exact K|]. split; [|exact G]. clear G.
  set (s := Store._storage_status (self (snd (Store.store_memory st)))) in *.
  clearbody s.
  destruct K as [K|[[e ->]|[id ->]]]; [|discriminate|discriminate].
  simpl in K. destruct K as [<-|[<-|[<-|[<-|[]]]]]; discriminate.
Qed.

Lemma with_id_dicts {host : Host} items memory_id :
  forallb is_dict items = true ->
  Store.with_id items memory_id = Return (filter (has_id memory_id) items).
Proof.
  induction items as [|m ms IH]; simpl; [reflexivity|]. intros H.
  apply andb_true_iff in H. destruct H as [D R].
  destruct m; try discriminate D. simpl. rewrite (IH R). reflexivity.
Qed.

Ltac flatten_logs :=
  repeat rewrite <- app_assoc in *; simpl in *.

(** X12.  On an instance that has [add_memory] and no [memory_store], a
    run whose [add_memory] call returns keeps the returned value as the
    memory id, reports success with that id (or that no id is available
    when the value is false in a condition), and returns the stored
    memory cached before the run, if there is one, and otherwise an
    envelope of the inputs: content, memory type, user, session, parsed
    tags, metadata and relevance score. *)
Theorem add_memory_without_store {host : Host} (st : Run Store.Component)
    inst text new_id :
  usable (Store.memory_instance (self st)) = Some inst ->
  usable_text (Store.content (self st)) = Some text ->
  inst_has inst "add_memory" = true ->
  inst_has inst "memory_store" = false ->
  inst_respond inst
    (log st ++ [On (inst_id inst) (Hasattr "add_memory")])%list
    (AddMemory text (Store.memory_type (self st))
       (Py.of_dict (Store.metadata (self st)))
       (parse_comma_list (Store.tags (self st)))) = Return new_id ->
  let after := self (snd (Store.store_memory st)) in
  Store._memory_id after = new_id
  /\ Store._storage_status after = stored_status new_id
  /\ Store._stored_memory after = Store._stored_memory (self st)
  /\ fst (Store.store_memory st) = Return (cached_or_inputs (self st) text).
Proof.
  destruct st as [c lg]. simpl. intros Hi Hq Ha Hm Hr.
  unfold stored_status, cached_or_inputs, input_envelope.
  StoreFacts.open_store. rewrite Hi, Hq. simpl. rewrite Ha. simpl.
  rewrite Hr. simpl. rewrite Hm. simpl. destruct c. simpl.
  repeat split.
Qed.

Lemma add_memory_without_store_witness :
  let st := Demo.store (Some "likes tea") (Some Sample.adder) in
  let after := self (snd (@Store.store_memory Demo.host st)) in
  Store._memory_id after = PyStr "m7"
  /\ Store._storage_status after = "Successfully stored memory with ID: m7"
  /\ Store._stored_memory after = None
  /\ fst (@Store.store_memory Demo.host st)
     = Return (mkData (PyDict
         [("content", PyStr "likes tea"); ("memory_type", PyStr "general");
          ("user_id", PyStr "anonymous");
          ("session_id", PyStr "default_session");
          ("tags", PyList [PyStr "drinks"; PyStr "habits"]);
          ("metadata", PyNone); ("relevance_score", PyInt 1)])).
Proof.
  exact (@add_memory_without_store Demo.host
           (Demo.store (Some "likes tea") (Some Sample.adder))
           Sample.adder "likes tea" (PyStr "m7")
           eq_refl eq_refl eq_refl eq_refl eq_refl).
Defined.

(** X13.  On an instance that has [add_memory] and [memory_store], when
    the call returns an id and [memory_store.memories] is a sequence of
    dictionaries, the run returns the first of them whose [id] equals the
    new id and caches it as the stored memory; when none has that id it
    returns what was cached before or the envelope of the inputs. *)
Theorem add_memory_returns_stored {host : Host} (st : Run Store.Component)
    inst text new_id store memories items :
  usable (Store.memory_instance (self st)) = Some inst ->
  usable_text (Store.content (self st)) = Some text ->
  inst_has inst "add_memory" = true ->
  inst_has inst "memory_store" = true ->
  let added :=
    AddMemory text (Store.memory_type (self st))
      (Py.of_dict (Store.metadata (self st)))
      (parse_comma_list (Store.tags (self st))) in
  inst_respond inst
    (log st ++ [On (inst_id inst) (Hasattr "add_memory")])%list added
  = Return new_id ->
  inst_respond inst
    (log st ++ [On (inst_id inst) (Hasattr "add_memory");
                On (inst_id inst) added;
                On (inst_id inst) (Hasattr "memory_store")])%list
    (GetAttr "memory_store") = Return store ->
  Py.getattr store "memories" = Return memories ->
  Py.iter memories = Return items ->
  forallb is_dict items = true ->
  let after := self (snd (Store.store_memory st)) in
  Store._memory_id after = new_id
  /\ Store._storage_status after = stored_status new_id
  /\ match filter (has_id new_id) items with
     | found :: _ =>
         fst (Store.store_memory st) = Return (mkData found)
         /\ Store._stored_memory after = Some (mkData found)
     | [] =>
         fst (Store.store_memory st) = Return (cached_or_inputs (self st) text)
         /\ Store._stored_memory after = Store._stored_memory (self st)
     end.
Proof.
  destruct st as [c lg]. simpl. intros Hi Hq Ha Hm Hr Hs Hg Ht Hd.
  unfold stored_status, cached_or_inputs, input_envelope.
  StoreFacts.open_store. rewrite Hi, Hq. simpl. rewrite Ha. simpl.
  rewrite Hr. simpl. rewrite Hm. simpl.
  flatten_logs. rewrite Hs. simpl. rewrite Hg. simpl. rewrite Ht. simpl.
  rewrite (with_id_dicts items new_id Hd). simpl.
  destruct (filter (has_id new_id) items); destruct c; simpl; repeat split.
Qed.

Lemma add_memory_returns_stored_witness :
  let st := Demo.store (Some "likes tea") (Some Demo.engine) in
  let after := self (snd (@Store.store_memory Demo.host st)) in
  Store._memory_id after = PyStr "m1"
  /\ Store._storage_status after = "Successfully stored memory with ID: m1"
  /\ fst (@Store.store_memory Demo.host st) = Return (mkData Demo.tea)
  /\ Store._stored_memory after = Some (mkData Demo.tea).
Proof.
  exact (@add_memory_returns_stored Demo.host
           (Demo.store (Some "likes tea") (Some Demo.engine))
           Demo.engine "likes tea" (PyStr "m1")
           (PyObj [("memories", PyList [Demo.tea])]) (PyList [Demo.tea])
           [Demo.tea]
           eq_refl eq_refl eq_refl eq_refl eq_refl eq_refl eq_refl eq_refl
           eq_refl).
Defined.

(** X14.  On an instance without [add_memory] whose [store_memory] call
    returns a value [r]: when [r] is false in a condition nothing is
    cached, and the run still reports by the memory id cached before and
    returns the cached memory or the envelope of the inputs; when [r] is
    true and has no [to_dict], the stored memory is [{"id": str(r)}] and
    the id [str(r)]; when [r] has [to_dict] and [id], the stored memory
    is what [to_dict] returns and the id is [str(r.id)]; when [r] has
    [to_dict] and no [id], the run ends in the error status with the
    empty envelope although the stored memory has already been cached. *)
Theorem store_memory_result_shapes {host : Host} (st : Run Store.Component)
    inst text r :
  usable (Store.memory_instance (self st)) = Some inst ->
  usable_text (Store.content (self st)) = Some text ->
  inst_has inst "add_memory" = false ->
  inst_has inst "store_memory" = true ->
  inst_respond inst
    (log st ++ [On (inst_id inst) (Hasattr "add_memory");
                On (inst_id inst) (Hasattr "store_memory")])%list
    (StoreMemory (Store.user_id (self st)) text (Store.memory_type (self st))
       (Store.session_id (self st)) (Py.of_dict (Store.metadata (self st)))
       (parse_comma_list (Store.tags (self st)))
       (Store.relevance_score (self st))) = Return r ->
  let before := self st in
  let after := self (snd (Store.store_memory st)) in
  let result := fst (Store.store_memory st) in
  (Py.truthy r = false ->
   result = Return (cached_or_inputs before text)
   /\ Store._stored_memory after = Store._stored_memory before
   /\ Store._memory_id after = Store._memory_id before
   /\ Store._storage_status after = stored_status (Store._memory_id before))
  /\ (Py.truthy r = true -> Py.hasattr r "to_dict" = false ->
      let d := mkData (PyDict [("id", PyStr (py_str r))]) in
      result = Return d
      /\ Store._stored_memory after = Some d
      /\ Store._memory_id after = PyStr (py_str r)
      /\ Store._storage_status after = stored_status (PyStr (py_str r)))
  /\ (forall as_dict obj_id,
        Py.truthy r = true ->
        Py.getattr r "to_dict" = Return as_dict ->
        Py.getattr r "id" = Return obj_id ->
        result = Return (mkData as_dict)
        /\ Store._stored_memory after = Some (mkData as_dict)
        /\ Store._memory_id after = PyStr (py_str obj_id)
        /\ Store._storage_status after = stored_status (PyStr (py_str obj_id)))
  /\ (forall as_dict e,
        Py.truthy r = true ->
        Py.getattr r "to_dict" = Return as_dict ->
        Py.getattr r "id" = Raise e ->
        result = Return empty_data
        /\ Store._stored_memory after = Some (mkData as_dict)
        /\ Store._memory_id after = Store._memory_id before
        /\ Store._storage_status after = "Error storing memory: " ++ e).
Proof.
  destruct st as [c lg]. simpl. intros Hi Hq Ha Hs Hr.
  unfold stored_status, cached_or_inputs, input_envelope.
  StoreFacts.open_store. rewrite Hi, Hq. simpl. rewrite Ha. simpl.
  rewrite Hs. simpl. flatten_logs. rewrite Hr. simpl.
  split; [|split; [|split]].
  - intros T. rewrite T. simpl. destruct c. simpl. repeat split.
  - intros T D. rewrite T, D. simpl. destruct c. simpl. repeat split.
  - intros as_dict obj_id T D I. rewrite T. unfold Py.hasattr.
    rewrite D. simpl. rewrite I. simpl. destruct c. simpl. repeat split.
  - intros as_dict e T D I. rewrite T. unfold Py.hasattr.
    rewrite D. simpl. rewrite I. simpl. destruct c. simpl. repeat split.
Qed.

Lemma store_memory_result_shapes_witness :
  let st := Demo.store (Some "likes tea") (Some Demo.database) in
  let after := self (snd (@Store.store_memory Demo.host st)) in
  fst (@Store.store_memory Demo.host st)
  = Return (mkData (PyDict [("id", PyStr "m2")]))
  /\ Store._stored_memory after = Some (mkData (PyDict [("id", PyStr "m2")]))
  /\ Store._memory_id after = PyStr "m2"
  /\ Store._storage_status after = "Successfully stored memory with ID: m2".
Proof.
  exact (proj1 (proj2 (@store_memory_result_shapes Demo.host
           (Demo.store (Some "likes tea") (Some Demo.database))
           Demo.database "likes tea" (PyStr "m2")
           eq_refl eq_refl eq_refl eq_refl eq_refl)) eq_refl eq_refl).
Defined.

(** ** The memory component, further *)

Module MemoryMore.
Import Memory MemoryFacts.

Ltac frame_done :=
  split; [eexists; reflexivity|];
  split; [repeat split|];
  eexists; repeat rewrite <- app_assoc; simpl;
  first [reflexivity | symmetry; apply app_nil_r].

(** [build_memory] always returns, leaves the input fields as they were,
    and only adds to the log. *)
Lemma build_frame_events {host : Host} st :
  (exists r, fst (build_memory st) = Return r)
  /\ same_inputs (self st) (self (snd (build_memory st)))
  /\ exists new, log (snd (build_memory st)) = (log st ++ new)%list.
Proof.
  open_state st. unfold same_inputs.
  unfold build_memory, build_attempt, build_failed, _process_message,
    process_attempt, process_failed, load_context.
  unfold Prog.bind, Prog.ret, Prog.try, Prog.get_self, Prog.update,
    Prog.lift, Prog.probe, Prog.call, Prog.create.
  unfold import_create_eliza_memory, create_eliza_memory. simpl.
  destruct eliza_memory_module as [factory|import_error]; simpl.
  2: frame_done.
  destruct (usable ex) as [inst|] eqn:Hi; simpl.
  - destruct msg as [[|ch m]|]; simpl; rewrite ?Hi; simpl.
    all: repeat (case_step; simpl).
    all: try (destruct inc; simpl; repeat (case_step; simpl)).
    all: frame_done.
  - destruct (factory lg sid uid ext) as [created|e]; simpl.
    2: frame_done.
    destruct msg as [[|ch m]|]; simpl.
    all: repeat (case_step; simpl).
    all: try (destruct inc; simpl; repeat (case_step; simpl)).
    all: frame_done.
Qed.

Lemma build_log_grows {host : Host} st :
  log (snd (build_memory st)) = (log st ++ new_events build_memory st)%list.
Proof.
  destruct (build_frame_events st) as [_ [_ [new E]]].
  unfold new_events. rewrite E. now rewrite events_after_app.
Qed.

(** What an output method adds to [build_memory] leaves the state alone. *)
Lemma build_output_state {host : Host} {A} (k : Component -> A) st :
  exists a,
    Prog.bind build_memory (fun _ => Prog.bind Prog.get_self
                                       (fun c => Prog.ret (k c))) st
    = (Return a, snd (build_memory st)).
Proof.
  destruct (build_frame_events st) as [[r R] _].
  unfold Prog.bind, Prog.get_self, Prog.ret.
  destruct (build_memory st) as [[r'|e] st']; simpl in *;
    [eauto|discriminate R].
Qed.

End MemoryMore.

(** [get_relevant_memories] iterates over what the search returned
    outside any [try] block. *)
Example relevant_memories_not_iterable :
  fst (@Memory.get_relevant_memories Demo.host
         (Demo.memory (Some "hi") (Some Sample.silent)))
  = Raise "'NoneType' object is not iterable".
Proof. reflexivity. Qed.

(** X16.  Without a message (absent or empty) [build_memory] touches
    nothing on the memory object, whether the instance is the existing
    one or comes from the factory, and leaves the memory context, the
    stored message and the relevant memories as they were. *)
Theorem no_message_no_operation {host : Host} (st : Run Memory.Component) :
  text_truthy (Memory.message (self st)) = false ->
  let after := self (snd (Memory.build_memory st)) in
  members_touched (new_events Memory.build_memory st) = []
  /\ Memory._memory_context after = Memory._memory_context (self st)
  /\ Memory._stored_message after = Memory._stored_message (self st)
  /\ Memory._relevant_memories after = Memory._relevant_memories (self st).
Proof.
  MemoryFacts.open_state st. intros Hm. MemoryFacts.open_memory.
  rewrite Hm. simpl.
  MemoryFacts.import_cases; [|settle_log; repeat split].
  destruct (usable ex) as [inst|]; simpl.
  - settle_log. repeat split.
  - destruct (factory lg sid uid ext); simpl;
      settle_log; repeat split.
Qed.

Lemma no_message_no_operation_witness :
  let st := Demo.memory (Some "") (Some Demo.engine) in
  let after := self (snd (@Memory.build_memory Demo.host st)) in
  members_touched (new_events (@Memory.build_memory Demo.host) st) = []
  /\ Memory._memory_context after = PyStr ""
  /\ Memory._stored_message after = None
  /\ Memory._relevant_memories after = PyList [].
Proof.
  exact (@no_message_no_operation Demo.host
           (Demo.memory (Some "") (Some Demo.engine)) eq_refl).
Defined.

Lemma usable_some (h : option Instance) inst :
  usable h = Some inst -> h = Some inst /\ inst_truthy inst = true.
Proof.
  destruct h as [i|]; simpl; [|discriminate].
  destruct (inst_truthy i) eqn:T; [|discriminate].
  intros H. inversion H. subst. now split.
Qed.

(** What [build_memory] calls for a message is a prefix of the full
    sequence. *)
Lemma calls_are_a_prefix {host : Host} (st : Run Memory.Component) msg :
  usable_text (Memory.message (self st)) = Some msg ->
  exists rest,
    process_calls (self st) msg
    = (method_calls (new_events Memory.build_memory st) ++ rest)%list.
Proof.
  destruct st as [[sid uid msg0 ext inc mx md ex stat mi mc sm rel] lg].
  simpl in *. intros Hm. unfold process_calls. simpl.
  MemoryFacts.open_memory.
  destruct msg0 as [[|ch m]|]; simpl in Hm; try discriminate Hm.
  inversion Hm; subst msg. simpl.
  MemoryFacts.import_cases; [|settle_log; eexists; reflexivity].
  destruct (usable ex) as [inst|] eqn:Hi; simpl; rewrite ?Hi; simpl.
  - repeat (MemoryFacts.case_step; simpl).
    all: destruct inc; simpl.
    all: repeat (MemoryFacts.case_step; simpl).
    all: settle_log; eexists; reflexivity.
  - destruct (factory lg sid uid ext) as [created|e]; simpl.
    2: { settle_log. eexists. reflexivity. }
    repeat (MemoryFacts.case_step; simpl).
    all: try (destruct inc; simpl).
    all: repeat (MemoryFacts.case_step; simpl).
    all: settle_log; eexists; reflexivity.
Qed.

(** A run that returns an instance that counts as true has called its
    [save_context] first. *)
Lemma save_context_first {host : Host} (st : Run Memory.Component) msg inst :
  usable_text (Memory.message (self st)) = Some msg ->
  fst (Memory.build_memory st) = Return (Some inst) ->
  inst_truthy inst = true ->
  exists rest,
    method_calls (new_events Memory.build_memory st)
    = SaveContext
        (PyDict (Memory.context_inputs msg (Memory.metadata (self st))))
        (PyDict [("output", PyStr "")]) :: rest.
Proof.
  destruct st as [[sid uid msg0 ext inc mx md ex stat mi mc sm rel] lg].
  simpl in *. intros Hm.
  MemoryFacts.open_memory.
  destruct msg0 as [[|ch m]|]; simpl in Hm; try discriminate Hm.
  inversion Hm; subst msg. simpl.
  MemoryFacts.import_cases; [|intros H; discriminate H].
  destruct (usable ex) as [used|] eqn:Hi; simpl; rewrite ?Hi; simpl.
  - repeat (MemoryFacts.case_step; simpl).
    all: destruct inc; simpl.
    all: repeat (MemoryFacts.case_step; simpl).
    all: intros _ _; settle_log; eexists; reflexivity.
  - destruct (factory lg sid uid ext) as [created|e]; simpl.
    2: { intros H. discriminate H. }
    destruct (inst_truthy created) eqn:T; simpl.
    2: { intros H T'. inversion H; subst. rewrite T in T'. discriminate T'. }
    repeat (MemoryFacts.case_step; simpl).
    all: try (destruct inc; simpl).
    all: repeat (MemoryFacts.case_step; simpl).
    all: intros _ _; settle_log; eexists; reflexivity.
Qed.

(** Rewrites with the responses known so far. *)
Ltac known_responses :=
  repeat match goal with
         | E : inst_respond _ _ _ = _ |- _ => rewrite E; simpl
         | E : Py.bound_get _ = _ |- _ => rewrite E; simpl
         | E : Py.get_by _ _ _ = _ |- _ => rewrite E; simpl
         end.

(** Where the calls stop short of the full sequence, an exception ended
    one of the two [try] blocks, or the instance in use counts as false. *)
Lemma early_stop_cause {host : Host} (st : Run Memory.Component) msg :
  usable_text (Memory.message (self st)) = Some msg ->
  method_calls (new_events Memory.build_memory st)
  <> process_calls (self st) msg ->
  (exists e, fst (Memory.build_attempt st) = Raise e)
  \/ (exists inst,
        fst (Memory.build_memory st) = Return (Some inst)
        /\ inst_truthy inst = false)
  \/ (exists inst e,
        fst (Memory.build_memory st) = Return (Some inst)
        /\ fst (Memory.process_attempt inst msg (process_entry st inst))
           = Raise e).
Proof.
  destruct st as [[sid uid msg0 ext inc mx md ex stat mi mc sm rel] lg].
  simpl in *. intros Hm. unfold process_calls, process_entry. simpl.
  MemoryFacts.open_memory.
  destruct msg0 as [[|ch m]|]; simpl in Hm; try discriminate Hm.
  inversion Hm; subst msg. simpl.
  MemoryFacts.import_cases; [|intros _; left; eexists; reflexivity].
  destruct (usable ex) as [used|] eqn:Hi; simpl; rewrite ?Hi; simpl.
  - destruct (usable_some ex used Hi) as [-> T].
    repeat (MemoryFacts.case_step; simpl).
    all: destruct inc; simpl.
    all: repeat (MemoryFacts.case_step; simpl).
    all: settle_log; intros N.
    all: try (exfalso; apply N; reflexivity).
    all: right; right; exists used; eexists; split; [reflexivity|].
    all: flatten_logs; known_responses; reflexivity.
  - destruct (factory lg sid uid ext) as [created|e]; simpl.
    2: { intros _. left. eexists. reflexivity. }
    destruct (inst_truthy created) eqn:T; simpl.
    2: { intros _. right. left. exists created. now split. }
    repeat (MemoryFacts.case_step; simpl).
    all: try (destruct inc; simpl).
    all: repeat (MemoryFacts.case_step; simpl).
    all: settle_log; intros N.
    all: try (exfalso; apply N; reflexivity).
    all: right; right; exists created; eexists; split; [reflexivity|].
    all: flatten_logs; known_responses; reflexivity.
Qed.

(** X17.  The method calls that [build_memory] makes for a message are
    always a prefix of one fixed sequence: [save_context] with the inputs
    dictionary and [{"output": ""}], then, when [include_context] is set,
    [search_memories(message, limit=max_memories)] and
    [load_memory_variables] with the same inputs, then [_get_timestamp].
    A run that returns an instance that counts as true has made at least
    the first of these calls.  The sequence stops short only where an
    exception ended the [try] block of [build_memory] (the import or the
    factory raised), where the instance that the factory returned counts
    as false, or where an exception ended the [try] block of
    [_process_message]. *)
Theorem process_calls_in_order {host : Host} (st : Run Memory.Component) msg :
  usable_text (Memory.message (self st)) = Some msg ->
  let made := method_calls (new_events Memory.build_memory st) in
  (exists rest, process_calls (self st) msg = (made ++ rest)%list)
  /\ (forall inst,
        fst (Memory.build_memory st) = Return (Some inst) ->
        inst_truthy inst = true ->
        exists rest,
          made
          = SaveContext
              (PyDict (Memory.context_inputs msg (Memory.metadata (self st))))
              (PyDict [("output", PyStr "")]) :: rest)
  /\ (made <> process_calls (self st) msg ->
      (exists e, fst (Memory.build_attempt st) = Raise e)
      \/ (exists inst,
            fst (Memory.build_memory st) = Return (Some inst)
            /\ inst_truthy inst = false)
      \/ (exists inst e,
            fst (Memory.build_memory st) = Return (Some inst)
            /\ fst (Memory.process_attempt inst msg (process_entry st inst))
               = Raise e)).
Proof.
  intros Hm made. split; [|split].
  - exact (calls_are_a_prefix st msg Hm).
  - intros inst. exact (save_context_first st msg inst Hm).
  - exact (early_stop_cause st msg Hm).
Qed.

Lemma process_calls_in_order_witness :
  let st := Demo.memory (Some "hi") (Some Demo.read_only) in
  let made := method_calls (new_events (@Memory.build_memory Demo.host) st) in
  made
  = [SaveContext (PyDict [("input", PyStr "hi")])
       (PyDict [("output", PyStr "")])]
  /\ (exists rest, process_calls (self st) "hi" = (made ++ rest)%list)
  /\ (exists e,
        fst (Memory.process_attempt Demo.read_only "hi"
               (process_entry st Demo.read_only)) = Raise e).
Proof.
  destruct (@process_calls_in_order Demo.host
              (Demo.memory (Some "hi") (Some Demo.read_only)) "hi" eq_refl)
    as [prefix [_ cause]].
  split; [reflexivity|]. split; [exact prefix|].
  destruct cause as [[e E]|[[inst [R F]]|[inst [e [R E]]]]].
  - intros H. vm_compute in H. discriminate H.
  - vm_compute in E. discriminate E.
  - vm_compute in R. inversion R. subst inst. discriminate F.
  - exists e. vm_compute in R. inversion R. subst inst. exact E.
Defined.

(** X18.  A message processed with an existing instance and context
    enabled, when the import of the factory succeeds, every call returns,
    [load_memory_variables] returns a dictionary and the lookup of the
    instance's [memory_key] in it returns (the key is hashable): all four method calls are made, the relevant memories
    are the answer of [search_memories], the memory context is the entry
    of the loaded variables under the instance's [memory_key] (the empty
    string when there is none), the stored message holds the message, the
    session, the user, the instance's timestamp and the metadata (an
    empty dictionary when there is none), the status is not touched and
    the instance is returned. *)
Theorem message_processed {host : Host} (st : Run Memory.Component)
    factory inst msg saved found vars key ctx timestamp :
  eliza_memory_module = Return factory ->
  usable (Memory.existing_memory (self st)) = Some inst ->
  usable_text (Memory.message (self st)) = Some msg ->
  Memory.include_context (self st) = true ->
  let c := self st in
  let inputs := PyDict (Memory.context_inputs msg (Memory.metadata c)) in
  let save := SaveContext inputs (PyDict [("output", PyStr "")]) in
  let search := SearchMemories msg None (Memory.max_memories c) in
  let load := LoadMemoryVariables inputs in
  inst_respond inst (log st) save = Return saved ->
  inst_respond inst (after_calls (log st) inst [save]) search = Return found ->
  inst_respond inst (after_calls (log st) inst [save; search]) load
  = Return (PyDict vars) ->
  inst_respond inst (after_calls (log st) inst [save; search; load])
    (GetAttr "memory_key") = Return key ->
  Py.get_by vars key (PyStr "") = Return ctx ->
  inst_respond inst
    (after_calls (log st) inst [save; search; load; GetAttr "memory_key"])
    GetTimestamp = Return timestamp ->
  let after := self (snd (Memory.build_memory st)) in
  fst (Memory.build_memory st) = Return (Memory.existing_memory c)
  /\ method_calls (new_events Memory.build_memory st) = process_calls c msg
  /\ Memory._relevant_memories after = found
  /\ Memory._memory_context after = ctx
  /\ Memory._stored_message after = Some (message_envelope c msg timestamp)
  /\ Memory.status after = Memory.status c.
Proof.
  destruct st as [[sid uid msg0 ext inc mx md ex stat mi mc sm rel] lg].
  simpl in *. intros Hf Hi Hm Hc. subst inc.
  unfold after_calls, process_calls, message_envelope. simpl.
  intros R1 R2 R3 R4 K R5.
  MemoryFacts.open_memory. rewrite Hf. simpl. rewrite Hi. simpl.
  destruct msg0 as [[|ch m]|]; simpl in Hm; try discriminate Hm.
  inversion Hm; subst msg. simpl. rewrite Hi. simpl.
  rewrite R1. simpl. rewrite R2. simpl.
  flatten_logs. rewrite R3. simpl. rewrite R4. simpl. rewrite K. simpl.
  rewrite R5. simpl. settle_log.
  destruct md as [[|kv rest]|]; repeat split.
Qed.

Lemma message_processed_witness :
  let st := Demo.memory (Some "hi") (Some Demo.engine) in
  let after := self (snd (@Memory.build_memory Demo.host st)) in
  fst (@Memory.build_memory Demo.host st) = Return (Some Demo.engine)
  /\ method_calls (new_events (@Memory.build_memory Demo.host) st)
     = [SaveContext (PyDict [("input", PyStr "hi")])
          (PyDict [("output", PyStr "")]);
        SearchMemories "hi" None 5;
        LoadMemoryVariables (PyDict [("input", PyStr "hi")]);
        GetTimestamp]
  /\ Memory._relevant_memories after = PyList [Demo.tea]
  /\ Memory._memory_context after = PyStr "likes tea"
  /\ Memory._stored_message after
     = Some (mkData (PyDict
         [("content", PyStr "hi"); ("session_id", PyStr "default_session");
          ("user_id", PyStr "anonymous");
          ("timestamp", PyStr "2024-01-01T00:00:00");
          ("metadata", PyDict [])]))
  /\ Memory.status after = "".
Proof.
  exact (@message_processed Demo.host
           (Demo.memory (Some "hi") (Some Demo.engine))
           (fun _ _ _ _ => Return Demo.engine) Demo.engine "hi"
           PyNone (PyList [Demo.tea]) [("history", PyStr "likes tea")]
           (PyStr "history") (PyStr "likes tea")
           (PyStr "2024-01-01T00:00:00")
           eq_refl eq_refl eq_refl eq_refl eq_refl eq_refl eq_refl eq_refl
           eq_refl eq_refl).
Defined.

Lemma dict_get_absent k d : ~ In k (map fst d) -> Py.dict_get k d = None.
Proof.
  induction d as [|[k' v'] d IH]; simpl; [reflexivity|]. intros N.
  destruct (String.eqb k k') eqn:E.
  - apply String.eqb_eq in E. subst. exfalso. apply N. now left.
  - apply IH. intros H. apply N. now right.
Qed.

(** [update] gives every key of the other dictionary its value there and
    keeps the other keys. *)
Lemma dict_get_update k d : forall base,
  NoDup (map fst d) ->
  Py.dict_get k (Py.dict_update base d)
  = match Py.dict_get k d with
    | Some v => Some v
    | None => Py.dict_get k base
    end.
Proof.
  unfold Py.dict_update.
  induction d as [|[k0 v0] d IH]; intros base N; simpl; [reflexivity|].
  inversion N as [|? ? Hn Hd]; subst.
  rewrite IH by exact Hd.
  destruct (String.eqb k k0) eqn:E.
  - apply String.eqb_eq in E. subst k0.
    rewrite (dict_get_absent k d Hn). apply dict_get_set_same.
  - destruct (Py.dict_get k d); [reflexivity|].
    apply dict_get_set_other. intros ->. now rewrite String.eqb_refl in E.
Qed.

(** X19.  The inputs dictionary handed to [save_context] and
    [load_memory_variables] is the message under ["input"], updated with
    the metadata: every metadata key is in it with its metadata value, so
    that a metadata key ["input"] replaces the message; without such a
    key ["input"] is the message, and no other key is added. *)
Theorem inputs_carry_metadata (msg : string) (d : Py.dict) :
  NoDup (map fst d) ->
  let inputs := Memory.context_inputs msg (Some d) in
  (forall k v, Py.dict_get k d = Some v -> Py.dict_get k inputs = Some v)
  /\ (Py.dict_get "input" d = None ->
      Py.dict_get "input" inputs = Some (PyStr msg))
  /\ (forall k, k <> "input" -> Py.dict_get k d = None ->
      Py.dict_get k inputs = None).
Proof.
  intros N. simpl.
  assert (E : forall k,
             Py.dict_get k (Memory.context_inputs msg (Some d))
             = match Py.dict_get k d with
               | Some v => Some v
               | None => Py.dict_get k [("input", PyStr msg)]
               end).
  { intros k. unfold Memory.context_inputs. simpl.
    destruct d as [|kv rest]; [reflexivity|].
    now rewrite dict_get_update. }
  split; [|split].
  - intros k v H. now rewrite E, H.
  - intros H. now rewrite E, H.
  - intros k Hk H. rewrite E, H. simpl.
    destruct (String.eqb k "input") eqn:K; [|reflexivity].
    apply String.eqb_eq in K. contradiction.
Qed.

Lemma inputs_carry_metadata_witness :
  let inputs :=
    Memory.context_inputs "hi"
      (Some [("topic", PyStr "tea"); ("input", PyStr "replaced")]) in
  Py.dict_get "input" inputs = Some (PyStr "replaced")
  /\ Py.dict_get "topic" inputs = Some (PyStr "tea").
Proof.
  assert (N : NoDup (map fst [("topic", PyStr "tea"); ("input", PyStr "replaced")])).
  { simpl. constructor; [simpl; intros [H|[]]; discriminate H|].
    constructor; [intros []|constructor]. }
  destruct (inputs_carry_metadata "hi"
              [("topic", PyStr "tea"); ("input", PyStr "replaced")] N)
    as [every _].
  split; apply every; reflexivity.
Defined.

(** X20.  Every output method of the memory component runs [build_memory]
    again: when the import of the factory succeeds and there is no
    existing instance, evaluating the memory-context
    output and then the memory-instance output calls the factory twice,
    with the same session, user and extraction flag, so that each output
    works on what its own factory call returns. *)
Theorem memory_outputs_build_again {host : Host} (st : Run Memory.Component)
    factory :
  eliza_memory_module = Return factory ->
  usable (Memory.existing_memory (self st)) = None ->
  let c := self st in
  let made :=
    Created (Memory.session_id c) (Memory.user_id c)
      (Memory.extract_memories c) in
  factory_calls
    (new_events
       (then_output Memory.get_memory_context Memory.get_memory_instance) st)
  = [made; made].
Proof.
  intros Hf Hi. simpl.
  set (st1 := snd (Memory.build_memory st)).
  destruct (MemoryMore.build_output_state
              (fun c => mkMessage
                          (if Py.truthy (Memory._memory_context c)
                           then Memory._memory_context c
                           else PyStr "No memory context available.")) st)
    as [m E1].
  fold Memory.get_memory_context in E1. fold st1 in E1.
  assert (K : new_events Memory.get_memory_context st
              = new_events Memory.build_memory st).
  { apply new_events_then. intros a [c lg]. reflexivity. }
  assert (L1 : log st1 = (log st ++ new_events Memory.build_memory st)%list)
    by apply MemoryMore.build_log_grows.
  rewrite (new_events_seq _ _ st m st1 E1); unfold Memory.get_memory_instance;
    [|now rewrite K|apply MemoryMore.build_log_grows].
  rewrite K, factory_calls_app.
  destruct (MemoryMore.build_frame_events st)
    as [_ [[Ss [Su [_ [Sx [_ [_ [_ Se]]]]]]] _]].
  fold st1 in Ss, Su, Sx, Se.
  destruct (MemoryFacts.factory_used st factory Hf Hi) as [rest [N [F _]]].
  assert (Hi1 : usable (Memory.existing_memory (self st1)) = None)
    by now rewrite Se.
  destruct (MemoryFacts.factory_used st1 factory Hf Hi1) as [rest1 [N1 [F1 _]]].
  simpl in N, N1. rewrite N, N1. simpl. rewrite F, F1, Ss, Su, Sx.
  reflexivity.
Qed.

Lemma memory_outputs_build_again_witness :
  factory_calls
    (new_events
       (then_output (@Memory.get_memory_context Demo.host)
          (@Memory.get_memory_instance Demo.host))
       (Demo.memory (Some "hi") None))
  = [Created "default_session" "anonymous" true;
     Created "default_session" "anonymous" true].
Proof.
  exact (@memory_outputs_build_again Demo.host
           (Demo.memory (Some "hi") None) _ eq_refl eq_refl).
Defined.

(** X21.  With [include_context] off, a run of [build_memory] touches
    only [save_context] and [_get_timestamp] on the memory object: it
    never searches, loads variables or reads [memory_key], and it leaves
    the relevant memories and the memory context as they were. *)
Theorem context_off_skips_retrieval {host : Host} (st : Run Memory.Component) :
  Memory.include_context (self st) = false ->
  let after := self (snd (Memory.build_memory st)) in
  forallb (is_member_of ["save_context"; "_get_timestamp"])
    (members_touched (new_events Memory.build_memory st)) = true
  /\ Memory._relevant_memories after = Memory._relevant_memories (self st)
  /\ Memory._memory_context after = Memory._memory_context (self st).
Proof.
  MemoryFacts.open_state st. intros Hc. subst inc. MemoryFacts.open_memory.
  MemoryFacts.import_cases; [|settle_log; repeat split].
  destruct (usable ex) as [inst|] eqn:Hi; simpl.
  - destruct msg as [[|ch m]|]; simpl; rewrite ?Hi; simpl.
    all: repeat (MemoryFacts.case_step; simpl).
    all: settle_log; repeat split.
  - destruct (factory lg sid uid ext) as [created|e]; simpl.
    2: { settle_log. repeat split. }
    destruct msg as [[|ch m]|]; simpl.
    all: repeat (MemoryFacts.case_step; simpl).
    all: settle_log; repeat split.
Qed.

Lemma context_off_skips_retrieval_witness :
  let st :=
    mkRun
      (Memory.mkComponent "default_session" "anonymous" (Some "hi") true false
         5%Z None (Some Demo.engine) "" None (PyStr "") None (PyList []))
      [] in
  let after := self (snd (@Memory.build_memory Demo.host st)) in
  forallb (is_member_of ["save_context"; "_get_timestamp"])
    (members_touched (new_events (@Memory.build_memory Demo.host) st)) = true
  /\ Memory._relevant_memories after = PyList []
  /\ Memory._memory_context after = PyStr "".
Proof.
  exact (@context_off_skips_retrieval Demo.host
           (mkRun
              (Memory.mkComponent "default_session" "anonymous" (Some "hi")
                 true false 5%Z None (Some Demo.engine) "" None (PyStr "")
                 None (PyList []))
              []) eq_refl).
Defined.



(** X23.  A run of [store_memory] stopped by a guard leaves the stored
    memory and the memory id as they were, so [get_memory_id] reports the
    id cached before, or ['No memory ID available'] when that one is
    false in a condition, as it is on a component fresh from its
    constructor. *)
Theorem guarded_store_reports_cache {host : Host} (st : Run Store.Component) :
  usable (Store.memory_instance (self st)) = None
  \/ usable_text (Store.content (self st)) = None ->
  let after := self (snd (Store.store_memory st)) in
  Store._stored_memory after = Store._stored_memory (self st)
  /\ Store._memory_id after = Store._memory_id (self st)
  /\ fst (Store.get_memory_id st)
     = Return (mkMessage
                 (if Py.truthy (Store._memory_id (self st))
                  then Store._memory_id (self st)
                  else PyStr "No memory ID available")).
Proof.
  intros H. simpl.
  unfold Store.get_memory_id, Prog.bind, Prog.get_self, Prog.ret.
  rewrite (StoreFacts.store_guarded st H).
  destruct st as [c lg]. destruct c. simpl. repeat split.
Qed.

Lemma guarded_store_reports_cache_witness :
  let st :=
    mkRun (init_store (self (Demo.store None (Some Demo.engine)))) [] in
  let after := self (snd (@Store.store_memory Demo.host st)) in
  Store._stored_memory after = None
  /\ Store._memory_id after = PyNone
  /\ fst (@Store.get_memory_id Demo.host st)
     = Return (mkMessage (PyStr "No memory ID available")).
Proof.
  exact (@guarded_store_reports_cache Demo.host
           (mkRun (init_store (self (Demo.store None (Some Demo.engine)))) [])
           (or_intror eq_refl)).
Defined.

(** X24.  On a memory component fresh from its constructor and without a
    message, the outputs are the defaults: [get_memory_context] returns
    ['No memory context available.'], [get_stored_message] the empty
    envelope and [get_relevant_memories] the empty list, with an existing
    instance as with one from the factory, and also when the factory
    raises. *)
Theorem fresh_memory_outputs {host : Host} (c : Memory.Component) (lg : Log) :
  text_truthy (Memory.message c) = false ->
  let st := mkRun (init_memory c) lg in
  fst (Memory.get_memory_context st)
  = Return (mkMessage (PyStr "No memory context available."))
  /\ fst (Memory.get_stored_message st) = Return empty_data
  /\ fst (Memory.get_relevant_memories st) = Return [].
Proof.
  destruct c as [sid uid msg ext inc mx md ex stat mi mc sm rel].
  unfold init_memory. simpl. intros Hm. MemoryFacts.open_memory.
  rewrite Hm. simpl.
  MemoryFacts.import_cases; [|repeat split].
  destruct (usable ex) as [inst|]; simpl; [repeat split|].
  destruct (factory lg sid uid ext); simpl; repeat split.
Qed.

Lemma fresh_memory_outputs_witness :
  let st := mkRun (init_memory (self (Demo.memory None None))) [] in
  fst (@Memory.get_memory_context Demo.broken_host st)
  = Return (mkMessage (PyStr "No memory context available."))
  /\ fst (@Memory.get_stored_message Demo.broken_host st) = Return empty_data
  /\ fst (@Memory.get_relevant_memories Demo.broken_host st) = Return [].
Proof.
  exact (@fresh_memory_outputs Demo.broken_host
           (self (Demo.memory None None)) [] eq_refl).
Defined.
